(** * Systemic-risk engine (matrix_metrics_app/src/core)

    A shallow embedding of [SystemicRiskCalculator] (systemic_risk.py) and of
    [calculate_eigenvector_centrality] (network_utils.py), with the properties
    the specification states about them.

    Numbers.  The program computes with numpy arrays in the dtype pandas
    hands over: [int64] for integer data, [float64] otherwise; nothing in the
    class converts one into the other.  The development has two layers.

    - The exact layer reads every finite value as the real number it stands
      for and keeps one non-finite value, [NaN].  It carries the structure of
      the class: construction and validation, the three cache attributes, the
      order of evaluation, the errors raised, and the identities of exact
      arithmetic behind the formulas.

    - The layer [Machine] computes as numpy does: [int64] with wrap-around
      modulo [2^64], IEEE binary64 with its rounding, overflow, underflow and
      NaN, and the conversions between the two.  The statements that depend
      on how a number is computed are made there.  Sums are taken from left
      to right starting from zero, which is the order of [np.sum] for fewer
      than eight terms, and a matrix product rounds each product and each
      partial sum; on [int64] data the order is immaterial, on [float64] data
      a library that fuses the multiplication with the addition can differ
      from it in the last place. *)

From Stdlib Require Import ZArith Floats.
From Stdlib Require Uint63.
From Stdlib Require Import String DecimalString.
From Stdlib Require Import Reals Lra List Arith Lia Bool.
Import ListNotations.

Open Scope R_scope.

(** ** float64 values: a real number or NaN *)

Inductive float64 : Type :=
| Fin (x : R)
| NaN.

Definition fadd (a b : float64) : float64 :=
  match a, b with
  | Fin x, Fin y => Fin (x + y)
  | _, _ => NaN
  end.

Definition fsub (a b : float64) : float64 :=
  match a, b with
  | Fin x, Fin y => Fin (x - y)
  | _, _ => NaN
  end.

Definition fmul (a b : float64) : float64 :=
  match a, b with
  | Fin x, Fin y => Fin (x * y)
  | _, _ => NaN
  end.

(** [0/0] is NaN as in IEEE 754.  [x/0] with [x <> 0] is an infinity there;
    no method of the class divides by a zero it has not tested for (every
    division below sits under an [== 0] guard or divides by a length), so
    the embedding has no infinities and gives that case NaN too. *)
Definition fdiv (a b : float64) : float64 :=
  match a, b with
  | Fin x, Fin y => if Req_dec_T y 0 then NaN else Fin (x / y)
  | _, _ => NaN
  end.

(** [np.sqrt]: NaN (with a RuntimeWarning, no exception) below zero. *)
Definition np_sqrt (a : float64) : float64 :=
  match a with
  | Fin x => if Rlt_dec x 0 then NaN else Fin (sqrt x)
  | NaN => NaN
  end.

(** [a == b] on floats: false as soon as one side is NaN. *)
Definition feqb (a b : float64) : bool :=
  match a, b with
  | Fin x, Fin y => if Req_dec_T x y then true else false
  | _, _ => false
  end.

Definition fzero : float64 := Fin 0.

(** ** Python outcomes *)

Inductive exn : Type :=
| ValueError (msg : string)
| RuntimeError (msg : string)
| LinAlgError (msg : string)
| PowerIterationFailedConvergence (iterations : nat)
| OtherException (msg : string).

Inductive result (A : Type) : Type :=
| Return (a : A)
| Raise (e : exn).

Arguments Return {A} a.
Arguments Raise {A} e.

Definition exn_text (e : exn) : string :=
  match e with
  | ValueError m => m
  | RuntimeError m => m
  | LinAlgError m => m
  | PowerIterationFailedConvergence _ =>
      "power iteration failed to converge"%string
  | OtherException m => m
  end.

(** ** Arrays *)

(** One-dimensional arrays are lists; [tab n f] is the array [f 0 .. f (n-1)]. *)
Definition tab {A : Type} (n : nat) (f : nat -> A) : list A :=
  map f (seq 0 n).

Definition get1 (v : list float64) (i : nat) : float64 := nth i v NaN.

(** Two-dimensional data: the rows, and the column count (so that an array
    with no rows still has a shape). *)
Record matrix (A : Type) : Type := Mat {
  ncols : nat;
  rows : list (list A)
}.

Arguments Mat {A} ncols rows.
Arguments ncols {A} m.
Arguments rows {A} m.

Definition nrows {A : Type} (M : matrix A) : nat := length (rows M).

Definition shape {A : Type} (M : matrix A) : nat * nat := (nrows M, ncols M).

Definition ndarray2 : Type := matrix float64.

(** A pandas DataFrame of numbers (labels are not modelled: every output is
    positional). *)
Definition DataFrame : Type := matrix R.

(** A pandas Series of numbers. *)
Definition Series : Type := list R.

(** Every row has [ncols] cells: true of any DataFrame and any 2-D array. *)
Definition rectangular {A : Type} (M : matrix A) : bool :=
  forallb (fun r => Nat.eqb (length r) (ncols M)) (rows M).

Definition get2 (M : ndarray2) (i j : nat) : float64 :=
  nth j (nth i (rows M) []) NaN.

Definition cell (M : DataFrame) (i j : nat) : R :=
  nth j (nth i (rows M) []) 0.

Definition tab2 {A : Type} (r c : nat) (f : nat -> nat -> A) : matrix A :=
  Mat c (tab r (fun i => tab c (fun j => f i j))).

(** ** numpy primitives used by the engine *)

(** [np.array(series)], [np.array(dataframe)]. *)
Definition np_array1 (s : Series) : list float64 := map Fin s.

Definition np_array2 (d : DataFrame) : ndarray2 :=
  Mat (ncols d) (map (map Fin) (rows d)).

Definition ndim1 (v : list float64) : nat := 1%nat.
Definition ndim2 (M : ndarray2) : nat := 2%nat.

(** [np.sum(v)]: left-to-right accumulation from 0. *)
Definition np_sum (v : list float64) : float64 := fold_left fadd v fzero.

(** [np.sum(M, axis=1)]: one sum per row. *)
Definition np_sum_axis1 (M : ndarray2) : list float64 := map np_sum (rows M).

(** [np.mean(v)]: the sum over the length; [0/0 = NaN] on the empty array. *)
Definition np_mean (v : list float64) : float64 :=
  fdiv (np_sum v) (Fin (INR (length v))).

(** [v ** 2]. *)
Definition np_square (v : list float64) : list float64 :=
  map (fun x => fmul x x) v.

(** [np.linalg.norm(v)] of a 1-D array: [sqrt(dot(v, v))]. *)
Definition np_linalg_norm (v : list float64) : float64 :=
  np_sqrt (np_sum (np_square v)).

Definition np_zeros (n : nat) : list float64 := tab n (fun _ => fzero).

Definition np_zeros2 (r c : nat) : ndarray2 := tab2 r c (fun _ _ => fzero).

(** [M.T]. *)
Definition np_transpose (M : ndarray2) : ndarray2 :=
  tab2 (ncols M) (nrows M) (fun i j => get2 M j i).

(** [v.reshape(-1, 1)]: a column. *)
Definition reshape_col (v : list float64) : ndarray2 :=
  Mat 1 (map (fun x => [x]) v).

(** [np.outer(u, v)]. *)
Definition np_outer (u v : list float64) : ndarray2 :=
  tab2 (length u) (length v) (fun i j => fmul (get1 u i) (get1 v j)).

(** [np.diag(v)] of a 1-D array. *)
Definition np_diag (v : list float64) : ndarray2 :=
  tab2 (length v) (length v)
       (fun i j => if Nat.eqb i j then get1 v i else fzero).

(** [M / s], [v / s] with a scalar [s]. *)
Definition np_div2s (M : ndarray2) (s : float64) : ndarray2 :=
  Mat (ncols M) (map (map (fun x => fdiv x s)) (rows M)).

Definition np_div1s (v : list float64) (s : float64) : list float64 :=
  map (fun x => fdiv x s) v.

Definition shape_error : exn :=
  ValueError "operands could not be broadcast together or are not aligned".

Definition shape_eqb (a b : nat * nat) : bool :=
  Nat.eqb (fst a) (fst b) && Nat.eqb (snd a) (snd b).

(** Element-wise operations on arrays of equal shape.  numpy raises a
    [ValueError] when the shapes differ (broadcasting of unequal extents other
    than 1 is not used by the engine and is not modelled). *)
Definition np_zip1 (op : float64 -> float64 -> float64)
                   (u v : list float64) : result (list float64) :=
  if Nat.eqb (length u) (length v)
  then Return (tab (length u) (fun i => op (get1 u i) (get1 v i)))
  else Raise shape_error.

Definition np_zip2 (op : float64 -> float64 -> float64)
                   (A B : ndarray2) : result ndarray2 :=
  if shape_eqb (shape A) (shape B)
  then Return (tab2 (nrows A) (ncols A)
                    (fun i j => op (get2 A i j) (get2 B i j)))
  else Raise shape_error.

(** [A @ B] for 2-D operands, and [A @ v] for a 1-D right operand. *)
Definition np_matmul (A B : ndarray2) : result ndarray2 :=
  if Nat.eqb (ncols A) (nrows B)
  then Return (tab2 (nrows A) (ncols B)
                 (fun i j =>
                    np_sum (tab (ncols A)
                                (fun k => fmul (get2 A i k) (get2 B k j)))))
  else Raise shape_error.

Definition np_matvec (A : ndarray2) (v : list float64) : result (list float64) :=
  if Nat.eqb (ncols A) (length v)
  then Return (tab (nrows A)
                 (fun i =>
                    np_sum (tab (ncols A)
                                (fun k => fmul (get2 A i k) (get1 v k)))))
  else Raise shape_error.

(** [M.item()] of a one-element array. *)
Definition item (M : ndarray2) : float64 := get2 M 0 0.

(** ** The calculator instance and its methods *)

(** The derived values an accessor can evaluate.  [evals] below records, most
    recent first, every evaluation of a formula body the instance has carried
    out; it is a ghost field (the program has no such attribute) used only to
    state what is and what is not recomputed. *)
Inductive metric : Type :=
| MScore | MGradient | MDecomposition | MCentrality | MCriticality
| MFragility | MNodeDegrees | MNormalizedScore | MCrossRisk.

Definition metric_eq_dec (a b : metric) : {a = b} + {a <> b}.
Proof. decide equality. Defined.

Record instance : Type := Instance {
  self_C : list float64;
  self_E : ndarray2;
  self_E_df : DataFrame;
  self_n : nat;
  self_s_score : option float64;
  self_centrality : option (list float64);
  self_gradient_s : option (list float64);
  evals : list metric
}.

(** A method: it may raise, and it may write the instance's attributes
    (which keep what was written before an exception). *)
Definition M (A : Type) : Type := instance -> result A * instance.

Definition ret {A : Type} (a : A) : M A := fun self => (Return a, self).

Definition bind {A B : Type} (c : M A) (k : A -> M B) : M B :=
  fun self =>
    match c self with
    | (Return a, self') => k a self'
    | (Raise e, self') => (Raise e, self')
    end.

Definition lift {A : Type} (r : result A) : M A := fun self => (r, self).

Definition rbind {A B : Type} (r : result A) (k : A -> result B) : result B :=
  match r with
  | Return a => k a
  | Raise e => Raise e
  end.

Declare Scope py_scope.
Delimit Scope py_scope with py.
Notation "x <- c ;; k" := (bind c (fun x => k))
  (at level 61, c at next level, right associativity) : py_scope.
Notation "c ;;; k" := (bind c (fun _ => k))
  (at level 61, right associativity) : py_scope.
Open Scope py_scope.

Definition get {A : Type} (field : instance -> A) : M A :=
  fun self => (Return (field self), self).

Definition tick (m : metric) : M unit :=
  fun self =>
    (Return tt,
     Instance (self_C self) (self_E self) (self_E_df self) (self_n self)
              (self_s_score self) (self_centrality self)
              (self_gradient_s self) (m :: evals self)).

Definition set_s_score (v : float64) : M unit :=
  fun self =>
    (Return tt,
     Instance (self_C self) (self_E self) (self_E_df self) (self_n self)
              (Some v) (self_centrality self)
              (self_gradient_s self) (evals self)).

Definition set_centrality (v : list float64) : M unit :=
  fun self =>
    (Return tt,
     Instance (self_C self) (self_E self) (self_E_df self) (self_n self)
              (self_s_score self) (Some v)
              (self_gradient_s self) (evals self)).

Definition set_gradient_s (v : list float64) : M unit :=
  fun self =>
    (Return tt,
     Instance (self_C self) (self_E self) (self_E_df self) (self_n self)
              (self_s_score self) (self_centrality self)
              (Some v) (evals self)).

(** The value a call returns and the instance it leaves. *)
Definition value {A : Type} (c : M A) (self : instance) : result A :=
  fst (c self).

Definition after {A : Type} (c : M A) (self : instance) : instance :=
  snd (c self).

(** [validate_inputs]: the three checks, in the order of the source. *)
Definition validate_inputs : M unit :=
  fun self =>
    if negb (Nat.eqb (ndim1 (self_C self)) 1) then
      (Raise (ValueError "Compromise vector must be a 1D array."), self)
    else if negb (Nat.eqb (ndim2 (self_E self)) 2)
            || negb (Nat.eqb (fst (shape (self_E self)))
                             (snd (shape (self_E self)))) then
      (Raise (ValueError "Adjacency matrix must be a 2D square matrix."), self)
    else if negb (Nat.eqb (self_n self) (fst (shape (self_E self)))) then
      (Raise (ValueError
         "Dimensions of compromise vector and adjacency matrix do not match."),
       self)
    else (Return tt, self).

(** [__init__]: the attributes are set, then validated; the object exists
    only if validation returns. *)
Definition init (compromise_vector : Series) (adjacency_matrix : DataFrame)
  : result instance :=
  let self :=
    Instance (np_array1 compromise_vector) (np_array2 adjacency_matrix)
             adjacency_matrix (length (np_array1 compromise_vector))
             None None None [] in
  match validate_inputs self with
  | (Return _, self') => Return self'
  | (Raise e, _) => Raise e
  end.

(** The specification's names for the two construction errors. *)
Definition NotSquare : exn :=
  ValueError "Adjacency matrix must be a 2D square matrix.".

Definition ShapeMismatch : exn :=
  ValueError
    "Dimensions of compromise vector and adjacency matrix do not match.".

(** [calculate_S]: [sqrt(C' E C)], the product taken left to right; whatever
    the body raises is re-raised by the two handlers. *)
Definition calculate_S_body (self : instance) : result float64 :=
  let c_col := reshape_col (self_C self) in
  rbind (np_matmul (np_transpose c_col) (self_E self)) (fun cE =>
  rbind (np_matmul cE c_col) (fun s_squared =>
  Return (np_sqrt (item s_squared)))).

Definition calculate_S : M float64 :=
  tick MScore ;;;
  (fun self =>
     match calculate_S_body self with
     | Return s => (Return s, self)
     | Raise (LinAlgError m) =>
         (Raise (ValueError
            ("Linear algebra error during S calculation: " ++ m)), self)
     | Raise e =>
         (Raise (RuntimeError
            ("An unexpected error occurred during S calculation: "
               ++ exn_text e)), self)
     end).

(** The [S] property. *)
Definition S_score : M float64 :=
  cached <- get self_s_score ;;
  match cached with
  | None =>
      s <- calculate_S ;;
      set_s_score s ;;;
      ret s
  | Some s => ret s
  end.

(** [_get_gradient]. *)
Definition _get_gradient : M (list float64) :=
  cached <- get self_gradient_s ;;
  match cached with
  | None =>
      s <- S_score ;;
      (if feqb s fzero then
         n <- get self_n ;;
         tick MGradient ;;;
         set_gradient_s (np_zeros n)
       else
         E <- get self_E ;;
         C <- get self_C ;;
         EEt <- lift (np_zip2 fadd E (np_transpose E)) ;;
         EEtC <- lift (np_matvec EEt C) ;;
         s2 <- S_score ;;
         tick MGradient ;;;
         set_gradient_s (np_div1s EEtC (fmul (Fin 2) s2))) ;;;
      g <- get self_gradient_s ;;
      match g with
      | Some g => ret g
      | None => ret []
      end
  | Some g => ret g
  end.

(** [calculate_risk_decomposition]: [C * gradient], element by element. *)
Definition calculate_risk_decomposition : M (list float64) :=
  gradient_s <- _get_gradient ;;
  tick MDecomposition ;;;
  C <- get self_C ;;
  lift (np_zip1 fmul C gradient_s).

(** [calculate_risk_increment]: the gradient itself. *)
Definition calculate_risk_increment : M (list float64) :=
  _get_gradient.

(** [calculate_node_degrees] and [calculate_fragility]. *)
Definition calculate_node_degrees : M (list float64) :=
  tick MNodeDegrees ;;;
  E <- get self_E ;;
  ret (np_sum_axis1 E).

Definition calculate_fragility : M float64 :=
  tick MFragility ;;;
  E <- get self_E ;;
  let degrees := np_sum_axis1 E in
  let mean_degree := np_mean degrees in
  if feqb mean_degree fzero then ret (Fin 0)
  else
    let mean_squared_degree := np_mean (np_square degrees) in
    ret (fdiv mean_squared_degree mean_degree).

(** [calculate_normalized_score]. *)
Definition calculate_normalized_score : M float64 :=
  tick MNormalizedScore ;;;
  C <- get self_C ;;
  let s_baseline := np_linalg_norm C in
  if feqb s_baseline fzero then ret (Fin 0)
  else
    s <- S_score ;;
    ret (fdiv s s_baseline).

(** [calculate_cross_risk]. *)
Definition calculate_cross_risk : M ndarray2 :=
  tick MCrossRisk ;;;
  s <- S_score ;;
  if feqb s fzero then
    n <- get self_n ;;
    ret (np_zeros2 n n)
  else
    g <- _get_gradient ;;
    E <- get self_E ;;
    C <- get self_C ;;
    EEt <- lift (np_zip2 fadd E (np_transpose E)) ;;
    let A := np_div2s EEt (Fin 2) in
    let g_outer := np_outer g g in
    AmG <- lift (np_zip2 fsub A g_outer) ;;
    s' <- S_score ;;
    let H := np_div2s AmG s' in
    HC <- lift (np_matmul H (np_diag C)) ;;
    lift (np_zip2 fadd (np_diag g) HC).

(** ** The engine in numpy's own arithmetic

    [np.array] keeps the dtype of the pandas object it is given: a column of
    integers is an [int64] array, whose sums and products wrap modulo [2^64];
    any other numeric column is a [float64] array, with IEEE 754 rounding,
    infinities, signed zeros and NaN.  The module below embeds the arithmetic
    methods of the class over these two dtypes.  [float64] is Rocq's primitive
    binary64 type, whose operations are those of the hardware.

    Sums ([np.sum], [np.mean], [@], [np.dot]) add their terms from left to
    right, starting from zero; numpy does so for fewer than eight terms, and
    may group a longer sum differently.  Starting from zero reads a sum of
    negative zeros as [+0]; no comparison in the class tells the two zeros
    apart. *)

Module Machine.

(** An [int64] result: the two's-complement reading of the low 64 bits. *)
Definition wrap (z : Z) : Z :=
  ((z + 9223372036854775808) mod 18446744073709551616 - 9223372036854775808)%Z.

(** A cell of an array, with its dtype. *)
Inductive num : Type :=
| I64 (z : Z)
| F64 (f : float).

(** [int64 -> float64], rounding to nearest even as the C cast does. *)
Definition of_int64 (z : Z) : float :=
  if (z <? 0)%Z then
    if (z =? -9223372036854775808)%Z then PrimFloat.opp 0x1p63%float
    else PrimFloat.opp (PrimFloat.of_uint63 (Uint63.of_Z (- z)))
  else PrimFloat.of_uint63 (Uint63.of_Z z).

Definition to_float (x : num) : float :=
  match x with
  | I64 z => of_int64 z
  | F64 f => f
  end.

(** [+] and [*]: in [int64] when both operands are, else in [float64]. *)
Definition add (x y : num) : num :=
  match x, y with
  | I64 a, I64 b => I64 (wrap (a + b))
  | _, _ => F64 (to_float x + to_float y)
  end.

Definition mul (x y : num) : num :=
  match x, y with
  | I64 a, I64 b => I64 (wrap (a * b))
  | _, _ => F64 (to_float x * to_float y)
  end.

(** [x < 0], in the dtype of [x]. *)
Definition negative (x : num) : bool :=
  match x with
  | I64 z => (z <? 0)%Z
  | F64 f => (f <? 0)%float
  end.

(** A pandas Series and a pandas DataFrame of numbers, by dtype (a frame
    that mixes integer and float columns reaches [np.array] as its [float64]
    upcast).  The cells of an integer column lie in the [int64] range. *)
Inductive Series : Type :=
| IntSeries (cells : list Z)
| FloatSeries (cells : list float).

Inductive DataFrame : Type :=
| IntFrame (cells : matrix Z)
| FloatFrame (cells : matrix float).

Definition np_array1 (s : Series) : list num :=
  match s with
  | IntSeries l => map I64 l
  | FloatSeries l => map F64 l
  end.

Definition np_array2 (d : DataFrame) : matrix num :=
  match d with
  | IntFrame m => Mat (ncols m) (map (map I64) (rows m))
  | FloatFrame m => Mat (ncols m) (map (map F64) (rows m))
  end.

Definition frame_rectangular (d : DataFrame) : bool :=
  match d with
  | IntFrame m => rectangular m
  | FloatFrame m => rectangular m
  end.

Definition at1 (v : list num) (i : nat) : num := nth i v (I64 0).

Definition at2 (M : matrix num) (i j : nat) : num :=
  nth j (nth i (rows M) []) (I64 0).

Definition fat1 (v : list float) (i : nat) : float := nth i v 0%float.

Definition fat2 (M : matrix float) (i j : nat) : float :=
  nth j (nth i (rows M) []) 0%float.

(** [np.sum(v)] in the dtype of [v], and the [float64] sum. *)
Definition np_sum (v : list num) : num := fold_left add v (I64 0).

Definition fsum (v : list float) : float :=
  fold_left PrimFloat.add v 0%float.

(** [np.sum(M, axis=1)]. *)
Definition np_sum_axis1 (M : matrix num) : list num := map np_sum (rows M).

(** [np.mean(v)]: the cells are added as [float64] whatever their dtype, and
    the sum is divided by the count. *)
Definition np_mean (v : list num) : float :=
  (fsum (map to_float v) / of_int64 (Z.of_nat (length v)))%float.

(** [v ** 2], in the dtype of [v]. *)
Definition np_square (v : list num) : list num := map (fun x => mul x x) v.

(** [np.linalg.norm(v)]: [v] as [float64], then [sqrt(dot(v, v))]. *)
Definition np_linalg_norm (v : list num) : float :=
  PrimFloat.sqrt (fsum (map (fun x => (to_float x * to_float x)%float) v)).

Definition np_zeros (n : nat) : list float := tab n (fun _ => 0%float).

Definition np_zeros2 (r c : nat) : matrix float :=
  tab2 r c (fun _ _ => 0%float).

Definition np_transpose (M : matrix num) : matrix num :=
  tab2 (ncols M) (nrows M) (fun i j => at2 M j i).

Definition reshape_col (v : list num) : matrix num :=
  Mat 1 (map (fun x => [x]) v).

(** [A @ B] and [A @ v]; the dtype of each entry follows its operands. *)
Definition np_matmul (A B : matrix num) : result (matrix num) :=
  if Nat.eqb (ncols A) (nrows B)
  then Return (tab2 (nrows A) (ncols B)
                 (fun i j =>
                    np_sum (tab (ncols A)
                                (fun k => mul (at2 A i k) (at2 B k j)))))
  else Raise shape_error.

Definition np_matvec (A : matrix num) (v : list num) : result (list num) :=
  if Nat.eqb (ncols A) (length v)
  then Return (tab (nrows A)
                 (fun i =>
                    np_sum (tab (ncols A)
                                (fun k => mul (at2 A i k) (at1 v k)))))
  else Raise shape_error.

(** [A + B] on arrays of one shape. *)
Definition np_add2 (A B : matrix num) : result (matrix num) :=
  if shape_eqb (shape A) (shape B)
  then Return (tab2 (nrows A) (ncols A)
                    (fun i j => add (at2 A i j) (at2 B i j)))
  else Raise shape_error.

Definition item (M : matrix num) : num := at2 M 0 0.

(** [np.sqrt(x)] of a Python scalar: always a [float64]. *)
Definition np_sqrt (x : num) : float := PrimFloat.sqrt (to_float x).

(** [v / s] and [M / s] with a [float64] scalar: true division. *)
Definition np_div1s (v : list num) (s : float) : list float :=
  map (fun x => (to_float x / s)%float) v.

Definition np_div2s (M : matrix num) (s : float) : matrix float :=
  Mat (ncols M) (map (map (fun x => (to_float x / s)%float)) (rows M)).

Definition fdiv2s (M : matrix float) (s : float) : matrix float :=
  Mat (ncols M) (map (map (fun x => (x / s)%float)) (rows M)).

(** [C * g] with [g] a [float64] array. *)
Definition np_mul1 (C : list num) (g : list float) : result (list float) :=
  if Nat.eqb (length C) (length g)
  then Return (tab (length C) (fun i => (to_float (at1 C i) * fat1 g i)%float))
  else Raise shape_error.

Definition np_outer (u v : list float) : matrix float :=
  tab2 (length u) (length v) (fun i j => (fat1 u i * fat1 v j)%float).

(** [np.diag(v)]: the zeros off the diagonal have the dtype of [v]. *)
Definition zero_like (x : num) : num :=
  match x with
  | I64 _ => I64 0
  | F64 _ => F64 0
  end.

Definition np_diag (v : list num) : matrix num :=
  tab2 (length v) (length v)
       (fun i j => if Nat.eqb i j then at1 v i else zero_like (at1 v i)).

Definition fdiag (v : list float) : matrix float :=
  tab2 (length v) (length v) (fun i j => if Nat.eqb i j then fat1 v i else 0%float).

Definition fzip2 (op : float -> float -> float) (A B : matrix float)
  : result (matrix float) :=
  if shape_eqb (shape A) (shape B)
  then Return (tab2 (nrows A) (ncols A)
                    (fun i j => op (fat2 A i j) (fat2 B i j)))
  else Raise shape_error.

(** [H @ D] with [H] a [float64] array: [D] is converted first. *)
Definition fmatmul (A : matrix float) (B : matrix num) : result (matrix float) :=
  if Nat.eqb (ncols A) (nrows B)
  then Return (tab2 (nrows A) (ncols B)
                 (fun i j =>
                    fsum (tab (ncols A)
                           (fun k => (fat2 A i k * to_float (at2 B k j))%float))))
  else Raise shape_error.

(** The instance: the two arrays, [n], and the caches of [S] and of the
    gradient (the centrality does no arithmetic inside the class and is left
    to the embedding above). *)
Record instance : Type := Instance {
  self_C : list num;
  self_E : matrix num;
  self_n : nat;
  self_s_score : option float;
  self_gradient_s : option (list float)
}.

Definition M (A : Type) : Type := instance -> result A * instance.

Definition ret {A : Type} (a : A) : M A := fun self => (Return a, self).

Definition bind {A B : Type} (c : M A) (k : A -> M B) : M B :=
  fun self =>
    match c self with
    | (Return a, self') => k a self'
    | (Raise e, self') => (Raise e, self')
    end.

Definition lift {A : Type} (r : result A) : M A := fun self => (r, self).

Declare Scope machine_scope.
Notation "x <- c ;; k" := (bind c (fun x => k))
  (at level 61, c at next level, right associativity) : machine_scope.
Notation "c ;;; k" := (bind c (fun _ => k))
  (at level 61, right associativity) : machine_scope.
Local Open Scope machine_scope.

Definition get {A : Type} (field : instance -> A) : M A :=
  fun self => (Return (field self), self).

Definition set_s_score (v : float) : M unit :=
  fun self =>
    (Return tt,
     Instance (self_C self) (self_E self) (self_n self)
              (Some v) (self_gradient_s self)).

Definition set_gradient_s (v : list float) : M unit :=
  fun self =>
    (Return tt,
     Instance (self_C self) (self_E self) (self_n self)
              (self_s_score self) (Some v)).

Definition value {A : Type} (c : M A) (self : instance) : result A :=
  fst (c self).

Definition after {A : Type} (c : M A) (self : instance) : instance :=
  snd (c self).

(** [validate_inputs] and [__init__]. *)
Definition validate_inputs : M unit :=
  fun self =>
    if negb (Nat.eqb (nrows (self_E self)) (ncols (self_E self))) then
      (Raise (ValueError "Adjacency matrix must be a 2D square matrix."), self)
    else if negb (Nat.eqb (self_n self) (nrows (self_E self))) then
      (Raise (ValueError
         "Dimensions of compromise vector and adjacency matrix do not match."),
       self)
    else (Return tt, self).

Definition init (compromise_vector : Series) (adjacency_matrix : DataFrame)
  : result instance :=
  let self :=
    Instance (np_array1 compromise_vector) (np_array2 adjacency_matrix)
             (length (np_array1 compromise_vector)) None None in
  match validate_inputs self with
  | (Return _, self') => Return self'
  | (Raise e, _) => Raise e
  end.

(** [calculate_S]. *)
Definition calculate_S_body (self : instance) : result float :=
  let c_col := reshape_col (self_C self) in
  rbind (np_matmul (np_transpose c_col) (self_E self)) (fun cE =>
  rbind (np_matmul cE c_col) (fun s_squared =>
  Return (np_sqrt (item s_squared)))).

Definition calculate_S : M float :=
  fun self =>
    match calculate_S_body self with
    | Return s => (Return s, self)
    | Raise (LinAlgError m) =>
        (Raise (ValueError
           ("Linear algebra error during S calculation: " ++ m)), self)
    | Raise e =>
        (Raise (RuntimeError
           ("An unexpected error occurred during S calculation: "
              ++ exn_text e)), self)
    end.

(** The [S] property. *)
Definition S_score : M float :=
  cached <- get self_s_score ;;
  match cached with
  | None =>
      s <- calculate_S ;;
      set_s_score s ;;;
      ret s
  | Some s => ret s
  end.

(** [_get_gradient]: [(self.E + self.E.T) @ self.C / (2 * self.S)]. *)
Definition _get_gradient : M (list float) :=
  cached <- get self_gradient_s ;;
  match cached with
  | None =>
      s <- S_score ;;
      (if (s =? 0)%float then
         n <- get self_n ;;
         set_gradient_s (np_zeros n)
       else
         E <- get self_E ;;
         C <- get self_C ;;
         EEt <- lift (np_add2 E (np_transpose E)) ;;
         EEtC <- lift (np_matvec EEt C) ;;
         s2 <- S_score ;;
         set_gradient_s (np_div1s EEtC (2 * s2)%float)) ;;;
      g <- get self_gradient_s ;;
      match g with
      | Some g => ret g
      | None => ret []
      end
  | Some g => ret g
  end.

Definition calculate_risk_decomposition : M (list float) :=
  gradient_s <- _get_gradient ;;
  C <- get self_C ;;
  lift (np_mul1 C gradient_s).

Definition calculate_risk_increment : M (list float) :=
  _get_gradient.

Definition calculate_node_degrees : M (list num) :=
  E <- get self_E ;;
  ret (np_sum_axis1 E).

Definition calculate_fragility : M float :=
  E <- get self_E ;;
  let degrees := np_sum_axis1 E in
  let mean_degree := np_mean degrees in
  if (mean_degree =? 0)%float then ret 0%float
  else
    let mean_squared_degree := np_mean (np_square degrees) in
    ret (mean_squared_degree / mean_degree)%float.

Definition calculate_normalized_score : M float :=
  C <- get self_C ;;
  let s_baseline := np_linalg_norm C in
  if (s_baseline =? 0)%float then ret 0%float
  else
    s <- S_score ;;
    ret (s / s_baseline)%float.

Definition calculate_cross_risk : M (matrix float) :=
  s <- S_score ;;
  if (s =? 0)%float then
    n <- get self_n ;;
    ret (np_zeros2 n n)
  else
    g <- _get_gradient ;;
    E <- get self_E ;;
    C <- get self_C ;;
    EEt <- lift (np_add2 E (np_transpose E)) ;;
    let A := np_div2s EEt 2%float in
    let g_outer := np_outer g g in
    AmG <- lift (fzip2 PrimFloat.sub A g_outer) ;;
    s' <- S_score ;;
    let H := fdiv2s AmG s' in
    HC <- lift (fmatmul H (np_diag C)) ;;
    lift (fzip2 PrimFloat.add (fdiag g) HC).

(** The calls of an instance and the instances in use. *)
Inductive call : Type :=
| CallValidate | CallS | CallCalculateS | CallDecomposition
| CallRiskIncrement | CallFragility | CallNodeDegrees
| CallNormalizedScore | CallCrossRisk.

Definition exec (c : call) (self : instance) : instance :=
  match c with
  | CallValidate => after validate_inputs self
  | CallS => after S_score self
  | CallCalculateS => after calculate_S self
  | CallDecomposition => after calculate_risk_decomposition self
  | CallRiskIncrement => after calculate_risk_increment self
  | CallFragility => after calculate_fragility self
  | CallNodeDegrees => after calculate_node_degrees self
  | CallNormalizedScore => after calculate_normalized_score self
  | CallCrossRisk => after calculate_cross_risk self
  end.

Inductive engine (C0 : Series) (E0 : DataFrame) : instance -> Prop :=
| engine_new : forall self,
    frame_rectangular E0 = true ->
    init C0 E0 = Return self ->
    engine C0 E0 self
| engine_call : forall self c,
    engine C0 E0 self ->
    engine C0 E0 (exec c self).

(** *** What the methods compute, entry by entry *)

Definition size (C0 : Series) : nat := length (np_array1 C0).

Definition entry (C0 : Series) (i : nat) : num := at1 (np_array1 C0) i.

Definition cell (E0 : DataFrame) (i j : nat) : num := at2 (np_array2 E0) i j.

(** [(c_col.T @ E @ c_col).item()], the radicand of [S]. *)
Definition radicand (C0 : Series) (E0 : DataFrame) : num :=
  np_sum (tab (size C0) (fun j =>
    mul (np_sum (tab (size C0) (fun i => mul (entry C0 i) (cell E0 i j))))
        (entry C0 j))).

Definition score (C0 : Series) (E0 : DataFrame) : float :=
  np_sqrt (radicand C0 E0).

(** [((E + E.T) @ C)_i]. *)
Definition sym_row (C0 : Series) (E0 : DataFrame) (i : nat) : num :=
  np_sum (tab (size C0) (fun k =>
    mul (add (cell E0 i k) (cell E0 k i)) (entry C0 k))).

Definition gradient (C0 : Series) (E0 : DataFrame) : list float :=
  if (score C0 E0 =? 0)%float then np_zeros (size C0)
  else tab (size C0)
           (fun i => (to_float (sym_row C0 E0 i) / (2 * score C0 E0))%float).

Definition decomposition (C0 : Series) (E0 : DataFrame) : list float :=
  tab (size C0)
      (fun i => (to_float (entry C0 i) * fat1 (gradient C0 E0) i)%float).

Definition degree (C0 : Series) (E0 : DataFrame) (i : nat) : num :=
  np_sum (tab (size C0) (fun j => cell E0 i j)).

Definition degrees (C0 : Series) (E0 : DataFrame) : list num :=
  tab (size C0) (degree C0 E0).

Definition fragility_of (d : list num) : float :=
  if (np_mean d =? 0)%float then 0%float
  else (np_mean (np_square d) / np_mean d)%float.

Definition norm (C0 : Series) : float := np_linalg_norm (np_array1 C0).

Definition normalized_score (C0 : Series) (E0 : DataFrame) : float :=
  if (norm C0 =? 0)%float then 0%float
  else (score C0 E0 / norm C0)%float.

(** [H = (A - g g') / S] with [A = (E + E.T) / 2]. *)
Definition hessian (C0 : Series) (E0 : DataFrame) (g : list float) (s : float)
                   (i k : nat) : float :=
  ((to_float (add (cell E0 i k) (cell E0 k i)) / 2
    - fat1 g i * fat1 g k) / s)%float.

(** [diag(g) + H @ diag(C)]. *)
Definition cross_risk_of (C0 : Series) (E0 : DataFrame)
                         (g : list float) (s : float) : matrix float :=
  tab2 (size C0) (size C0) (fun i j =>
    ((if Nat.eqb i j then fat1 g i else 0)
     + fsum (tab (size C0) (fun k =>
         hessian C0 E0 g s i k
         * to_float (if Nat.eqb k j then entry C0 k
                     else zero_like (entry C0 k)))))%float).

Definition cross_risk (C0 : Series) (E0 : DataFrame) : matrix float :=
  if (score C0 E0 =? 0)%float then np_zeros2 (size C0) (size C0)
  else cross_risk_of C0 E0 (gradient C0 E0) (score C0 E0).



(** Integer sums and cells, for what [int64] arithmetic computes. *)
Fixpoint zsum (n : nat) (f : nat -> Z) : Z :=
  match n with
  | O => 0%Z
  | S n' => (zsum n' f + f n')%Z
  end.

Definition zcell (es : matrix Z) (i j : nat) : Z :=
  nth j (nth i (rows es) []) 0%Z.

(** An instance that holds the arrays of [(C0, E0)] and whose caches, when
    filled, hold the score and the gradient of [(C0, E0)]. *)
Record coherent (C0 : Series) (E0 : DataFrame) (self : instance) : Prop := {
  coh_rect : frame_rectangular E0 = true;
  coh_rows : nrows (np_array2 E0) = size C0;
  coh_cols : ncols (np_array2 E0) = size C0;
  coh_C : self_C self = np_array1 C0;
  coh_E : self_E self = np_array2 E0;
  coh_n : self_n self = size C0;
  coh_s : forall s, self_s_score self = Some s -> s = score C0 E0;
  coh_g : forall g, self_gradient_s self = Some g -> g = gradient C0 E0
}.

(** The [n] by [n] identity, as a frame of either dtype. *)
Definition identity (integers : bool) (n : nat) : DataFrame :=
  if integers
  then IntFrame (tab2 n n (fun i j => if Nat.eqb i j then 1%Z else 0%Z))
  else FloatFrame (tab2 n n (fun i j => if Nat.eqb i j then 1%float else 0%float)).

End Machine.

(** ** The validators (utils/validators.py) *)

(** [a < b] on floats: false as soon as one side is NaN. *)
Definition fltb (a b : float64) : bool :=
  match a, b with
  | Fin x, Fin y => if Rlt_dec x y then true else false
  | _, _ => false
  end.

(** [str(n)] for a row or column count. *)
Definition str_nat (n : nat) : string :=
  NilZero.string_of_uint (Nat.to_uint n).

(** [not errors]. *)
Definition is_empty {A : Type} (l : list A) : bool :=
  match l with
  | [] => true
  | _ :: _ => false
  end.

(** The institution table: labelled columns, of numbers (of either dtype;
    a float column holds NaN where the file has an empty cell) or of text.
    A label may occur more than once. *)
Inductive column : Type :=
| Numbers (values : Machine.Series)
| Text (values : list string).

Definition LabelledFrame : Type := list (string * column).

Definition columns (df : LabelledFrame) : list string := map fst df.

(** [label in df.columns]. *)
Definition has_column (df : LabelledFrame) (label : string) : bool :=
  existsb (String.eqb label) (columns df).

(** [df[label]]: the column of that label, or, when the label occurs more
    than once, the frame of all its columns. *)
Inductive selection : Type :=
| OneColumn (c : column)
| SeveralColumns (cs : list column).

Definition get_column (df : LabelledFrame) (label : string)
  : option selection :=
  match filter (fun lc => String.eqb label (fst lc)) df with
  | [] => None
  | [lc] => Some (OneColumn (snd lc))
  | lcs => Some (SeveralColumns (map snd lcs))
  end.

(** [(series < 0).any()]: comparing a text cell with a number raises a
    [TypeError]; a column with no cell compares nothing; NaN is not below
    zero. *)
Definition any_negative (c : column) : result bool :=
  match c with
  | Numbers v => Return (existsb Machine.negative (Machine.np_array1 v))
  | Text [] => Return false
  | Text (_ :: _) =>
      Raise (OtherException
        "TypeError: '<' not supported between instances of 'str' and 'int'")
  end.

(** The truth value of [(df[label] < 0).any()].  Of one column it is a bool.
    Of several columns [.any()] is a Series, one bool per column, and asking
    for its truth value raises, once every column has been compared. *)
Definition ambiguous_truth_value : exn :=
  ValueError "The truth value of a Series is ambiguous. Use a.empty, a.bool(), a.item(), a.any() or a.all().".

Definition any_negative_truth (s : selection) : result bool :=
  match s with
  | OneColumn c => any_negative c
  | SeveralColumns cs =>
      fold_right (fun c rest => rbind (any_negative c) (fun _ => rest))
                 (Raise ambiguous_truth_value) cs
  end.

Definition required_columns : list string :=
  ["InstitutionID"; "Name"; "CompromiseScore"]%string.

(** [validate_institution_data]. *)
Definition validate_institution_data (df : LabelledFrame)
  : result (bool * list string) :=
  let errors := [] in
  let missing_columns :=
    filter (fun col => negb (has_column df col)) required_columns in
  let errors :=
    if negb (is_empty missing_columns) then
      errors ++ [("Missing required columns: "
                  ++ String.concat ", " missing_columns)%string]
    else errors in
  rbind (if has_column df "CompromiseScore" then
           match get_column df "CompromiseScore" with
           | Some s => any_negative_truth s
           | None => Return false
           end
         else Return false) (fun negative =>
  let errors :=
    if negative then
      errors ++ ["CompromiseScore column contains negative values."%string]
    else errors in
  Return (is_empty errors, errors)).

(** [np.issubdtype(matrix.dtype, np.number)]: the array of a numeric
    DataFrame is a float64 array. *)
Definition is_number_dtype (M : ndarray2) : bool := true.

(** [(matrix < 0).any()]. *)
Definition np_any_negative (M : ndarray2) : bool :=
  existsb (existsb (fun x => fltb x fzero)) (rows M).

(** [np.diag(matrix)] of a 2-D array: its main diagonal. *)
Definition np_diagonal (M : ndarray2) : list float64 :=
  tab (Nat.min (nrows M) (ncols M)) (fun i => get2 M i i).

(** [np.all(v == 1)]. *)
Definition np_all_ones (v : list float64) : bool :=
  forallb (fun x => feqb x (Fin 1)) v.

(** [validate_adjacency_matrix]: a matrix that is not square is reported at
    once; the other three checks accumulate. *)
Definition validate_adjacency_matrix (df : DataFrame) : bool * list string :=
  let errors := [] in
  if negb (Nat.eqb (fst (shape df)) (snd (shape df))) then
    (false,
     errors ++ [("Adjacency matrix is not square ("
                 ++ str_nat (fst (shape df)) ++ "x"
                 ++ str_nat (snd (shape df)) ++ ").")%string])
  else
    let matrix := np_array2 df in
    let errors :=
      if negb (is_number_dtype matrix) then
        errors ++ ["Matrix contains non-numeric values."%string]
      else errors in
    let errors :=
      if np_any_negative matrix then
        errors ++ ["Matrix contains negative values."%string]
      else errors in
    let errors :=
      if negb (np_all_ones (np_diagonal matrix)) then
        errors ++ ["Diagonal elements of the matrix are not all 1."%string]
      else errors in
    (is_empty errors, errors).

(** ** Institution removal (app.py, "Simulate Removal") *)










(** ** networkx, as the engine sees it

    [nx.from_pandas_adjacency] and [nx.eigenvector_centrality] are library
    code: a graph type and two calls that return or raise.  The centrality
    dictionary is read by node position (the DataFrame's index order). *)

(** Two stand-ins for the library, for the worked examples at the end: a
    power iteration that reaches the tolerance (on the uniform vector), and
    one that uses up its iteration budget. *)
Definition nx_from_pandas (d : DataFrame) : result DataFrame := Return d.

Definition nx_converges (G : DataFrame) (budget : nat) (tolerance : R)
                        (weight : string) : result (nat -> float64) :=
  Return (fun _ => Fin 1).

Definition nx_exhausts (G : DataFrame) (budget : nat) (tolerance : R)
                       (weight : string) : result (nat -> float64) :=
  Raise (PowerIterationFailedConvergence budget).

Section Engine.

Variable nx_graph : Type.
Variable from_pandas_adjacency : DataFrame -> result nx_graph.
Variable eigenvector_centrality :
  nx_graph -> nat -> R -> string -> result (nat -> float64).

Definition max_iter : nat := 1000.
Definition tol : R := 1 / 1000000.

(** [calculate_eigenvector_centrality] (network_utils.py). *)
Definition calculate_eigenvector_centrality (adjacency_matrix : DataFrame)
  : result (list float64) :=
  let body :=
    rbind (from_pandas_adjacency adjacency_matrix) (fun G =>
    rbind (eigenvector_centrality G max_iter tol "weight") (fun centrality_dict =>
    Return (tab (nrows adjacency_matrix) (fun node => centrality_dict node)))) in
  match body with
  | Return centrality => Return centrality
  | Raise (PowerIterationFailedConvergence _) =>
      Raise (RuntimeError
        "Power iteration failed to converge when calculating eigenvector centrality. Try increasing max_iter or changing the tolerance.")
  | Raise e =>
      Raise (RuntimeError
        ("An unexpected error occurred during centrality calculation: "
           ++ exn_text e))
  end.

(** The specification's name for the first of the two errors. *)
Definition ConvergenceFailure : exn :=
  RuntimeError
    "Power iteration failed to converge when calculating eigenvector centrality. Try increasing max_iter or changing the tolerance.".

(** [calculate_centrality] and [calculate_criticality]. *)
Definition calculate_centrality : M (list float64) :=
  cached <- get self_centrality ;;
  match cached with
  | None =>
      tick MCentrality ;;;
      E_df <- get self_E_df ;;
      c <- lift (calculate_eigenvector_centrality E_df) ;;
      set_centrality c ;;;
      ret c
  | Some c => ret c
  end.

Definition calculate_criticality : M (list float64) :=
  centrality <- calculate_centrality ;;
  tick MCriticality ;;;
  C <- get self_C ;;
  lift (np_zip1 fmul C centrality).

(** The public calls of an instance, and the instance each one leaves. *)
Inductive call : Type :=
| CallValidate | CallS | CallCalculateS | CallDecomposition | CallCentrality
| CallCriticality | CallRiskIncrement | CallFragility | CallNodeDegrees
| CallNormalizedScore | CallCrossRisk.

Definition exec (c : call) (self : instance) : instance :=
  match c with
  | CallValidate => after validate_inputs self
  | CallS => after S_score self
  | CallCalculateS => after calculate_S self
  | CallDecomposition => after calculate_risk_decomposition self
  | CallCentrality => after calculate_centrality self
  | CallCriticality => after calculate_criticality self
  | CallRiskIncrement => after calculate_risk_increment self
  | CallFragility => after calculate_fragility self
  | CallNodeDegrees => after calculate_node_degrees self
  | CallNormalizedScore => after calculate_normalized_score self
  | CallCrossRisk => after calculate_cross_risk self
  end.

(** An engine built from [(C0, E0)] and used through any sequence of calls. *)
Inductive engine (C0 : Series) (E0 : DataFrame) : instance -> Prop :=
| engine_new : forall self,
    rectangular E0 = true ->
    init C0 E0 = Return self ->
    engine C0 E0 self
| engine_call : forall self c,
    engine C0 E0 self ->
    engine C0 E0 (exec c self).

(** ** What the methods compute, in closed form *)

(** [rsum n f] is [f 0 + ... + f (n-1)]. *)
Fixpoint rsum (n : nat) (f : nat -> R) : R :=
  match n with
  | O => 0
  | S k => rsum k f + f k
  end.

Definition entry (C0 : Series) (i : nat) : R := nth i C0 0.

(** [C' E C], associated as the program does: [(C' E) C]. *)
Definition quad_form (C0 : Series) (E0 : DataFrame) : R :=
  let n := length C0 in
  rsum n (fun j => rsum n (fun i => entry C0 i * cell E0 i j) * entry C0 j).

Definition score (C0 : Series) (E0 : DataFrame) : float64 :=
  np_sqrt (Fin (quad_form C0 E0)).

(** [((E + E') C)_i]. *)
Definition sym_row (C0 : Series) (E0 : DataFrame) (i : nat) : R :=
  rsum (length C0) (fun j => (cell E0 i j + cell E0 j i) * entry C0 j).

(** The gradient as the specification writes it: [(E + E') C / (2 S)], and
    the zero vector when [S == 0]. *)
Definition spec_gradient (C0 : Series) (E0 : DataFrame) : list float64 :=
  if feqb (score C0 E0) fzero then tab (length C0) (fun _ => Fin 0)
  else tab (length C0)
           (fun i => fdiv (Fin (sym_row C0 E0 i))
                          (fmul (Fin 2) (score C0 E0))).

(** Row sums of [E]. *)
Definition degree (E0 : DataFrame) (i : nat) : R :=
  rsum (ncols E0) (fun j => cell E0 i j).

(** The instance holds [(C0, E0)], a square system of size [len(C0)], and its
    caches hold nothing but the values their accessors compute. *)
Record coherent (C0 : Series) (E0 : DataFrame) (self : instance) : Prop := {
  coh_rect : rectangular E0 = true;
  coh_rows : nrows E0 = length C0;
  coh_cols : ncols E0 = length C0;
  coh_C : self_C self = np_array1 C0;
  coh_E : self_E self = np_array2 E0;
  coh_E_df : self_E_df self = E0;
  coh_n : self_n self = length C0;
  coh_s : forall s, self_s_score self = Some s -> s = score C0 E0;
  coh_g : forall g, self_gradient_s self = Some g -> g = spec_gradient C0 E0;
  coh_c : forall c, self_centrality self = Some c ->
                    calculate_eigenvector_centrality E0 = Return c
}.

(** Entry [i] of the gradient. *)
Definition gradient_entry (C0 : Series) (E0 : DataFrame) (i : nat) : float64 :=
  if feqb (score C0 E0) fzero then Fin 0
  else fdiv (Fin (sym_row C0 E0 i)) (fmul (Fin 2) (score C0 E0)).

(** [D_i = C_i * G_i]. *)
Definition spec_decomposition (C0 : Series) (E0 : DataFrame) : list float64 :=
  tab (length C0)
      (fun i => fmul (Fin (entry C0 i)) (gradient_entry C0 E0 i)).

(** The degree vector, and [mean(d^2) / mean(d)] with its zero policy. *)
Definition spec_degrees (E0 : DataFrame) : list float64 :=
  tab (nrows E0) (fun i => Fin (degree E0 i)).

Definition spec_fragility (E0 : DataFrame) : float64 :=
  let d := spec_degrees E0 in
  if feqb (np_mean d) fzero then Fin 0
  else fdiv (np_mean (np_square d)) (np_mean d).

(** [||C||_2] and [S / ||C||_2] with its zero policy. *)
Definition norm2 (C0 : Series) : R :=
  sqrt (rsum (length C0) (fun i => entry C0 i * entry C0 i)).

Definition spec_normalized_score (C0 : Series) (E0 : DataFrame) : float64 :=
  if feqb (Fin (norm2 C0)) fzero then Fin 0
  else fdiv (score C0 E0) (Fin (norm2 C0)).

(** The Hessian [H = (A - G G') / S] with [A = (E + E') / 2], entry by entry,
    the matrix that [diag(G) + H diag(C)] multiplies on the right by
    [diag(C)]. *)
Definition hessian_entry (C0 : Series) (E0 : DataFrame) (i j : nat) : float64 :=
  fdiv (fsub (Fin ((cell E0 i j + cell E0 j i) / 2))
             (fmul (gradient_entry C0 E0 i) (gradient_entry C0 E0 j)))
       (score C0 E0).

(** The cross-risk matrix as the program accumulates it: the product
    [H @ diag(C)] is a full row-by-column sum. *)
Definition cross_risk_value (C0 : Series) (E0 : DataFrame) : ndarray2 :=
  let n := length C0 in
  if feqb (score C0 E0) fzero then np_zeros2 n n
  else
    tab2 n n (fun i j =>
      fadd (if Nat.eqb i j then gradient_entry C0 E0 i else fzero)
           (np_sum (tab n (fun k =>
              fmul (hessian_entry C0 E0 i k)
                   (if Nat.eqb k j then Fin (entry C0 k) else fzero))))).

(** [C * centrality], element by element. *)
Definition criticality_value (C0 : Series) (c : list float64) : list float64 :=
  tab (length C0) (fun i => fmul (Fin (entry C0 i)) (get1 c i)).

(** The [n]-by-[n] identity matrix. *)
Definition identity (n : nat) : DataFrame :=
  tab2 n n (fun i j => if Nat.eqb i j then 1 else 0).

(** What a method may do to the instance: record an evaluation, or fill a
    cache that is still empty.  No step writes an input, empties a cache or
    overwrites one, and the gradient is evaluated only to fill its cache. *)
Inductive step : instance -> instance -> Prop :=
| step_tick : forall m self,
    m <> MGradient -> step self (after (tick m) self)
| step_set_s_score : forall v self,
    self_s_score self = None -> step self (after (set_s_score v) self)
| step_gradient : forall v self,
    self_gradient_s self = None ->
    step self (after (set_gradient_s v) (after (tick MGradient) self))
| step_set_centrality : forall v self,
    self_centrality self = None -> step self (after (set_centrality v) self).

Inductive steps : instance -> instance -> Prop :=
| steps_refl : forall self, steps self self
| steps_cons : forall a b c, step a b -> steps b c -> steps a c.

(** The instance after a sequence of calls. *)
Definition exec_all (cs : list call) (self : instance) : instance :=
  fold_left (fun st c => exec c st) cs self.

(** How often the instance has evaluated a value, and the bookkeeping of the
    gradient: never evaluated while its cache is empty, and at most once. *)
Definition evaluations (m : metric) (self : instance) : nat :=
  count_occ metric_eq_dec (evals self) m.

Definition gradient_ledger (self : instance) : Prop :=
  (self_gradient_s self = None -> evaluations MGradient self = 0%nat)
  /\ (evaluations MGradient self <= 1)%nat.

(** [b] is [a] after evaluations of the values listed in [ms] only. *)
Definition ticks_only (ms : list metric) (a b : instance) : Prop :=
  exists l, evals b = l ++ evals a /\ Forall (fun m => In m ms) l.

(** Two instances on which the outputs that do not need the centrality are
    all returned, and are the same. *)
Definition same_outputs (self self' : instance) : Prop :=
  (exists v, value S_score self = Return v /\ value S_score self' = Return v)
  /\ (exists v, value calculate_S self = Return v
                /\ value calculate_S self' = Return v)
  /\ (exists v, value calculate_risk_increment self = Return v
                /\ value calculate_risk_increment self' = Return v)
  /\ (exists v, value calculate_risk_decomposition self = Return v
                /\ value calculate_risk_decomposition self' = Return v)
  /\ (exists v, value calculate_cross_risk self = Return v
                /\ value calculate_cross_risk self' = Return v)
  /\ (exists v, value calculate_fragility self = Return v
                /\ value calculate_fragility self' = Return v)
  /\ (exists v, value calculate_node_degrees self = Return v
                /\ value calculate_node_degrees self' = Return v)
  /\ (exists v, value calculate_normalized_score self = Return v
                /\ value calculate_normalized_score self' = Return v).

(** ** The dashboard (app.py, "Calculate All Metrics")

    The nine values the button stores in the session, the banner it shows,
    and the body of its [try] block for a numeric compromise vector. *)
Record session : Type := Session {
  systemic_risk_score : option float64;
  risk_decomposition : option (list float64);
  centrality : option (list float64);
  criticality : option (list float64);
  fragility : option float64;
  normalized_score : option float64;
  cross_risk_matrix : option ndarray2;
  risk_increment : option (list float64);
  node_degrees : option (list float64)
}.

Inductive banner : Type :=
| st_success (msg : string)
| st_error (msg : string).

(** [st.session_state.<key> = calculator.<accessor>]: the accessor runs, and
    the session is written only if it returns. *)
Definition assign {A : Type} (accessor : M A)
           (store : A -> session -> session)
           (rest : instance -> session -> result unit * session)
           (calculator : instance) (ss : session) : result unit * session :=
  match accessor calculator with
  | (Return a, calculator') => rest calculator' (store a ss)
  | (Raise e, _) => (Raise e, ss)
  end.

Definition store_all_metrics
  : instance -> session -> result unit * session :=
  assign S_score
    (fun v ss => Session (Some v) (risk_decomposition ss) (centrality ss)
                   (criticality ss) (fragility ss) (normalized_score ss)
                   (cross_risk_matrix ss) (risk_increment ss)
                   (node_degrees ss))
  (assign calculate_risk_decomposition
    (fun v ss => Session (systemic_risk_score ss) (Some v) (centrality ss)
                   (criticality ss) (fragility ss) (normalized_score ss)
                   (cross_risk_matrix ss) (risk_increment ss)
                   (node_degrees ss))
  (assign calculate_centrality
    (fun v ss => Session (systemic_risk_score ss) (risk_decomposition ss)
                   (Some v) (criticality ss) (fragility ss)
                   (normalized_score ss) (cross_risk_matrix ss)
                   (risk_increment ss) (node_degrees ss))
  (assign calculate_criticality
    (fun v ss => Session (systemic_risk_score ss) (risk_decomposition ss)
                   (centrality ss) (Some v) (fragility ss)
                   (normalized_score ss) (cross_risk_matrix ss)
                   (risk_increment ss) (node_degrees ss))
  (assign calculate_fragility
    (fun v ss => Session (systemic_risk_score ss) (risk_decomposition ss)
                   (centrality ss) (criticality ss) (Some v)
                   (normalized_score ss) (cross_risk_matrix ss)
                   (risk_increment ss) (node_degrees ss))
  (assign calculate_normalized_score
    (fun v ss => Session (systemic_risk_score ss) (risk_decomposition ss)
                   (centrality ss) (criticality ss) (fragility ss)
                   (Some v) (cross_risk_matrix ss) (risk_increment ss)
                   (node_degrees ss))
  (assign calculate_cross_risk
    (fun v ss => Session (systemic_risk_score ss) (risk_decomposition ss)
                   (centrality ss) (criticality ss) (fragility ss)
                   (normalized_score ss) (Some v) (risk_increment ss)
                   (node_degrees ss))
  (assign calculate_risk_increment
    (fun v ss => Session (systemic_risk_score ss) (risk_decomposition ss)
                   (centrality ss) (criticality ss) (fragility ss)
                   (normalized_score ss) (cross_risk_matrix ss) (Some v)
                   (node_degrees ss))
  (assign calculate_node_degrees
    (fun v ss => Session (systemic_risk_score ss) (risk_decomposition ss)
                   (centrality ss) (criticality ss) (fragility ss)
                   (normalized_score ss) (cross_risk_matrix ss)
                   (risk_increment ss) (Some v))
  (fun _ ss => (Return tt, ss)))))))))).

(** The [try] block with its two handlers. *)
Definition calculate_all_metrics
           (compromise_vector : Series) (adjacency_matrix : DataFrame)
           (ss : session) : banner * session :=
  let attempt :=
    match init compromise_vector adjacency_matrix with
    | Return calculator => store_all_metrics calculator ss
    | Raise e => (Raise e, ss)
    end in
  match attempt with
  | (Return _, ss') =>
      (st_success "All metrics calculated successfully!", ss')
  | (Raise (ValueError m), ss') =>
      (st_error ("Error during calculation: " ++ m), ss')
  | (Raise (RuntimeError m), ss') =>
      (st_error ("Error during calculation: " ++ m), ss')
  | (Raise e, ss') =>
      (st_error ("An unexpected error occurred: " ++ exn_text e), ss')
  end.

(** ** Arrays in tabulated form *)

Lemma length_tab {A : Type} (n : nat) (f : nat -> A) : length (tab n f) = n.
Proof. unfold tab. now rewrite length_map, length_seq. Qed.

Lemma nth_tab {A : Type} (n : nat) (f : nat -> A) (d : A) (i : nat) :
  (i < n)%nat -> nth i (tab n f) d = f i.
Proof.
  intros Hi. unfold tab.
  rewrite (nth_indep _ d (f 0%nat)) by now rewrite length_map, length_seq.
  rewrite map_nth, seq_nth by assumption. reflexivity.
Qed.

Lemma tab_ext {A : Type} (n : nat) (f g : nat -> A) :
  (forall i, (i < n)%nat -> f i = g i) -> tab n f = tab n g.
Proof.
  intros H. unfold tab. apply map_ext_in.
  intros i Hi. apply in_seq in Hi. apply H. lia.
Qed.

Lemma tab_S {A : Type} (n : nat) (f : nat -> A) :
  tab (S n) f = tab n f ++ [f n].
Proof. unfold tab. now rewrite seq_S, map_app. Qed.

Lemma map_tab {A B : Type} (h : A -> B) (n : nat) (f : nat -> A) :
  map h (tab n f) = tab n (fun i => h (f i)).
Proof. unfold tab. now rewrite map_map. Qed.

(** Any list is the table of its own entries. *)
Lemma map_as_tab {A B : Type} (h : A -> B) (l : list A) (d : A) :
  map h l = tab (length l) (fun i => h (nth i l d)).
Proof.
  induction l as [|a l IH] using rev_ind; [reflexivity|].
  rewrite map_app, length_app, Nat.add_comm. cbn [length Nat.add map].
  rewrite tab_S, app_nth2, Nat.sub_diag by lia. cbn [nth].
  f_equal. rewrite IH. apply tab_ext.
  intros i Hi. now rewrite app_nth1.
Qed.

Lemma tab2_ext {A : Type} (r c : nat) (f g : nat -> nat -> A) :
  (forall i j, (i < r)%nat -> (j < c)%nat -> f i j = g i j) ->
  tab2 r c f = tab2 r c g.
Proof.
  intros H. unfold tab2. f_equal.
  apply tab_ext. intros i Hi. apply tab_ext. intros j Hj. now apply H.
Qed.

Lemma nrows_tab2 {A : Type} (r c : nat) (f : nat -> nat -> A) :
  nrows (tab2 r c f) = r.
Proof. unfold nrows, tab2. cbn. apply length_tab. Qed.

Lemma ncols_tab2 {A : Type} (r c : nat) (f : nat -> nat -> A) :
  ncols (tab2 r c f) = c.
Proof. reflexivity. Qed.

Lemma get2_tab2 (r c : nat) (f : nat -> nat -> float64) (i j : nat) :
  (i < r)%nat -> (j < c)%nat -> get2 (tab2 r c f) i j = f i j.
Proof.
  intros Hi Hj. unfold get2, tab2. cbn [rows].
  rewrite (nth_tab r _ [] i Hi). now apply nth_tab.
Qed.

Lemma get1_tab (n : nat) (f : nat -> float64) (i : nat) :
  (i < n)%nat -> get1 (tab n f) i = f i.
Proof. apply nth_tab. Qed.

(** ** Sums *)







Lemma rsum_nonneg (n : nat) (f : nat -> R) :
  (forall i, (i < n)%nat -> 0 <= f i) -> 0 <= rsum n f.
Proof.
  induction n as [|n IH]; intros H; cbn; [lra|].
  specialize (H n (Nat.lt_succ_diag_r n)) as Hn.
  assert (0 <= rsum n f) by (apply IH; intros; apply H; lia). lra.
Qed.

(** [np.sum] of finite entries is the real sum. *)
Lemma np_sum_app (u v : list float64) :
  np_sum (u ++ v) = fold_left fadd v (np_sum u).
Proof. unfold np_sum. apply fold_left_app. Qed.

Lemma np_sum_Fin (n : nat) (f : nat -> R) :
  np_sum (tab n (fun i => Fin (f i))) = Fin (rsum n f).
Proof.
  induction n as [|n IH]; [reflexivity|].
  rewrite tab_S, np_sum_app, IH. reflexivity.
Qed.

(** ** numpy primitives on tabulated arrays *)

Lemma np_array1_tab (C0 : Series) :
  np_array1 C0 = tab (length C0) (fun i => Fin (entry C0 i)).
Proof. unfold np_array1, entry. apply map_as_tab. Qed.

Lemma rectangular_row {A : Type} (M : matrix A) (i : nat) :
  rectangular M = true -> (i < nrows M)%nat ->
  length (nth i (rows M) []) = ncols M.
Proof.
  unfold rectangular, nrows. intros H Hi.
  rewrite forallb_forall in H.
  apply Nat.eqb_eq, H, nth_In, Hi.
Qed.

Lemma np_array2_tab2 (E0 : DataFrame) :
  rectangular E0 = true ->
  np_array2 E0 = tab2 (nrows E0) (ncols E0) (fun i j => Fin (cell E0 i j)).
Proof.
  intros Hrect. unfold np_array2, tab2. f_equal.
  rewrite (map_as_tab _ _ []). apply tab_ext. intros i Hi.
  rewrite (map_as_tab _ _ 0), (rectangular_row E0 i Hrect Hi).
  reflexivity.
Qed.

Lemma reshape_col_tab (n : nat) (f : nat -> float64) :
  reshape_col (tab n f) = tab2 n 1 (fun i _ => f i).
Proof. unfold reshape_col, tab2. now rewrite map_tab. Qed.

Lemma np_transpose_tab2 (r c : nat) (f : nat -> nat -> float64) :
  np_transpose (tab2 r c f) = tab2 c r (fun i j => f j i).
Proof.
  unfold np_transpose. rewrite nrows_tab2, ncols_tab2.
  apply tab2_ext. intros i j Hi Hj. now apply get2_tab2.
Qed.

Lemma np_matmul_tab2 (r k c : nat) (f g : nat -> nat -> float64) :
  np_matmul (tab2 r k f) (tab2 k c g)
  = Return (tab2 r c
      (fun i j => np_sum (tab k (fun l => fmul (f i l) (g l j))))).
Proof.
  unfold np_matmul. rewrite !nrows_tab2, !ncols_tab2, Nat.eqb_refl.
  f_equal. apply tab2_ext. intros i j Hi Hj. f_equal.
  apply tab_ext. intros l Hl. now rewrite !get2_tab2.
Qed.

Lemma np_matvec_tab (r c : nat) (f : nat -> nat -> float64)
                    (g : nat -> float64) :
  np_matvec (tab2 r c f) (tab c g)
  = Return (tab r (fun i => np_sum (tab c (fun k => fmul (f i k) (g k))))).
Proof.
  unfold np_matvec. rewrite nrows_tab2, ncols_tab2, length_tab, Nat.eqb_refl.
  f_equal. apply tab_ext. intros i Hi. f_equal.
  apply tab_ext. intros k Hk. now rewrite get2_tab2, get1_tab.
Qed.

Lemma np_zip2_tab2 (op : float64 -> float64 -> float64) (r c : nat)
                   (f g : nat -> nat -> float64) :
  np_zip2 op (tab2 r c f) (tab2 r c g)
  = Return (tab2 r c (fun i j => op (f i j) (g i j))).
Proof.
  unfold np_zip2, shape, shape_eqb. cbn [fst snd].
  rewrite !nrows_tab2, !ncols_tab2, !Nat.eqb_refl. cbn [andb].
  f_equal. apply tab2_ext. intros i j Hi Hj. now rewrite !get2_tab2.
Qed.

Lemma np_zip1_tab (op : float64 -> float64 -> float64) (n : nat)
                  (f g : nat -> float64) :
  np_zip1 op (tab n f) (tab n g) = Return (tab n (fun i => op (f i) (g i))).
Proof.
  unfold np_zip1. rewrite !length_tab, Nat.eqb_refl.
  f_equal. apply tab_ext. intros i Hi. now rewrite !get1_tab.
Qed.

Lemma np_div2s_tab2 (r c : nat) (f : nat -> nat -> float64) (s : float64) :
  np_div2s (tab2 r c f) s = tab2 r c (fun i j => fdiv (f i j) s).
Proof.
  unfold np_div2s, tab2. cbn [ncols rows]. f_equal.
  rewrite map_tab. apply tab_ext. intros i Hi. now rewrite map_tab.
Qed.

Lemma np_div1s_tab (n : nat) (f : nat -> float64) (s : float64) :
  np_div1s (tab n f) s = tab n (fun i => fdiv (f i) s).
Proof. unfold np_div1s. now rewrite map_tab. Qed.

Lemma np_outer_tab (n m : nat) (f g : nat -> float64) :
  np_outer (tab n f) (tab m g) = tab2 n m (fun i j => fmul (f i) (g j)).
Proof.
  unfold np_outer. rewrite !length_tab.
  apply tab2_ext. intros i j Hi Hj. now rewrite !get1_tab.
Qed.

Lemma np_diag_tab (n : nat) (f : nat -> float64) :
  np_diag (tab n f)
  = tab2 n n (fun i j => if Nat.eqb i j then f i else fzero).
Proof.
  unfold np_diag. rewrite !length_tab.
  apply tab2_ext. intros i j Hi Hj. now rewrite get1_tab.
Qed.

Lemma np_sum_axis1_tab2 (r c : nat) (f : nat -> nat -> float64) :
  np_sum_axis1 (tab2 r c f) = tab r (fun i => np_sum (tab c (f i))).
Proof. unfold np_sum_axis1, tab2. cbn [rows]. now rewrite map_tab. Qed.

Lemma np_square_tab (n : nat) (f : nat -> float64) :
  np_square (tab n f) = tab n (fun i => fmul (f i) (f i)).
Proof. unfold np_square. now rewrite map_tab. Qed.

(** ** Running the methods on a coherent instance *)

Lemma bind_return {A B : Type} (c : M A) (k : A -> M B) self a self' :
  c self = (Return a, self') -> bind c k self = k a self'.
Proof. intros H. unfold bind. now rewrite H. Qed.

Lemma bind_raise {A B : Type} (c : M A) (k : A -> M B) self e self' :
  c self = (Raise e, self') -> bind c k self = (Raise e, self').
Proof. intros H. unfold bind. now rewrite H. Qed.

Section Coherent.

Variables (C0 : Series) (E0 : DataFrame).

Lemma coherent_C self :
  coherent C0 E0 self -> self_C self = tab (length C0) (fun i => Fin (entry C0 i)).
Proof. intros H. rewrite (coh_C _ _ _ H). apply np_array1_tab. Qed.

Lemma coherent_E self :
  coherent C0 E0 self ->
  self_E self = tab2 (length C0) (length C0) (fun i j => Fin (cell E0 i j)).
Proof.
  intros H. rewrite (coh_E _ _ _ H), np_array2_tab2 by apply H.
  now rewrite (coh_rows _ _ _ H), (coh_cols _ _ _ H).
Qed.

Lemma coherent_tick m self :
  coherent C0 E0 self -> coherent C0 E0 (after (tick m) self).
Proof. intros [? ? ? ? ? ? ? ? ? ?]. constructor; assumption. Qed.

Lemma coherent_set_s_score self :
  coherent C0 E0 self ->
  coherent C0 E0 (after (set_s_score (score C0 E0)) self).
Proof.
  intros [? ? ? ? ? ? ? ? ? ?]. constructor; try assumption.
  cbn. now intros s [= <-].
Qed.

Lemma coherent_set_gradient_s self :
  coherent C0 E0 self ->
  coherent C0 E0 (after (set_gradient_s (spec_gradient C0 E0)) self).
Proof.
  intros [? ? ? ? ? ? ? ? ? ?]. constructor; try assumption.
  cbn. now intros s [= <-].
Qed.

Lemma coherent_set_centrality c self :
  calculate_eigenvector_centrality E0 = Return c ->
  coherent C0 E0 self ->
  coherent C0 E0 (after (set_centrality c) self).
Proof.
  intros Hc [? ? ? ? ? ? ? ? ? ?]. constructor; try assumption.
  cbn. now intros s [= <-].
Qed.

(** The body of [calculate_S] raises nothing and returns [sqrt(C' E C)]. *)
Lemma calculate_S_body_run self :
  coherent C0 E0 self -> calculate_S_body self = Return (score C0 E0).
Proof.
  intros H. unfold calculate_S_body.
  rewrite (coherent_C self H), (coherent_E self H).
  rewrite reshape_col_tab, np_transpose_tab2, np_matmul_tab2.
  cbn [rbind]. rewrite np_matmul_tab2. cbn [rbind].
  unfold item. rewrite get2_tab2 by lia.
  unfold score, quad_form. do 2 f_equal.
  rewrite <- np_sum_Fin. f_equal. apply tab_ext. intros l Hl.
  cbn [fmul]. rewrite np_sum_Fin. reflexivity.
Qed.

Lemma calculate_S_run self :
  coherent C0 E0 self ->
  calculate_S self = (Return (score C0 E0), after (tick MScore) self).
Proof.
  intros H. unfold calculate_S.
  rewrite (bind_return _ _ self tt (after (tick MScore) self)) by reflexivity.
  cbv beta. now rewrite (calculate_S_body_run _ (coherent_tick MScore self H)).
Qed.

Lemma steps_trans a b c : steps a b -> steps b c -> steps a c.
Proof.
  induction 1 as [|a b b' Hab _ IH]; [auto|].
  intros Hc. eapply steps_cons; [exact Hab|auto].
Qed.

Lemma steps_tick m a b :
  m <> MGradient -> steps (after (tick m) a) b -> steps a b.
Proof.
  intros Hm H.
  apply (steps_cons _ (after (tick m) a)); [apply step_tick, Hm|exact H].
Qed.

Ltac tick_step m := apply (steps_tick m); [discriminate|].

(** The [S] property: the score, computed only when the cache is empty. *)
Lemma S_score_cached self s :
  self_s_score self = Some s -> S_score self = (Return s, self).
Proof. intros H. unfold S_score, bind, get, ret. now rewrite H. Qed.

Lemma S_score_fresh self :
  coherent C0 E0 self -> self_s_score self = None ->
  S_score self
  = (Return (score C0 E0),
     after (set_s_score (score C0 E0)) (after (tick MScore) self)).
Proof.
  intros H Hc. unfold S_score.
  rewrite (bind_return _ _ self None self) by (unfold get; now rewrite Hc).
  rewrite (bind_return _ _ _ _ _ (calculate_S_run self H)).
  reflexivity.
Qed.

Lemma S_score_run self :
  coherent C0 E0 self ->
  value S_score self = Return (score C0 E0)
  /\ coherent C0 E0 (after S_score self)
  /\ self_s_score (after S_score self) = Some (score C0 E0)
  /\ self_gradient_s (after S_score self) = self_gradient_s self
  /\ self_centrality (after S_score self) = self_centrality self
  /\ steps self (after S_score self).
Proof.
  intros H. unfold value, after.
  destruct (self_s_score self) as [s|] eqn:Hs.
  - rewrite (S_score_cached self s Hs). cbn [fst snd].
    pose proof (coh_s _ _ _ H s Hs) as Hv. subst s.
    split; [reflexivity|]. split; [exact H|]. split; [exact Hs|].
    split; [reflexivity|]. split; [reflexivity|apply steps_refl].
  - rewrite (S_score_fresh self H Hs). cbn [fst snd].
    split; [reflexivity|]. split.
    { apply coherent_set_s_score, coherent_tick, H. }
    split; [reflexivity|]. split; [reflexivity|]. split; [reflexivity|].
    tick_step MScore.
    eapply steps_cons; [apply step_set_s_score; exact Hs|apply steps_refl].
Qed.

Lemma S_score_eq self :
  coherent C0 E0 self ->
  S_score self = (Return (score C0 E0), after S_score self).
Proof.
  intros H. destruct (S_score_run self H) as [Hv _].
  unfold value, after in *. destruct (S_score self) as [r self'].
  cbn in *. now subst.
Qed.

(** [(E + E') @ C], entry by entry. *)
Lemma sym_matvec_run self :
  coherent C0 E0 self ->
  rbind (np_zip2 fadd (self_E self) (np_transpose (self_E self)))
        (fun EEt => np_matvec EEt (self_C self))
  = Return (tab (length C0) (fun i => Fin (sym_row C0 E0 i))).
Proof.
  intros H. rewrite (coherent_C self H), (coherent_E self H).
  rewrite np_transpose_tab2, np_zip2_tab2. cbn [rbind].
  rewrite np_matvec_tab. f_equal. apply tab_ext. intros i Hi.
  cbn [fadd fmul]. now rewrite np_sum_Fin.
Qed.

Lemma lift_bind {A B : Type} (r : result A) (k : A -> M B) self :
  bind (lift r) k self
  = match r with
    | Return a => k a self
    | Raise e => (Raise e, self)
    end.
Proof. reflexivity. Qed.

Lemma get_bind {A B : Type} (field : instance -> A) (k : A -> M B) self :
  bind (get field) k self = k (field self) self.
Proof. reflexivity. Qed.

Lemma tick_bind {B : Type} (m : metric) (k : unit -> M B) self :
  bind (tick m) k self = k tt (after (tick m) self).
Proof. reflexivity. Qed.

Lemma S_score_bind {B : Type} (k : float64 -> M B) self :
  coherent C0 E0 self ->
  bind S_score k self = k (score C0 E0) (after S_score self).
Proof. intros H. apply bind_return, S_score_eq, H. Qed.

(** [_get_gradient]. *)
Lemma _get_gradient_cached self g :
  self_gradient_s self = Some g -> _get_gradient self = (Return g, self).
Proof. intros H. unfold _get_gradient. rewrite get_bind, H. reflexivity. Qed.

Lemma _get_gradient_fresh self :
  coherent C0 E0 self -> self_gradient_s self = None ->
  _get_gradient self
  = (Return (spec_gradient C0 E0),
     after (set_gradient_s (spec_gradient C0 E0))
           (after (tick MGradient) (after S_score self))).
Proof.
  intros H Hc. unfold _get_gradient. rewrite get_bind, Hc.
  rewrite (S_score_bind _ _ H).
  destruct (S_score_run _ H) as (_ & H2 & Hs2 & _).
  set (self2 := after S_score self) in *.
  unfold spec_gradient.
  destruct (feqb (score C0 E0) fzero) eqn:Hz.
  - unfold bind at 1. rewrite get_bind, (coh_n _ _ _ H2), tick_bind.
    reflexivity.
  - unfold bind at 1. rewrite !get_bind.
    pose proof (sym_matvec_run self2 H2) as Hmv.
    destruct (np_zip2 fadd (self_E self2) (np_transpose (self_E self2)))
      as [EEt|e]; [|discriminate].
    rewrite lift_bind. cbn [rbind] in Hmv. rewrite lift_bind, Hmv.
    rewrite (S_score_bind _ _ H2).
    replace (after S_score self2) with self2
      by (unfold after; now rewrite (S_score_cached self2 _ Hs2)).
    rewrite tick_bind, np_div1s_tab. reflexivity.
Qed.

Lemma _get_gradient_run self :
  coherent C0 E0 self ->
  value _get_gradient self = Return (spec_gradient C0 E0)
  /\ coherent C0 E0 (after _get_gradient self)
  /\ self_gradient_s (after _get_gradient self) = Some (spec_gradient C0 E0)
  /\ self_centrality (after _get_gradient self) = self_centrality self
  /\ steps self (after _get_gradient self).
Proof.
  intros H. unfold value, after.
  destruct (self_gradient_s self) as [g|] eqn:Hg.
  - rewrite (_get_gradient_cached self g Hg). cbn [fst snd].
    pose proof (coh_g _ _ _ H g Hg) as Hv. subst g.
    split; [reflexivity|]. split; [exact H|]. split; [exact Hg|].
    split; [reflexivity|apply steps_refl].
  - rewrite (_get_gradient_fresh self H Hg). cbn [fst snd].
    destruct (S_score_run _ H) as (_ & H2 & _ & Hg2 & Hc & Hst).
    split; [reflexivity|].
    split; [apply coherent_set_gradient_s, coherent_tick, H2|].
    split; [reflexivity|]. split; [exact Hc|].
    eapply steps_trans; [exact Hst|].
    eapply steps_cons; [|apply steps_refl].
    apply (step_gradient (spec_gradient C0 E0)). now rewrite Hg2.
Qed.

Lemma _get_gradient_eq self :
  coherent C0 E0 self ->
  _get_gradient self
  = (Return (spec_gradient C0 E0), after _get_gradient self).
Proof.
  intros H. destruct (_get_gradient_run self H) as [Hv _].
  unfold value, after in *. destruct (_get_gradient self) as [r self'].
  cbn in *. now subst.
Qed.

Lemma spec_gradient_tab :
  spec_gradient C0 E0 = tab (length C0) (gradient_entry C0 E0).
Proof.
  unfold spec_gradient, gradient_entry.
  destruct (feqb (score C0 E0) fzero); reflexivity.
Qed.

Lemma _get_gradient_bind {B : Type} (k : list float64 -> M B) self :
  coherent C0 E0 self ->
  bind _get_gradient k self
  = k (spec_gradient C0 E0) (after _get_gradient self).
Proof. intros H. apply bind_return, _get_gradient_eq, H. Qed.

(** [calculate_risk_decomposition]. *)
Lemma calculate_risk_decomposition_run self :
  coherent C0 E0 self ->
  value calculate_risk_decomposition self = Return (spec_decomposition C0 E0)
  /\ coherent C0 E0 (after calculate_risk_decomposition self)
  /\ steps self (after calculate_risk_decomposition self).
Proof.
  intros H. unfold value, after, calculate_risk_decomposition.
  rewrite (_get_gradient_bind _ _ H), tick_bind, get_bind.
  destruct (_get_gradient_run self H) as (_ & H1 & _ & _ & Hst).
  pose proof (coherent_tick MDecomposition _ H1) as H2.
  unfold lift. cbn [fst snd]. split; [|split; [exact H2|]].
  - rewrite (coherent_C _ H2), spec_gradient_tab, np_zip1_tab.
    reflexivity.
  - eapply steps_trans; [exact Hst|]. tick_step MDecomposition; apply steps_refl.
Qed.

(** [calculate_node_degrees] and [calculate_fragility] read [E] alone. *)
Lemma degrees_tab self :
  coherent C0 E0 self -> np_sum_axis1 (self_E self) = spec_degrees E0.
Proof.
  intros H. rewrite (coherent_E self H), np_sum_axis1_tab2.
  unfold spec_degrees, degree.
  rewrite (coh_rows _ _ _ H), (coh_cols _ _ _ H).
  apply tab_ext. intros i Hi. apply np_sum_Fin.
Qed.

Lemma calculate_node_degrees_run self :
  coherent C0 E0 self ->
  value calculate_node_degrees self = Return (spec_degrees E0)
  /\ coherent C0 E0 (after calculate_node_degrees self)
  /\ steps self (after calculate_node_degrees self).
Proof.
  intros H. unfold value, after, calculate_node_degrees.
  rewrite tick_bind, get_bind. unfold ret. cbn [fst snd].
  pose proof (coherent_tick MNodeDegrees _ H) as H1.
  split; [|split; [exact H1|tick_step MNodeDegrees; apply steps_refl]].
  now rewrite (degrees_tab _ H1).
Qed.

Lemma calculate_fragility_run self :
  coherent C0 E0 self ->
  value calculate_fragility self = Return (spec_fragility E0)
  /\ coherent C0 E0 (after calculate_fragility self)
  /\ steps self (after calculate_fragility self).
Proof.
  intros H. unfold value, after, calculate_fragility.
  rewrite tick_bind, get_bind.
  pose proof (coherent_tick MFragility _ H) as H1.
  rewrite (degrees_tab _ H1). unfold spec_fragility.
  destruct (feqb (np_mean (spec_degrees E0)) fzero);
    unfold ret; cbn [fst snd];
    (split; [reflexivity|split; [exact H1|tick_step MFragility; apply steps_refl]]).
Qed.

(** [np.linalg.norm(C)] is the real Euclidean norm. *)
Lemma norm_run self :
  coherent C0 E0 self -> np_linalg_norm (self_C self) = Fin (norm2 C0).
Proof.
  intros H. unfold np_linalg_norm.
  rewrite (coherent_C self H), np_square_tab. cbn [fmul].
  rewrite np_sum_Fin. unfold np_sqrt, norm2.
  destruct (Rlt_dec _ 0) as [Hneg|_]; [|reflexivity].
  exfalso. apply (Rlt_not_le _ _ Hneg), rsum_nonneg.
  intros i _. apply Rle_0_sqr.
Qed.

Lemma calculate_normalized_score_run self :
  coherent C0 E0 self ->
  value calculate_normalized_score self
  = Return (spec_normalized_score C0 E0)
  /\ coherent C0 E0 (after calculate_normalized_score self)
  /\ steps self (after calculate_normalized_score self).
Proof.
  intros H. unfold value, after, calculate_normalized_score.
  rewrite tick_bind, get_bind.
  pose proof (coherent_tick MNormalizedScore _ H) as H1.
  rewrite (norm_run _ H1). unfold spec_normalized_score.
  destruct (feqb (Fin (norm2 C0)) fzero).
  - unfold ret. cbn [fst snd].
    split; [reflexivity|split; [exact H1|tick_step MNormalizedScore; apply steps_refl]].
  - rewrite (S_score_bind _ _ H1). unfold ret. cbn [fst snd].
    destruct (S_score_run _ H1) as (_ & H2 & _ & _ & _ & Hst).
    split; [reflexivity|split; [exact H2|tick_step MNormalizedScore; apply Hst]].
Qed.

Lemma fdiv_Fin (x y : R) : y <> 0 -> fdiv (Fin x) (Fin y) = Fin (x / y).
Proof.
  intros Hy. cbn. destruct (Req_dec_T y 0); [contradiction|reflexivity].
Qed.

(** [calculate_cross_risk]. *)
Lemma calculate_cross_risk_run self :
  coherent C0 E0 self ->
  value calculate_cross_risk self = Return (cross_risk_value C0 E0)
  /\ coherent C0 E0 (after calculate_cross_risk self)
  /\ steps self (after calculate_cross_risk self).
Proof.
  intros H. unfold value, after, calculate_cross_risk, cross_risk_value.
  rewrite tick_bind.
  pose proof (coherent_tick MCrossRisk _ H) as H1.
  rewrite (S_score_bind _ _ H1).
  destruct (S_score_run _ H1) as (_ & H2 & _ & _ & _ & Hst2).
  set (self2 := after S_score (after (tick MCrossRisk) self)) in *.
  destruct (feqb (score C0 E0) fzero) eqn:Hz.
  - rewrite get_bind, (coh_n _ _ _ H2). unfold ret. cbn [fst snd].
    split; [reflexivity|split; [exact H2|tick_step MCrossRisk; apply Hst2]].
  - rewrite (_get_gradient_bind _ _ H2).
    destruct (_get_gradient_run _ H2) as (_ & H3 & _ & _ & Hst3).
    set (self3 := after _get_gradient self2) in *.
    rewrite !get_bind, lift_bind.
    rewrite (coherent_C _ H3), (coherent_E _ H3).
    rewrite np_transpose_tab2, np_zip2_tab2, np_div2s_tab2.
    rewrite spec_gradient_tab, np_outer_tab, lift_bind, np_zip2_tab2.
    rewrite (S_score_bind _ _ H3).
    destruct (S_score_run _ H3) as (_ & H4 & _ & _ & _ & Hst4).
    rewrite np_div2s_tab2, !np_diag_tab, lift_bind, np_matmul_tab2.
    unfold lift. rewrite np_zip2_tab2. cbn [fst snd].
    split; [|split; [exact H4|]].
    + apply f_equal, tab2_ext. intros i j Hi Hj.
      apply f_equal, f_equal, tab_ext. intros k Hk.
      unfold hessian_entry. cbn [fadd].
      rewrite fdiv_Fin by lra. reflexivity.
    + tick_step MCrossRisk.
      eapply steps_trans; [exact Hst2|].
      eapply steps_trans; [exact Hst3|exact Hst4].
Qed.

(** [calculate_centrality]: whatever networkx returns or raises, once. *)
Lemma calculate_centrality_cached self c :
  self_centrality self = Some c ->
  calculate_centrality self = (Return c, self).
Proof.
  intros H. unfold calculate_centrality. rewrite get_bind, H. reflexivity.
Qed.

Lemma calculate_centrality_fresh self :
  coherent C0 E0 self -> self_centrality self = None ->
  calculate_centrality self
  = match calculate_eigenvector_centrality E0 with
    | Return c =>
        (Return c, after (set_centrality c) (after (tick MCentrality) self))
    | Raise e => (Raise e, after (tick MCentrality) self)
    end.
Proof.
  intros H Hc. unfold calculate_centrality.
  rewrite get_bind, Hc, tick_bind, get_bind, lift_bind.
  cbn [after tick snd self_E_df]. rewrite (coh_E_df _ _ _ H).
  destruct (calculate_eigenvector_centrality E0); reflexivity.
Qed.

Lemma calculate_centrality_run self :
  coherent C0 E0 self ->
  value calculate_centrality self = calculate_eigenvector_centrality E0
  /\ coherent C0 E0 (after calculate_centrality self)
  /\ steps self (after calculate_centrality self).
Proof.
  intros H. unfold value, after.
  destruct (self_centrality self) as [c|] eqn:Hc.
  - rewrite (calculate_centrality_cached self c Hc). cbn [fst snd].
    split; [symmetry; now apply (coh_c _ _ _ H)|].
    split; [exact H|apply steps_refl].
  - rewrite (calculate_centrality_fresh self H Hc).
    destruct (calculate_eigenvector_centrality E0) as [c|e] eqn:Hcalc;
      cbn [fst snd]; (split; [reflexivity|]).
    + split.
      * apply coherent_set_centrality; [exact Hcalc|].
        apply coherent_tick, H.
      * tick_step MCentrality. eapply steps_cons; [|apply steps_refl].
        apply step_set_centrality. exact Hc.
    + split; [apply coherent_tick, H|tick_step MCentrality; apply steps_refl].
Qed.

(** A centrality vector has one entry per row of the matrix. *)
Lemma centrality_tab c :
  calculate_eigenvector_centrality E0 = Return c ->
  c = tab (nrows E0) (fun i => get1 c i).
Proof.
  unfold calculate_eigenvector_centrality. intros Hc.
  destruct (from_pandas_adjacency E0) as [G|e]; cbn [rbind] in Hc.
  - destruct (eigenvector_centrality G max_iter tol "weight") as [d|e];
      cbn [rbind] in Hc.
    + injection Hc as <-. apply tab_ext. intros i Hi.
      now rewrite get1_tab.
    + destruct e; discriminate.
  - destruct e; discriminate.
Qed.

(** [calculate_criticality]. *)
Lemma calculate_criticality_run self :
  coherent C0 E0 self ->
  value calculate_criticality self
  = rbind (calculate_eigenvector_centrality E0)
          (fun c => Return (criticality_value C0 c))
  /\ coherent C0 E0 (after calculate_criticality self)
  /\ steps self (after calculate_criticality self).
Proof.
  intros H. unfold value, after, calculate_criticality.
  destruct (calculate_centrality_run self H) as (Hv & H1 & Hst).
  unfold value, after in Hv, H1, Hst.
  destruct (calculate_centrality self) as [r self1] eqn:Hrun.
  cbn [fst snd] in Hv, H1, Hst. subst r.
  destruct (calculate_eigenvector_centrality E0) as [c|e] eqn:Hcalc.
  - rewrite (bind_return _ _ _ _ _ Hrun), tick_bind, get_bind.
    pose proof (coherent_tick MCriticality _ H1) as H2.
    unfold lift. cbn [fst snd rbind]. split; [|split; [exact H2|]].
    + rewrite (coherent_C _ H2), (centrality_tab c Hcalc) at 1.
      rewrite (coh_rows _ _ _ H), np_zip1_tab. reflexivity.
    + eapply steps_trans; [exact Hst|tick_step MCriticality; apply steps_refl].
  - rewrite (bind_raise _ _ _ _ _ Hrun). cbn [fst snd rbind]. auto.
Qed.

(** The remaining public calls. *)
Lemma validate_inputs_after self : after validate_inputs self = self.
Proof.
  unfold after, validate_inputs.
  repeat match goal with |- context [if ?b then _ else _] => destruct b end;
    reflexivity.
Qed.

Lemma exec_run c self :
  coherent C0 E0 self ->
  coherent C0 E0 (exec c self) /\ steps self (exec c self).
Proof.
  intros H. destruct c; cbn [exec].
  - rewrite validate_inputs_after. split; [exact H|apply steps_refl].
  - split; apply (S_score_run self H).
  - unfold after. rewrite (calculate_S_run self H). cbn [snd].
    split; [apply coherent_tick, H|tick_step MScore; apply steps_refl].
  - split; apply (calculate_risk_decomposition_run self H).
  - split; apply (calculate_centrality_run self H).
  - split; apply (calculate_criticality_run self H).
  - split; apply (_get_gradient_run self H).
  - split; apply (calculate_fragility_run self H).
  - split; apply (calculate_node_degrees_run self H).
  - split; apply (calculate_normalized_score_run self H).
  - split; apply (calculate_cross_risk_run self H).
Qed.

Lemma exec_coherent c self :
  coherent C0 E0 self -> coherent C0 E0 (exec c self).
Proof. intros H. apply (exec_run c self H). Qed.

End Coherent.

(** ** Construction *)

Lemma length_np_array1 (C0 : Series) : length (np_array1 C0) = length C0.
Proof. apply length_map. Qed.

Lemma nrows_np_array2 (E0 : DataFrame) : nrows (np_array2 E0) = nrows E0.
Proof. unfold nrows, np_array2. cbn [rows]. apply length_map. Qed.

(** [__init__] in closed form: the first failing check decides. *)
Lemma init_cases (C0 : Series) (E0 : DataFrame) :
  init C0 E0
  = if negb (Nat.eqb (nrows E0) (ncols E0)) then Raise NotSquare
    else if negb (Nat.eqb (length C0) (nrows E0)) then Raise ShapeMismatch
    else Return (Instance (np_array1 C0) (np_array2 E0) E0 (length C0)
                          None None None []).
Proof.
  unfold init, validate_inputs, shape.
  cbn [self_C self_E self_n ndim1 ndim2 fst snd Nat.eqb negb orb].
  rewrite nrows_np_array2, length_np_array1.
  change (ncols (np_array2 E0)) with (ncols E0).
  destruct (Nat.eqb (nrows E0) (ncols E0)); cbn [negb]; [|reflexivity].
  destruct (Nat.eqb (length C0) (nrows E0)); reflexivity.
Qed.

Lemma init_coherent (C0 : Series) (E0 : DataFrame) self :
  rectangular E0 = true -> init C0 E0 = Return self -> coherent C0 E0 self.
Proof.
  intros Hrect. rewrite init_cases.
  destruct (Nat.eqb_spec (nrows E0) (ncols E0)) as [Hsq|]; [|discriminate].
  destruct (Nat.eqb_spec (length C0) (nrows E0)) as [Hn|]; [|discriminate].
  cbn [negb]. intros [= <-].
  constructor; cbn; try reflexivity; try discriminate; congruence.
Qed.

(** Every instance in use is coherent. *)
Lemma engine_coherent (C0 : Series) (E0 : DataFrame) self :
  engine C0 E0 self -> coherent C0 E0 self.
Proof.
  induction 1 as [self Hrect Hinit|self c _ IH].
  - now apply init_coherent.
  - now apply exec_coherent.
Qed.

(** ** Construction errors *)

(** C4 (as the program has it): a non-square matrix is refused with
    NotSquare whatever the vector; a square matrix whose size differs from
    the vector's length is refused with ShapeMismatch; construction succeeds
    exactly when [len(C) = rows(E) = cols(E)], the empty system included. *)
Theorem init_validation (C0 : Series) (E0 : DataFrame) :
  (nrows E0 <> ncols E0 -> init C0 E0 = Raise NotSquare)
  /\ (nrows E0 = ncols E0 -> length C0 <> nrows E0 ->
      init C0 E0 = Raise ShapeMismatch)
  /\ ((exists self, init C0 E0 = Return self)
      <-> length C0 = nrows E0 /\ nrows E0 = ncols E0).
Proof.
  rewrite init_cases.
  destruct (Nat.eqb_spec (nrows E0) (ncols E0)) as [Hsq|Hsq]; cbn [negb].
  - destruct (Nat.eqb_spec (length C0) (nrows E0)) as [Hn|Hn]; cbn [negb].
    + split; [intros; contradiction|]. split; [intros; contradiction|].
      split; [auto|intros _; eexists; reflexivity].
    + split; [intros; contradiction|]. split; [reflexivity|].
      split; [intros [self Hself]; discriminate|intros [? _]; contradiction].
  - split; [reflexivity|]. split; [intros; contradiction|].
    split; [intros [self Hself]; discriminate|intros [_ ?]; contradiction].
Qed.

(** C4 as stated fails twice: the empty system is accepted although no
    [n >= 1] fits it, and a vector of the wrong length next to a non-square
    matrix is refused with NotSquare, not ShapeMismatch. *)
Lemma init_validation_counterexample :
  ((exists self, init [] (Mat 0 []) = Return self)
   /\ ~ (1 <= length (@nil R))%nat)
  /\ (length [1] <> nrows (Mat 3 [[1; 2; 3]; [4; 5; 6]])
      /\ init [1] (Mat 3 [[1; 2; 3]; [4; 5; 6]]) = Raise NotSquare
      /\ NotSquare <> ShapeMismatch).
Proof.
  split; [split; [eexists; reflexivity|cbn; lia]|].
  split; [cbn; lia|]. split; [reflexivity|discriminate].
Qed.

(** ** Score, gradient and decomposition *)

Lemma engine_S (C0 : Series) (E0 : DataFrame) self :
  engine C0 E0 self -> value S_score self = Return (score C0 E0).
Proof. intros H. apply S_score_run, engine_coherent, H. Qed.



(** ** The quadratic form of the zero vector *)


(** ** Fragility and node degrees *)

(** C10: two engines on the same adjacency matrix, whatever their compromise
    vectors and whatever has been called on them, return the same fragility
    and the same node degrees. *)
Theorem fragility_and_degrees_ignore_C
        (C1 C2 : Series) (E0 : DataFrame) self1 self2 :
  engine C1 E0 self1 ->
  engine C2 E0 self2 ->
  (exists r, value calculate_fragility self1 = Return r
             /\ value calculate_fragility self2 = Return r)
  /\ (exists d, value calculate_node_degrees self1 = Return d
                /\ value calculate_node_degrees self2 = Return d).
Proof.
  intros H1 H2.
  apply engine_coherent in H1. apply engine_coherent in H2.
  split.
  - exists (spec_fragility E0).
    split; [apply (calculate_fragility_run C1 E0 self1 H1)
           |apply (calculate_fragility_run C2 E0 self2 H2)].
  - exists (spec_degrees E0).
    split; [apply (calculate_node_degrees_run C1 E0 self1 H1)
           |apply (calculate_node_degrees_run C2 E0 self2 H2)].
Qed.

(** ** Centrality failures *)

(** On two coherent instances of the same system, every output that does not
    need the centrality is returned, with the same value. *)
Lemma coherent_same_outputs (C0 : Series) (E0 : DataFrame) self self' :
  coherent C0 E0 self -> coherent C0 E0 self' -> same_outputs self self'.
Proof.
  intros H H'. unfold same_outputs.
  split; [exists (score C0 E0);
          split; [apply (S_score_run C0 E0 self H)
                 |apply (S_score_run C0 E0 self' H')]|].
  split; [exists (score C0 E0); unfold value;
          now rewrite (calculate_S_run C0 E0 self H),
                      (calculate_S_run C0 E0 self' H')|].
  split; [exists (spec_gradient C0 E0);
          split; [apply (_get_gradient_run C0 E0 self H)
                 |apply (_get_gradient_run C0 E0 self' H')]|].
  split; [exists (spec_decomposition C0 E0);
          split; [apply (calculate_risk_decomposition_run C0 E0 self H)
                 |apply (calculate_risk_decomposition_run C0 E0 self' H')]|].
  split; [exists (cross_risk_value C0 E0);
          split; [apply (calculate_cross_risk_run C0 E0 self H)
                 |apply (calculate_cross_risk_run C0 E0 self' H')]|].
  split; [exists (spec_fragility E0);
          split; [apply (calculate_fragility_run C0 E0 self H)
                 |apply (calculate_fragility_run C0 E0 self' H')]|].
  split; [exists (spec_degrees E0);
          split; [apply (calculate_node_degrees_run C0 E0 self H)
                 |apply (calculate_node_degrees_run C0 E0 self' H')]|].
  exists (spec_normalized_score C0 E0).
  split; [apply (calculate_normalized_score_run C0 E0 self H)
         |apply (calculate_normalized_score_run C0 E0 self' H')].
Qed.

(** C7: when the power iteration uses up [max_iter = 1000] iterations
    without meeting [tol = 1e-6], [calculate_centrality] raises the
    convergence error and returns no vector; [calculate_criticality] raises
    it too; no centrality is cached; and after either failed call every
    other output is still returned, with the value it had before. *)
Theorem convergence_failure_is_raised
        (C0 : Series) (E0 : DataFrame) self (G : nx_graph) (k : nat) :
  engine C0 E0 self ->
  from_pandas_adjacency E0 = Return G ->
  eigenvector_centrality G 1000%nat (1 / 1000000) "weight"
  = Raise (PowerIterationFailedConvergence k) ->
  value calculate_centrality self = Raise ConvergenceFailure
  /\ value calculate_criticality self = Raise ConvergenceFailure
  /\ self_centrality (after calculate_centrality self) = None
  /\ self_centrality (after calculate_criticality self) = None
  /\ same_outputs self (after calculate_centrality self)
  /\ same_outputs self (after calculate_criticality self).
Proof.
  intros Heng HG Hfail.
  pose proof (engine_coherent C0 E0 self Heng) as H.
  assert (Hcalc : calculate_eigenvector_centrality E0
                  = Raise ConvergenceFailure).
  { unfold calculate_eigenvector_centrality, max_iter, tol.
    rewrite HG. cbn [rbind]. rewrite Hfail. reflexivity. }
  destruct (calculate_centrality_run C0 E0 self H) as (Hv & H1 & _).
  destruct (calculate_criticality_run C0 E0 self H) as (Hv2 & H2 & _).
  rewrite Hcalc in Hv, Hv2. cbn [rbind] in Hv2.
  assert (Hnone : forall st, coherent C0 E0 st -> self_centrality st = None).
  { intros st Hst. destruct (self_centrality st) as [c|] eqn:Hc; [|reflexivity].
    pose proof (coh_c _ _ _ Hst c Hc) as Habs. rewrite Hcalc in Habs.
    discriminate. }
  split; [exact Hv|]. split; [exact Hv2|].
  split; [exact (Hnone _ H1)|]. split; [exact (Hnone _ H2)|].
  split; now apply (coherent_same_outputs C0 E0).
Qed.

(** ** Memoization *)

Lemma step_caches a b :
  step a b ->
  (forall v, self_s_score a = Some v -> self_s_score b = Some v)
  /\ (forall v, self_gradient_s a = Some v -> self_gradient_s b = Some v)
  /\ (forall v, self_centrality a = Some v -> self_centrality b = Some v).
Proof.
  intros [m self Hm|v self Hn|v self Hn|v self Hn]; cbn;
    repeat split; intros w Hw; try assumption; congruence.
Qed.

(** A filled cache stays filled, with the same value. *)
Lemma steps_caches a b :
  steps a b ->
  (forall v, self_s_score a = Some v -> self_s_score b = Some v)
  /\ (forall v, self_gradient_s a = Some v -> self_gradient_s b = Some v)
  /\ (forall v, self_centrality a = Some v -> self_centrality b = Some v).
Proof.
  induction 1 as [self|a b c Hab _ (IHs & IHg & IHc)]; [auto|].
  destruct (step_caches a b Hab) as (Hs & Hg & Hc).
  repeat split; intros v Hv; auto.
Qed.

Lemma exec_all_run (C0 : Series) (E0 : DataFrame) cs self :
  coherent C0 E0 self ->
  coherent C0 E0 (exec_all cs self) /\ steps self (exec_all cs self).
Proof.
  revert self. induction cs as [|c cs IH]; intros self H; cbn.
  - split; [exact H|apply steps_refl].
  - destruct (exec_run C0 E0 c self H) as [H1 Hst1].
    destruct (IH _ H1) as [H2 Hst2].
    split; [exact H2|]. eapply steps_trans; eassumption.
Qed.

Lemma step_ledger a b : step a b -> gradient_ledger a -> gradient_ledger b.
Proof.
  unfold gradient_ledger, evaluations.
  intros [m self Hm|v self Hn|v self Hn|v self Hn] [Hnone Hle];
    cbn [after tick set_s_score set_gradient_s set_centrality snd
         evals self_gradient_s].
  - rewrite count_occ_cons_neq by exact Hm. auto.
  - auto.
  - rewrite count_occ_cons_eq by reflexivity.
    rewrite (Hnone Hn). split; [discriminate|lia].
  - auto.
Qed.

Lemma steps_ledger a b : steps a b -> gradient_ledger a -> gradient_ledger b.
Proof.
  induction 1 as [self|a b c Hab _ IH]; [auto|].
  intros Ha. apply IH, (step_ledger a b Hab Ha).
Qed.

(** The gradient is evaluated at most once in the life of an instance. *)
Lemma engine_ledger (C0 : Series) (E0 : DataFrame) self :
  engine C0 E0 self -> gradient_ledger self.
Proof.
  induction 1 as [self Hrect Hinit|self c Heng IH].
  - rewrite init_cases in Hinit.
    destruct (negb (Nat.eqb (nrows E0) (ncols E0))); [discriminate|].
    destruct (negb (Nat.eqb (length C0) (nrows E0))); [discriminate|].
    injection Hinit as <-. split; [reflexivity|cbn; lia].
  - apply (steps_ledger self); [|exact IH].
    apply (exec_run C0 E0 c self (engine_coherent C0 E0 self Heng)).
Qed.

Lemma ticks_only_refl ms a : ticks_only ms a a.
Proof. exists []. split; [reflexivity|constructor]. Qed.

Lemma ticks_only_trans ms a b c :
  ticks_only ms a b -> ticks_only ms b c -> ticks_only ms a c.
Proof.
  intros (l1 & H1 & F1) (l2 & H2 & F2). exists (l2 ++ l1).
  split; [now rewrite H2, H1, app_assoc|now apply Forall_app].
Qed.

Lemma ticks_only_incl ms ms' a b :
  incl ms ms' -> ticks_only ms a b -> ticks_only ms' a b.
Proof.
  intros Hi (l & H & F). exists l. split; [exact H|].
  eapply Forall_impl; [|exact F]. intros m Hm. now apply Hi.
Qed.

Lemma ticks_only_count ms m a b :
  ticks_only ms a b -> ~ In m ms -> evaluations m b = evaluations m a.
Proof.
  intros (l & H & F) Hm. unfold evaluations. rewrite H, count_occ_app.
  replace (count_occ metric_eq_dec l m) with 0%nat; [reflexivity|].
  symmetry. apply count_occ_not_In. intros Hin.
  rewrite Forall_forall in F. apply Hm, F, Hin.
Qed.

Lemma evaluations_tick m a :
  evaluations m (after (tick m) a) = S (evaluations m a).
Proof.
  unfold evaluations. cbn [after tick snd evals].
  now rewrite count_occ_cons_eq.
Qed.

Lemma S_score_ticks (C0 : Series) (E0 : DataFrame) self :
  coherent C0 E0 self -> ticks_only [MScore] self (after S_score self).
Proof.
  intros H. unfold after.
  destruct (self_s_score self) as [s|] eqn:Hs.
  - rewrite (S_score_cached self s Hs). apply ticks_only_refl.
  - rewrite (S_score_fresh C0 E0 self H Hs).
    exists [MScore]. split; [reflexivity|]. constructor; [now left|constructor].
Qed.

Lemma _get_gradient_ticks (C0 : Series) (E0 : DataFrame) self :
  coherent C0 E0 self ->
  ticks_only [MScore; MGradient] self (after _get_gradient self).
Proof.
  intros H. unfold after.
  destruct (self_gradient_s self) as [g|] eqn:Hg.
  - rewrite (_get_gradient_cached self g Hg). apply ticks_only_refl.
  - rewrite (_get_gradient_fresh C0 E0 self H Hg). cbn [snd].
    apply (ticks_only_trans _ _ (after S_score self)).
    + apply (ticks_only_incl [MScore]); [|now apply (S_score_ticks C0 E0)].
      intros m [<-|[]]. now left.
    + exists [MGradient]. split; [reflexivity|].
      constructor; [right; now left|constructor].
Qed.

Lemma calculate_centrality_ticks (C0 : Series) (E0 : DataFrame) self :
  coherent C0 E0 self ->
  ticks_only [MCentrality] self (after calculate_centrality self).
Proof.
  intros H. unfold after.
  destruct (self_centrality self) as [c|] eqn:Hc.
  - rewrite (calculate_centrality_cached self c Hc). apply ticks_only_refl.
  - rewrite (calculate_centrality_fresh C0 E0 self H Hc).
    destruct (calculate_eigenvector_centrality E0); cbn [snd];
      (exists [MCentrality]; split; [reflexivity|];
       constructor; [now left|constructor]).
Qed.

(** What each accessor without a cache of its own leaves behind. *)
Lemma calculate_risk_decomposition_after (C0 : Series) (E0 : DataFrame) self :
  coherent C0 E0 self ->
  after calculate_risk_decomposition self
  = after (tick MDecomposition) (after _get_gradient self).
Proof.
  intros H. unfold after at 1. unfold calculate_risk_decomposition.
  now rewrite (_get_gradient_bind C0 E0 _ self H), tick_bind, get_bind.
Qed.

Lemma calculate_fragility_after self :
  after calculate_fragility self = after (tick MFragility) self.
Proof.
  unfold after at 1. unfold calculate_fragility.
  rewrite tick_bind, get_bind.
  now destruct (feqb _ fzero).
Qed.

Lemma calculate_node_degrees_after self :
  after calculate_node_degrees self = after (tick MNodeDegrees) self.
Proof. reflexivity. Qed.

Lemma calculate_normalized_score_ticks (C0 : Series) (E0 : DataFrame) self :
  coherent C0 E0 self ->
  ticks_only [MScore] (after (tick MNormalizedScore) self)
             (after calculate_normalized_score self).
Proof.
  intros H. unfold after at 2. unfold calculate_normalized_score.
  rewrite tick_bind, get_bind.
  pose proof (coherent_tick C0 E0 MNormalizedScore _ H) as H1.
  destruct (feqb _ fzero).
  - apply ticks_only_refl.
  - rewrite (S_score_bind C0 E0 _ _ H1). cbn [ret snd].
    now apply (S_score_ticks C0 E0).
Qed.

Lemma calculate_cross_risk_ticks (C0 : Series) (E0 : DataFrame) self :
  coherent C0 E0 self ->
  ticks_only [MScore; MGradient] (after (tick MCrossRisk) self)
             (after calculate_cross_risk self).
Proof.
  intros H.
  destruct (calculate_cross_risk_run C0 E0 self H) as (_ & _ & _).
  unfold after at 2. unfold calculate_cross_risk. rewrite tick_bind.
  pose proof (coherent_tick C0 E0 MCrossRisk _ H) as H1.
  rewrite (S_score_bind C0 E0 _ _ H1).
  destruct (S_score_run C0 E0 _ H1) as (_ & H2 & _).
  assert (T2 : ticks_only [MScore; MGradient] (after (tick MCrossRisk) self)
                 (after S_score (after (tick MCrossRisk) self))).
  { apply (ticks_only_incl [MScore]); [|now apply (S_score_ticks C0 E0)].
    intros m [<-|[]]. now left. }
  set (self2 := after S_score (after (tick MCrossRisk) self)) in *.
  destruct (feqb (score C0 E0) fzero) eqn:Hz.
  - rewrite get_bind. exact T2.
  - rewrite (_get_gradient_bind C0 E0 _ _ H2).
    destruct (_get_gradient_run C0 E0 _ H2) as (_ & H3 & _).
    pose proof (_get_gradient_ticks C0 E0 _ H2) as T3.
    set (self3 := after _get_gradient self2) in *.
    rewrite !get_bind, lift_bind.
    rewrite (coherent_C C0 E0 _ H3), (coherent_E C0 E0 _ H3).
    rewrite np_transpose_tab2, np_zip2_tab2, np_div2s_tab2.
    rewrite spec_gradient_tab, np_outer_tab, lift_bind, np_zip2_tab2.
    rewrite (S_score_bind C0 E0 _ _ H3).
    rewrite np_div2s_tab2, !np_diag_tab, lift_bind, np_matmul_tab2.
    unfold lift. rewrite np_zip2_tab2. cbn [snd].
    apply (ticks_only_trans _ _ self2); [exact T2|].
    apply (ticks_only_trans _ _ self3); [exact T3|].
    apply (ticks_only_incl [MScore]); [|now apply (S_score_ticks C0 E0)].
    intros m [<-|[]]. now left.
Qed.

Lemma calculate_criticality_after (C0 : Series) (E0 : DataFrame) self c :
  coherent C0 E0 self ->
  value calculate_centrality self = Return c ->
  after calculate_criticality self
  = after (tick MCriticality) (after calculate_centrality self).
Proof.
  intros H Hc. unfold value in Hc. unfold after at 1 3.
  unfold calculate_criticality.
  destruct (calculate_centrality self) as [r self1] eqn:Hrun.
  cbn [fst] in Hc. subst r.
  now rewrite (bind_return _ _ _ _ _ Hrun), tick_bind, get_bind.
Qed.

(** C9 (as the program has it): the score read through the [S] property,
    the gradient (risk increment) and a centrality that has been computed are
    memoized.  After the first access, a later access, whatever was called in
    between, returns the cached value and leaves the instance as it is: in
    particular nothing is evaluated.  The gradient is evaluated at most once
    in the life of the instance.  Every output returns the same value (or,
    for the centrality and the criticality, raises the same error) however
    often and after whatever calls it is asked for.  The outputs without a
    cache of their own ([calculate_S] called directly, the decomposition, the
    cross-risk matrix, the fragility, the node degrees, the normalized score,
    and the criticality once the centrality is there) are evaluated again on
    every call; a centrality that fails is not cached and is evaluated again
    by the next call. *)
Theorem cached_accessors_memoized
        (C0 : Series) (E0 : DataFrame) self (cs : list call) :
  engine C0 E0 self ->
  (forall s, value S_score self = Return s ->
     let later := exec_all cs (after S_score self) in
     S_score later = (Return s, later))
  /\ (forall g, value _get_gradient self = Return g ->
     let later := exec_all cs (after _get_gradient self) in
     _get_gradient later = (Return g, later))
  /\ (forall g, value calculate_risk_increment self = Return g ->
     let later := exec_all cs (after calculate_risk_increment self) in
     calculate_risk_increment later = (Return g, later))
  /\ (forall c, value calculate_centrality self = Return c ->
     let later := exec_all cs (after calculate_centrality self) in
     calculate_centrality later = (Return c, later))
  /\ (evaluations MGradient (exec_all cs self) <= 1)%nat
  /\ same_outputs self (exec_all cs self)
  /\ value calculate_centrality (exec_all cs self)
     = value calculate_centrality self
  /\ value calculate_criticality (exec_all cs self)
     = value calculate_criticality self
  /\ evaluations MScore (after calculate_S self)
     = S (evaluations MScore self)
  /\ evaluations MDecomposition (after calculate_risk_decomposition self)
     = S (evaluations MDecomposition self)
  /\ evaluations MCrossRisk (after calculate_cross_risk self)
     = S (evaluations MCrossRisk self)
  /\ evaluations MFragility (after calculate_fragility self)
     = S (evaluations MFragility self)
  /\ evaluations MNodeDegrees (after calculate_node_degrees self)
     = S (evaluations MNodeDegrees self)
  /\ evaluations MNormalizedScore (after calculate_normalized_score self)
     = S (evaluations MNormalizedScore self)
  /\ (forall c, value calculate_centrality self = Return c ->
      evaluations MCriticality (after calculate_criticality self)
      = S (evaluations MCriticality self))
  /\ (forall e, value calculate_centrality self = Raise e ->
      self_centrality (after calculate_centrality self) = None
      /\ evaluations MCentrality (after calculate_centrality self)
         = S (evaluations MCentrality self)).
Proof.
  intros Heng. pose proof (engine_coherent C0 E0 self Heng) as H.
  assert (HG : forall g, value _get_gradient self = Return g ->
     let later := exec_all cs (after _get_gradient self) in
     _get_gradient later = (Return g, later)).
  { intros g Hg later.
    destruct (_get_gradient_run C0 E0 self H) as (Hv & H1 & Hc & _).
    rewrite Hv in Hg. injection Hg as <-.
    destruct (exec_all_run C0 E0 cs _ H1) as [_ Hst].
    apply _get_gradient_cached, (steps_caches _ _ Hst), Hc. }
  pose proof (proj1 (exec_all_run C0 E0 cs self H)) as Hlater.
  split; [|split; [exact HG|split; [exact HG|split; [|split; [|split]]]]].
  - intros s Hs later.
    destruct (S_score_run C0 E0 self H) as (Hv & H1 & Hc & _).
    rewrite Hv in Hs. injection Hs as <-.
    destruct (exec_all_run C0 E0 cs _ H1) as [_ Hst].
    apply S_score_cached, (steps_caches _ _ Hst), Hc.
  - intros c Hc later.
    destruct (calculate_centrality_run C0 E0 self H) as (Hv & H1 & _).
    destruct (exec_all_run C0 E0 cs _ H1) as [_ Hst].
    apply calculate_centrality_cached, (steps_caches _ _ Hst).
    unfold value in Hc. unfold after.
    destruct (self_centrality self) as [c'|] eqn:Hcache.
    + rewrite (calculate_centrality_cached self c' Hcache) in *.
      cbn [fst snd] in *. congruence.
    + rewrite (calculate_centrality_fresh C0 E0 self H Hcache) in *.
      destruct (calculate_eigenvector_centrality E0) as [c'|e];
        cbn [fst snd] in *; [|discriminate].
      injection Hc as <-. reflexivity.
  - apply (steps_ledger self); [|exact (engine_ledger C0 E0 self Heng)].
    apply (exec_all_run C0 E0 cs self H).
  - apply (coherent_same_outputs C0 E0); [exact H|exact Hlater].
  - split.
    { rewrite (proj1 (calculate_centrality_run C0 E0 _ Hlater)).
      now rewrite (proj1 (calculate_centrality_run C0 E0 _ H)). }
    split.
    { rewrite (proj1 (calculate_criticality_run C0 E0 _ Hlater)).
      now rewrite (proj1 (calculate_criticality_run C0 E0 _ H)). }
    split.
    { unfold after. rewrite (calculate_S_run C0 E0 self H). cbn [snd].
      apply evaluations_tick. }
    split.
    { rewrite (calculate_risk_decomposition_after C0 E0 self H).
      rewrite evaluations_tick. f_equal.
      apply (ticks_only_count [MScore; MGradient]);
        [now apply (_get_gradient_ticks C0 E0)|].
      intros [Hm|[Hm|[]]]; discriminate. }
    split.
    { rewrite (ticks_only_count [MScore; MGradient] MCrossRisk _ _
                 (calculate_cross_risk_ticks C0 E0 self H))
        by (intros [Hm|[Hm|[]]]; discriminate).
      apply evaluations_tick. }
    split; [rewrite calculate_fragility_after; apply evaluations_tick|].
    split; [rewrite calculate_node_degrees_after; apply evaluations_tick|].
    split.
    { rewrite (ticks_only_count [MScore] MNormalizedScore _ _
                 (calculate_normalized_score_ticks C0 E0 self H))
        by (intros [Hm|[]]; discriminate).
      apply evaluations_tick. }
    split.
    { intros c Hc.
      rewrite (calculate_criticality_after C0 E0 self c H Hc).
      rewrite evaluations_tick. f_equal.
      apply (ticks_only_count [MCentrality]);
        [now apply (calculate_centrality_ticks C0 E0)|].
      intros [Hm|[]]; discriminate. }
    intros e He. unfold value in He. unfold after.
    destruct (self_centrality self) as [c'|] eqn:Hcache.
    + rewrite (calculate_centrality_cached self c' Hcache) in He.
      discriminate.
    + rewrite (calculate_centrality_fresh C0 E0 self H Hcache) in *.
      destruct (calculate_eigenvector_centrality E0) as [c'|e'];
        cbn [fst snd] in *; [discriminate|].
      split; [exact Hcache|apply evaluations_tick].
Qed.

(** ** Further properties of the engine *)

(** The inputs are never written: after any sequence of calls the instance
    still holds the arrays it was built from, and validating it again
    returns. *)
Theorem inputs_never_change (C0 : Series) (E0 : DataFrame) self :
  engine C0 E0 self ->
  self_C self = np_array1 C0
  /\ self_E self = np_array2 E0
  /\ self_E_df self = E0
  /\ self_n self = length C0
  /\ validate_inputs self = (Return tt, self).
Proof.
  intros Heng. pose proof (engine_coherent C0 E0 self Heng) as H.
  destruct H as [Hrect Hrows Hcols HC HE Hdf Hn _ _ _].
  repeat (split; [assumption|]).
  unfold validate_inputs, shape. rewrite HE, Hn. cbn [ndim1 ndim2 fst snd].
  rewrite nrows_np_array2. change (ncols (np_array2 E0)) with (ncols E0).
  rewrite Hrows, Hcols, !Nat.eqb_refl. reflexivity.
Qed.





(** [calculate_eigenvector_centrality] turns every failure of networkx,
    in building the graph or in the iteration, into a [RuntimeError], and a
    vector it returns has one entry per row of the matrix. *)
Theorem centrality_errors_are_runtime_errors (E0 : DataFrame) :
  (forall e, calculate_eigenvector_centrality E0 = Raise e ->
             exists msg, e = RuntimeError msg)
  /\ (forall c, calculate_eigenvector_centrality E0 = Return c ->
                length c = nrows E0).
Proof.
  unfold calculate_eigenvector_centrality. split.
  - intros e.
    destruct (from_pandas_adjacency E0) as [G|e1]; cbn [rbind].
    + destruct (eigenvector_centrality G max_iter tol "weight") as [d|e2];
        cbn [rbind]; [discriminate|].
      destruct e2; intros [= <-]; eexists; reflexivity.
    + destruct e1; intros [= <-]; eexists; reflexivity.
  - intros c.
    destruct (from_pandas_adjacency E0) as [G|e1]; cbn [rbind].
    + destruct (eigenvector_centrality G max_iter tol "weight") as [d|e2];
        cbn [rbind].
      * intros [= <-]. apply length_tab.
      * destruct e2; discriminate.
    + destruct e1; discriminate.
Qed.

(** When the centrality is returned, the criticality is [C_i * centrality_i]
    for each of the [n] institutions, and the call leaves the centrality
    cached: asking for it afterwards evaluates nothing. *)
Theorem criticality_is_weighted_centrality
        (C0 : Series) (E0 : DataFrame) self c :
  engine C0 E0 self ->
  value calculate_centrality self = Return c ->
  length c = length C0
  /\ value calculate_criticality self
     = Return (tab (length C0)
                   (fun i => fmul (Fin (entry C0 i)) (get1 c i)))
  /\ calculate_centrality (after calculate_criticality self)
     = (Return c, after calculate_criticality self).
Proof.
  intros Heng Hc. pose proof (engine_coherent C0 E0 self Heng) as H.
  destruct (calculate_centrality_run C0 E0 self H) as (Hv & H1 & Hst1).
  rewrite Hv in Hc.
  split.
  { rewrite (centrality_tab E0 c Hc), length_tab.
    apply (coh_rows _ _ _ H). }
  split.
  { destruct (calculate_criticality_run C0 E0 self H) as [-> _].
    now rewrite Hc. }
  apply calculate_centrality_cached.
  assert (Hcache : self_centrality (after calculate_centrality self) = Some c).
  { unfold after.
    destruct (self_centrality self) as [c'|] eqn:Hcache.
    - rewrite (calculate_centrality_cached self c' Hcache). cbn [snd].
      pose proof (coh_c _ _ _ H c' Hcache). congruence.
    - rewrite (calculate_centrality_fresh C0 E0 self H Hcache), Hc.
      reflexivity. }
  unfold after, calculate_criticality.
  assert (Hrun : calculate_centrality self
                 = (Return c, after calculate_centrality self)).
  { unfold value, after in *. destruct (calculate_centrality self) as [r st].
    cbn [fst snd] in *. congruence. }
  rewrite (bind_return _ _ _ _ _ Hrun), tick_bind, get_bind.
  unfold lift. cbn [snd after tick self_centrality]. exact Hcache.
Qed.

(** ** The validators *)

Lemma existsb_false {A : Type} (f : A -> bool) (l : list A) :
  existsb f l = false <-> (forall x, In x l -> f x = false).
Proof.
  induction l as [|a l IH]; cbn.
  - split; [intros _ x []|reflexivity].
  - rewrite orb_false_iff, IH. split.
    + intros [Ha Hl] x [<-|Hx]; auto.
    + intros H. split; [apply H; now left|intros x Hx; apply H; now right].
Qed.

Lemma forallb_tab {A : Type} (f : A -> bool) (n : nat) (g : nat -> A) :
  forallb f (tab n g) = true <-> (forall i, (i < n)%nat -> f (g i) = true).
Proof.
  unfold tab. rewrite forallb_forall. split.
  - intros H i Hi. apply H, in_map, in_seq. lia.
  - intros H x Hx. apply in_map_iff in Hx as (i & <- & Hi).
    apply in_seq in Hi. apply H. lia.
Qed.

Lemma fltb_Fin_zero (x : R) : fltb (Fin x) fzero = false <-> 0 <= x.
Proof.
  cbn. destruct (Rlt_dec x 0); split; intros H; try reflexivity;
    try discriminate; lra.
Qed.

Lemma feqb_Fin_one (x : R) : feqb (Fin x) (Fin 1) = true <-> x = 1.
Proof.
  cbn. destruct (Req_dec_T x 1); split; intros H; try reflexivity;
    try discriminate; congruence.
Qed.

(** [(matrix < 0).any()] is false exactly when no cell is negative. *)
Lemma np_any_negative_array (df : DataFrame) :
  rectangular df = true ->
  np_any_negative (np_array2 df) = false
  <-> (forall i j, (i < nrows df)%nat -> (j < ncols df)%nat ->
                   0 <= cell df i j).
Proof.
  intros Hrect. rewrite (np_array2_tab2 df Hrect).
  unfold np_any_negative, tab2. cbn [rows]. rewrite existsb_false. split.
  - intros H i j Hi Hj.
    apply fltb_Fin_zero.
    assert (Hrow : In (tab (ncols df) (fun j => Fin (cell df i j)))
                      (tab (nrows df)
                           (fun i => tab (ncols df)
                                         (fun j => Fin (cell df i j))))).
    { unfold tab at 2. apply in_map_iff. exists i. split; [reflexivity|].
      apply in_seq. lia. }
    specialize (H _ Hrow). rewrite existsb_false in H. apply H.
    unfold tab. apply in_map_iff. exists j. split; [reflexivity|].
    apply in_seq. lia.
  - intros H row Hrow. unfold tab at 1 in Hrow.
    apply in_map_iff in Hrow as (i & <- & Hi). apply in_seq in Hi.
    rewrite existsb_false. intros x Hx. unfold tab in Hx.
    apply in_map_iff in Hx as (j & <- & Hj). apply in_seq in Hj.
    apply fltb_Fin_zero, H; lia.
Qed.

(** [np.all(np.diag(matrix) == 1)] on a square matrix. *)
Lemma np_all_ones_diagonal (df : DataFrame) :
  rectangular df = true -> nrows df = ncols df ->
  np_all_ones (np_diagonal (np_array2 df)) = true
  <-> (forall i, (i < nrows df)%nat -> cell df i i = 1).
Proof.
  intros Hrect Hsq. rewrite (np_array2_tab2 df Hrect).
  unfold np_all_ones, np_diagonal. rewrite nrows_tab2, ncols_tab2.
  rewrite <- Hsq, Nat.min_id, forallb_tab. split.
  - intros H i Hi. specialize (H i Hi).
    rewrite get2_tab2 in H by assumption. now apply feqb_Fin_one.
  - intros H i Hi. rewrite get2_tab2 by assumption.
    apply feqb_Fin_one, H, Hi.
Qed.

(** What [validate_adjacency_matrix] accepts: exactly the square matrices
    with no negative cell and a diagonal of ones.  It reports a matrix that
    is not square with that single error, whatever its cells; and its flag
    is true exactly when it lists no error. *)
Theorem validate_adjacency_matrix_accepts (df : DataFrame) :
  rectangular df = true ->
  (fst (validate_adjacency_matrix df) = true
   <-> nrows df = ncols df
       /\ (forall i j, (i < nrows df)%nat -> (j < ncols df)%nat ->
                       0 <= cell df i j)
       /\ (forall i, (i < nrows df)%nat -> cell df i i = 1))
  /\ (fst (validate_adjacency_matrix df) = true
      <-> snd (validate_adjacency_matrix df) = [])
  /\ (nrows df <> ncols df ->
      fst (validate_adjacency_matrix df) = false
      /\ length (snd (validate_adjacency_matrix df)) = 1%nat).
Proof.
  intros Hrect. unfold validate_adjacency_matrix, shape. cbn [fst snd].
  destruct (Nat.eqb_spec (nrows df) (ncols df)) as [Hsq|Hsq]; cbn [negb].
  - pose proof (np_any_negative_array df Hrect) as Hneg.
    pose proof (np_all_ones_diagonal df Hrect Hsq) as Hdiag.
    cbn [is_number_dtype negb app].
    destruct (np_any_negative (np_array2 df));
      destruct (np_all_ones (np_diagonal (np_array2 df)));
      cbn [negb app is_empty fst snd].
    + split; [|split; [|intros; contradiction]].
      * split; [discriminate|]. intros (_ & Hn & _).
        apply Hneg in Hn. discriminate.
      * split; discriminate.
    + split; [|split; [|intros; contradiction]].
      * split; [discriminate|]. intros (_ & Hn & _).
        apply Hneg in Hn. discriminate.
      * split; discriminate.
    + split; [|split; [|intros; contradiction]].
      * split; [|reflexivity]. intros _.
        split; [exact Hsq|]. split; [now apply Hneg|now apply Hdiag].
      * split; reflexivity.
    + split; [|split; [|intros; contradiction]].
      * split; [discriminate|]. intros (_ & _ & Hd).
        apply Hdiag in Hd. discriminate.
      * split; discriminate.
  - split; [|split].
    + split; [discriminate|]. intros [Habs _]. contradiction.
    + split; discriminate.
    + intros _. split; reflexivity.
Qed.

Lemma get_column_has (df : LabelledFrame) (label : string) s :
  get_column df label = Some s -> has_column df label = true.
Proof.
  unfold get_column, has_column, columns. intros H.
  destruct (filter (fun lc => String.eqb label (fst lc)) df) as [|lc rest]
    eqn:Hf; [discriminate|].
  assert (Hin : In lc (filter (fun lc => String.eqb label (fst lc)) df))
    by (rewrite Hf; now left).
  apply filter_In in Hin as [Hin Heq].
  apply existsb_exists. exists (fst lc). split; [now apply in_map|exact Heq].
Qed.

Lemma existsb_negative (v : list Machine.num) :
  existsb Machine.negative v = false
  <-> Forall (fun x => Machine.negative x = false) v.
Proof.
  induction v as [|x v IH]; cbn [existsb].
  - split; [constructor|reflexivity].
  - rewrite orb_false_iff, IH. split.
    + intros [Hx Hv]. now constructor.
    + intros Hall. inversion Hall. auto.
Qed.

Lemma several_columns_raise (cs : list column) :
  exists e, any_negative_truth (SeveralColumns cs) = Raise e.
Proof.
  cbn [any_negative_truth].
  induction cs as [|c cs [e IH]]; cbn [fold_right]; [eauto|].
  destruct (any_negative c) as [b|e']; cbn [rbind]; eauto.
Qed.

(** [validate_institution_data]: without a CompromiseScore column the table
    is refused with the one message that lists the missing columns.  A table
    with exactly one CompromiseScore column, a numeric one, is accepted exactly
    when InstitutionID and Name are present too and no score is below zero (a
    NaN score is not).  A table in which the CompromiseScore label occurs
    more than once is not answered at all: the call raises. *)
Theorem validate_institution_data_accepts (df : LabelledFrame) :
  (has_column df "CompromiseScore" = false ->
   exists errors,
     validate_institution_data df = Return (false, errors)
     /\ length errors = 1%nat)
  /\ (forall v,
      get_column df "CompromiseScore" = Some (OneColumn (Numbers v)) ->
      exists is_valid errors,
        validate_institution_data df = Return (is_valid, errors)
        /\ (is_valid = true <-> errors = [])
        /\ (is_valid = true
            <-> has_column df "InstitutionID" = true
                /\ has_column df "Name" = true
                /\ Forall (fun x => Machine.negative x = false)
                          (Machine.np_array1 v)))
  /\ (forall cs,
      get_column df "CompromiseScore" = Some (SeveralColumns cs) ->
      exists e, validate_institution_data df = Raise e).
Proof.
  unfold validate_institution_data, required_columns. cbn [filter].
  split; [|split].
  - intros Hno. rewrite Hno. cbn [negb rbind].
    destruct (has_column df "InstitutionID"), (has_column df "Name");
      cbn [negb is_empty app]; eexists; split; reflexivity.
  - intros v Hv. rewrite (get_column_has df _ _ Hv), Hv.
    cbn [negb any_negative_truth any_negative rbind].
    pose proof (existsb_negative (Machine.np_array1 v)) as Hneg.
    destruct (has_column df "InstitutionID"), (has_column df "Name"),
             (existsb Machine.negative (Machine.np_array1 v));
      cbn [negb is_empty app]; do 2 eexists; (split; [reflexivity|]);
      (split; [split; intros Hb; solve [reflexivity|discriminate Hb]|]);
      (split;
       [intros Hb;
        first [discriminate Hb
              |split; [reflexivity|split; [reflexivity|now apply Hneg]]]
       |intros (H1 & H2 & H3);
        first [reflexivity|discriminate H1|discriminate H2
              |apply Hneg in H3; discriminate H3]]).
  - intros cs Hcs. rewrite (get_column_has df _ _ Hcs), Hcs.
    destruct (several_columns_raise cs) as [e ->]. cbn [rbind]. eauto.
Qed.

(** ** The dashboard *)

Lemma run_pair {A : Type} (m : M A) self :
  m self = (value m self, after m self).
Proof. unfold value, after. now destruct (m self). Qed.

Lemma assign_return {A : Type} (accessor : M A) store rest calculator ss a :
  value accessor calculator = Return a ->
  assign accessor store rest calculator ss
  = rest (after accessor calculator) (store a ss).
Proof.
  intros Hv. unfold assign. rewrite (run_pair accessor calculator), Hv.
  reflexivity.
Qed.

Lemma assign_raise {A : Type} (accessor : M A) store rest calculator ss e :
  value accessor calculator = Raise e ->
  assign accessor store rest calculator ss = (Raise e, ss).
Proof.
  intros Hv. unfold assign. rewrite (run_pair accessor calculator), Hv.
  reflexivity.
Qed.

Lemma centrality_raise_runtime (E0 : DataFrame) e :
  calculate_eigenvector_centrality E0 = Raise e ->
  exists msg, e = RuntimeError msg.
Proof.
  unfold calculate_eigenvector_centrality.
  destruct (from_pandas_adjacency E0) as [G|e1]; cbn [rbind].
  - destruct (eigenvector_centrality G max_iter tol "weight") as [d|e2];
      cbn [rbind]; [discriminate|].
    destruct e2; intros [= <-]; eexists; reflexivity.
  - destruct e1; intros [= <-]; eexists; reflexivity.
Qed.

Ltac stored Hv :=
  rewrite (assign_return _ _ _ _ _ _ Hv);
  cbn [systemic_risk_score risk_decomposition centrality criticality
       fragility normalized_score cross_risk_matrix risk_increment
       node_degrees].

(** The "Calculate All Metrics" button on numeric data.  The banner for
    unexpected errors is never shown.  If construction fails the session is
    left as it was.  If the centrality fails, the error banner is shown and
    the session keeps the new score and decomposition next to the seven
    entries it had before.  Otherwise all nine entries are stored, each the
    value its accessor returns on the new calculator. *)
Theorem calculate_all_metrics_outcomes
        (C0 : Series) (E0 : DataFrame) (ss : session) :
  rectangular E0 = true ->
  (forall e, init C0 E0 = Raise e ->
     exists m, calculate_all_metrics C0 E0 ss
               = (st_error ("Error during calculation: " ++ m), ss))
  /\ (forall calculator e,
        init C0 E0 = Return calculator ->
        value calculate_centrality calculator = Raise e ->
        exists m s d,
          value S_score calculator = Return s
          /\ value calculate_risk_decomposition calculator = Return d
          /\ calculate_all_metrics C0 E0 ss
             = (st_error ("Error during calculation: " ++ m),
                Session (Some s) (Some d) (centrality ss) (criticality ss)
                        (fragility ss) (normalized_score ss)
                        (cross_risk_matrix ss) (risk_increment ss)
                        (node_degrees ss)))
  /\ (forall calculator c,
        init C0 E0 = Return calculator ->
        value calculate_centrality calculator = Return c ->
        exists s d k f nu x g deg,
          value S_score calculator = Return s
          /\ value calculate_risk_decomposition calculator = Return d
          /\ value calculate_criticality calculator = Return k
          /\ value calculate_fragility calculator = Return f
          /\ value calculate_normalized_score calculator = Return nu
          /\ value calculate_cross_risk calculator = Return x
          /\ value calculate_risk_increment calculator = Return g
          /\ value calculate_node_degrees calculator = Return deg
          /\ calculate_all_metrics C0 E0 ss
             = (st_success "All metrics calculated successfully!",
                Session (Some s) (Some d) (Some c) (Some k) (Some f)
                        (Some nu) (Some x) (Some g) (Some deg))).
Proof.
  intros Hrect. split; [|split].
  - intros e He. unfold calculate_all_metrics. rewrite He.
    rewrite init_cases in He.
    destruct (negb (Nat.eqb (nrows E0) (ncols E0)));
      [injection He as <-; eexists; reflexivity|].
    destruct (negb (Nat.eqb (length C0) (nrows E0)));
      [injection He as <-; eexists; reflexivity|discriminate].
  - intros calc0 e Hinit Hfail.
    pose proof (init_coherent C0 E0 calc0 Hrect Hinit) as H0.
    destruct (S_score_run C0 E0 calc0 H0) as (Hv1 & H1 & _).
    destruct (calculate_risk_decomposition_run C0 E0 _ H1) as (Hv2 & H2 & _).
    destruct (calculate_centrality_run C0 E0 _ H2) as (Hv3 & _).
    destruct (calculate_centrality_run C0 E0 calc0 H0) as (Hv0 & _).
    rewrite Hv0 in Hfail.
    destruct (centrality_raise_runtime E0 e Hfail) as [m ->].
    exists m, (score C0 E0), (spec_decomposition C0 E0).
    split; [exact Hv1|].
    split; [apply (calculate_risk_decomposition_run C0 E0 calc0 H0)|].
    unfold calculate_all_metrics, store_all_metrics. rewrite Hinit.
    stored Hv1.
    stored Hv2.
    rewrite Hfail in Hv3.
    rewrite (assign_raise _ _ _ _ _ _ Hv3).
    reflexivity.
  - intros calc0 c Hinit Hc.
    pose proof (init_coherent C0 E0 calc0 Hrect Hinit) as H0.
    destruct (calculate_centrality_run C0 E0 calc0 H0) as (Hv0 & _).
    rewrite Hv0 in Hc.
    destruct (S_score_run C0 E0 calc0 H0) as (Hv1 & H1 & _).
    destruct (calculate_risk_decomposition_run C0 E0 _ H1) as (Hv2 & H2 & _).
    destruct (calculate_centrality_run C0 E0 _ H2) as (Hv3 & H3 & _).
    destruct (calculate_criticality_run C0 E0 _ H3) as (Hv4 & H4 & _).
    destruct (calculate_fragility_run C0 E0 _ H4) as (Hv5 & H5 & _).
    destruct (calculate_normalized_score_run C0 E0 _ H5) as (Hv6 & H6 & _).
    destruct (calculate_cross_risk_run C0 E0 _ H6) as (Hv7 & H7 & _).
    destruct (_get_gradient_run C0 E0 _ H7) as (Hv8 & H8 & _).
    destruct (calculate_node_degrees_run C0 E0 _ H8) as (Hv9 & _).
    rewrite Hc in Hv3, Hv4. cbn [rbind] in Hv4.
    exists (score C0 E0), (spec_decomposition C0 E0),
           (criticality_value C0 c), (spec_fragility E0),
           (spec_normalized_score C0 E0), (cross_risk_value C0 E0),
           (spec_gradient C0 E0), (spec_degrees E0).
    split; [exact Hv1|].
    split; [apply (calculate_risk_decomposition_run C0 E0 calc0 H0)|].
    split.
    { destruct (calculate_criticality_run C0 E0 calc0 H0) as [-> _].
      now rewrite Hc. }
    split; [apply (calculate_fragility_run C0 E0 calc0 H0)|].
    split; [apply (calculate_normalized_score_run C0 E0 calc0 H0)|].
    split; [apply (calculate_cross_risk_run C0 E0 calc0 H0)|].
    split; [apply (_get_gradient_run C0 E0 calc0 H0)|].
    split; [apply (calculate_node_degrees_run C0 E0 calc0 H0)|].
    unfold calculate_all_metrics, store_all_metrics. rewrite Hinit.
    stored Hv1.
    stored Hv2.
    stored Hv3.
    stored Hv4.
    stored Hv5.
    stored Hv6.
    stored Hv7.
    stored Hv8.
    stored Hv9.
    reflexivity.
Qed.

(** ** Removing institutions *)














(** A failure of the centrality is not remembered: the cache stays empty,
    and every further call of [calculate_centrality] or
    [calculate_criticality] runs networkx once more and raises again. *)
Theorem centrality_failure_is_not_cached
        (C0 : Series) (E0 : DataFrame) self e :
  engine C0 E0 self ->
  value calculate_centrality self = Raise e ->
  let again := after calculate_centrality self in
  self_centrality again = None
  /\ evaluations MCentrality again = S (evaluations MCentrality self)
  /\ value calculate_centrality again = Raise e
  /\ value calculate_criticality again = Raise e
  /\ evaluations MCentrality (after calculate_criticality again)
     = S (S (evaluations MCentrality self)).
Proof.
  intros Heng Hfail again.
  pose proof (engine_coherent C0 E0 self Heng) as H.
  destruct (calculate_centrality_run C0 E0 self H) as (Hv & H1 & _).
  rewrite Hv in Hfail.
  assert (Hnone : forall st, coherent C0 E0 st -> self_centrality st = None).
  { intros st Hst. destruct (self_centrality st) as [c|] eqn:Hc; [|reflexivity].
    pose proof (coh_c _ _ _ Hst c Hc) as Habs. rewrite Hfail in Habs.
    discriminate. }
  assert (Hstep : forall st, coherent C0 E0 st ->
            calculate_centrality st = (Raise e, after (tick MCentrality) st)).
  { intros st Hst.
    rewrite (calculate_centrality_fresh C0 E0 st Hst (Hnone st Hst)).
    now rewrite Hfail. }
  assert (Hagain : again = after (tick MCentrality) self).
  { unfold again, after at 1. now rewrite (Hstep self H). }
  fold again in H1.
  split; [exact (Hnone again H1)|].
  split.
  { rewrite Hagain. unfold evaluations. cbn [after tick snd evals].
    now rewrite count_occ_cons_eq. }
  split; [unfold value; now rewrite (Hstep again H1)|].
  split.
  { unfold value, calculate_criticality.
    now rewrite (bind_raise _ _ _ _ _ (Hstep again H1)). }
  unfold after at 1, calculate_criticality.
  rewrite (bind_raise _ _ _ _ _ (Hstep again H1)). cbn [snd].
  rewrite Hagain. unfold evaluations. cbn [after tick snd evals].
  now rewrite !count_occ_cons_eq.
Qed.
End Engine.

(** ** The engine in numpy's own arithmetic: properties *)

Module MachineFacts.

Import Machine.
Local Open Scope machine_scope.

(** *** binary64 facts *)

Lemma float_nan_spec (x : float) : x = nan <-> Prim2SF x = S754_nan.
Proof.
  split; [intros ->; reflexivity|].
  intros H. apply Prim2SF_inj. rewrite H. reflexivity.
Qed.

Lemma float_is_nan (x : float) : is_nan x = true <-> x = nan.
Proof.
  rewrite float_nan_spec. unfold is_nan. rewrite FloatAxioms.eqb_spec.
  destruct (Prim2SF x) as [s|s| |s m e]; cbn.
  - split; discriminate.
  - destruct s; cbn; split; discriminate.
  - split; reflexivity.
  - unfold SFeqb, SFcompare. rewrite Z.compare_refl, Pos.compare_cont_refl.
    destruct s; cbn; split; discriminate.
Qed.

(** A float that is [< 0] is a negative number or [-inf]. *)
Lemma float_negative_spec (x : float) :
  (x <? 0)%float = true <->
  (exists m e, Prim2SF x = S754_finite true m e)
  \/ Prim2SF x = S754_infinity true.
Proof.
  rewrite FloatAxioms.ltb_spec.
  change (Prim2SF 0) with (S754_zero false).
  destruct (Prim2SF x) as [s|s| |s m e]; cbn.
  - split; [discriminate|]. intros [(m & e & H)|H]; discriminate.
  - destruct s; cbn; (split; [intros H|intros [(m & e & H)|H]]);
      try discriminate; auto.
  - split; [discriminate|]. intros [(m & e & H)|H]; discriminate.
  - destruct s; cbn; (split; [intros H|intros [(m' & e' & H)|H]]);
      try discriminate; eauto.
Qed.

(** [sqrt] below zero is NaN. *)
Lemma float_sqrt_negative (x : float) :
  (x <? 0)%float = true -> PrimFloat.sqrt x = nan.
Proof.
  intros H. apply float_negative_spec in H. apply float_nan_spec.
  rewrite FloatAxioms.sqrt_spec.
  destruct H as [(m & e & ->)| ->]; reflexivity.
Qed.

Lemma float_div_nan_r (x : float) : (x / nan)%float = nan.
Proof.
  apply float_nan_spec. rewrite FloatAxioms.div_spec.
  change (Prim2SF nan) with S754_nan.
  destruct (Prim2SF x) as [s|s| |s m e]; reflexivity.
Qed.

Lemma float_div_nan_l (x : float) : (nan / x)%float = nan.
Proof. apply float_nan_spec. now rewrite FloatAxioms.div_spec. Qed.

Lemma float_mul_nan_r (x : float) : (x * nan)%float = nan.
Proof.
  apply float_nan_spec. rewrite FloatAxioms.mul_spec.
  change (Prim2SF nan) with S754_nan.
  destruct (Prim2SF x) as [s|s| |s m e]; reflexivity.
Qed.

Lemma float_eqb_nan (x : float) : (nan =? x)%float = false.
Proof. now rewrite FloatAxioms.eqb_spec. Qed.





(** *** Rounding never loses a non-zero integer *)

Lemma shr_1_m (r : shr_record) :
  (0 <= shr_m r)%Z -> shr_m (shr_1 r) = Z.shiftr (shr_m r) 1.
Proof.
  destruct r as [m r s]. cbn [shr_m]. intros Hm.
  destruct m as [|p|p]; [reflexivity| |lia].
  destruct p; reflexivity.
Qed.

Lemma shr_iter_m (p : positive) (r : shr_record) :
  (0 <= shr_m r)%Z ->
  shr_m (SpecFloat.iter_pos shr_1 p r) = Z.shiftr (shr_m r) (Z.pos p).
Proof.
  revert r. induction p as [p IH|p IH|]; intros r Hr; cbn [SpecFloat.iter_pos].
  - assert (H1 : (0 <= shr_m (shr_1 r))%Z)
      by (rewrite shr_1_m by assumption; now apply Z.shiftr_nonneg).
    assert (H2 : (0 <= shr_m (SpecFloat.iter_pos shr_1 p (shr_1 r)))%Z)
      by (rewrite IH by assumption; now apply Z.shiftr_nonneg).
    rewrite IH, IH, shr_1_m, !Z.shiftr_shiftr by (assumption || lia).
    f_equal. lia.
  - assert (H2 : (0 <= shr_m (SpecFloat.iter_pos shr_1 p r))%Z)
      by (rewrite IH by assumption; now apply Z.shiftr_nonneg).
    rewrite IH, IH, !Z.shiftr_shiftr by (assumption || lia).
    f_equal. lia.
  - now apply shr_1_m.
Qed.

Lemma digits2_lower (p : positive) :
  (2 ^ (Z.pos (digits2_pos p) - 1) <= Z.pos p)%Z.
Proof.
  induction p as [p IH|p IH|]; cbn [digits2_pos]; [| |cbn; lia];
    rewrite Pos2Z.inj_succ;
    replace (Z.succ (Z.pos (digits2_pos p)) - 1)%Z
      with (Z.succ (Z.pos (digits2_pos p) - 1)) by lia;
    rewrite Z.pow_succ_r by lia; lia.
Qed.

Lemma shr_record_of_loc_m (m : Z) (l : location) :
  shr_m (shr_record_of_loc m l) = m.
Proof. destruct l as [|[]]; reflexivity. Qed.

(** A non-zero mantissa stays non-zero through [shr_fexp] as long as the
    exponent is not below the least exponent. *)
Lemma shr_fexp_positive (m : positive) (e : Z) (l : location) :
  (SpecFloat.emin prec emax <= e)%Z ->
  (0 < shr_m (fst (shr_fexp prec emax (Z.pos m) e l)))%Z
  /\ (SpecFloat.emin prec emax <= snd (shr_fexp prec emax (Z.pos m) e l))%Z.
Proof.
  intros He. unfold shr_fexp, shr.
  destruct (fexp prec emax (Zdigits2 (Z.pos m) + e) - e)%Z as [|p|p] eqn:Hn;
    cbn [fst snd]; try (rewrite shr_record_of_loc_m; split; lia).
  rewrite shr_iter_m by (rewrite shr_record_of_loc_m; lia).
  rewrite shr_record_of_loc_m, Z.shiftr_div_pow2 by lia.
  unfold fexp, SpecFloat.emin, Zdigits2, prec, emax in *.
  split; [|lia].
  apply Z.div_str_pos. split; [apply Z.pow_pos_nonneg; lia|].
  pose proof (digits2_lower m) as Hd.
  eapply Z.le_trans; [|exact Hd].
  apply Z.pow_le_mono_r; lia.
Qed.

Lemma round_nearest_even_positive (m : Z) (l : location) :
  (0 < m)%Z -> (0 < round_nearest_even m l)%Z.
Proof.
  intros Hm. destruct l as [|[]]; cbn; try lia.
  destruct (Z.even m); lia.
Qed.

(** Rounding a non-zero mantissa gives a non-zero number of the same sign,
    or the infinity of that sign. *)
Lemma binary_round_aux_class (sx : bool) (m : positive) (e : Z) (l : location) :
  (SpecFloat.emin prec emax <= e)%Z ->
  (exists m' e', binary_round_aux prec emax sx (Z.pos m) e l
                 = S754_finite sx m' e')
  \/ binary_round_aux prec emax sx (Z.pos m) e l = S754_infinity sx.
Proof.
  intros He. unfold binary_round_aux.
  destruct (shr_fexp_positive m e l He) as [H1 H1e].
  destruct (shr_fexp prec emax (Z.pos m) e l) as [mrs' e'].
  cbn [fst snd] in H1, H1e.
  pose proof (round_nearest_even_positive _ (loc_of_shr_record mrs') H1) as H2.
  destruct (round_nearest_even (shr_m mrs') (loc_of_shr_record mrs'))
    as [|m2|m2]; try lia.
  destruct (shr_fexp_positive m2 e' loc_Exact H1e) as [H3 _].
  destruct (shr_fexp prec emax (Z.pos m2) e' loc_Exact) as [mrs'' e''].
  cbn [fst] in H3.
  destruct (shr_m mrs'') as [|m3|m3]; try lia.
  destruct (e'' <=? emax - prec)%Z; eauto.
Qed.

Lemma binary_normalize_positive (p : positive) :
  (exists m e, binary_normalize prec emax (Z.pos p) 0 false
               = S754_finite false m e)
  \/ binary_normalize prec emax (Z.pos p) 0 false = S754_infinity false.
Proof.
  unfold binary_normalize, binary_round, shl_align.
  destruct (fexp prec emax (Z.pos (digits2_pos p) + 0) - 0)%Z as [|d|d] eqn:Hd;
    apply binary_round_aux_class; unfold fexp, SpecFloat.emin, prec, emax in *;
    lia.
Qed.

(** The sign of a non-zero [int64] survives the conversion to [float64]. *)
Lemma of_int64_negative (z : Z) :
  (-9223372036854775808 <= z < 0)%Z -> (of_int64 z <? 0)%float = true.
Proof.
  intros Hz. unfold of_int64.
  destruct (Z.ltb_spec z 0) as [_|]; [|lia].
  destruct (Z.eqb_spec z (-9223372036854775808)) as [_|Hne]; [reflexivity|].
  apply float_negative_spec.
  rewrite FloatAxioms.opp_spec, FloatAxioms.of_uint63_spec, Uint63.of_Z_spec.
  rewrite Z.mod_small by (change Uint63.wB with 9223372036854775808%Z; lia).
  destruct (- z)%Z as [|p|p] eqn:Hp; try lia.
  destruct (binary_normalize_positive p) as [(m & e & ->)| ->]; cbn; eauto.
Qed.


Lemma wrap_range (z : Z) :
  (-9223372036854775808 <= wrap z < 9223372036854775808)%Z.
Proof.
  unfold wrap.
  pose proof (Z.mod_pos_bound (z + 9223372036854775808) 18446744073709551616
                ltac:(lia)).
  lia.
Qed.

(** *** Arrays in tabulated form *)

Lemma list_as_tab {A : Type} (l : list A) (d : A) :
  l = tab (length l) (fun i => nth i l d).
Proof. rewrite <- (map_id l) at 1. apply (map_as_tab (fun x => x)). Qed.

Lemma matrix_as_tab2 {A : Type} (M : matrix A) (d : A) :
  rectangular M = true ->
  M = tab2 (nrows M) (ncols M) (fun i j => nth j (nth i (rows M) []) d).
Proof.
  intros Hrect. destruct M as [c rs]. unfold tab2, nrows. cbn [ncols rows].
  f_equal. rewrite (list_as_tab rs []) at 1. apply tab_ext. intros i Hi.
  pose proof (rectangular_row (Mat c rs) i Hrect Hi) as Hl.
  cbn [rows ncols] in Hl.
  rewrite (list_as_tab (nth i rs []) d) at 1. now rewrite Hl.
Qed.

Lemma rectangular_map {A B : Type} (f : A -> B) (M : matrix A) :
  rectangular M = true ->
  rectangular (Mat (ncols M) (map (map f) (rows M))) = true.
Proof.
  unfold rectangular. cbn [ncols rows]. rewrite !forallb_forall.
  intros H r Hr. apply in_map_iff in Hr as (r0 & <- & Hr0).
  rewrite length_map. now apply H.
Qed.

Lemma np_array2_rectangular (E0 : DataFrame) :
  frame_rectangular E0 = true -> rectangular (np_array2 E0) = true.
Proof. destruct E0 as [m|m]; apply rectangular_map. Qed.

Lemma m_np_array1_tab (C0 : Series) :
  np_array1 C0 = tab (size C0) (entry C0).
Proof. unfold size, entry, at1. apply list_as_tab. Qed.

Lemma m_np_array2_tab2 (E0 : DataFrame) :
  frame_rectangular E0 = true ->
  np_array2 E0
  = tab2 (nrows (np_array2 E0)) (ncols (np_array2 E0)) (cell E0).
Proof.
  intros H. unfold cell, at2.
  apply matrix_as_tab2, np_array2_rectangular, H.
Qed.

Lemma at1_tab (n : nat) (f : nat -> num) (i : nat) :
  (i < n)%nat -> at1 (tab n f) i = f i.
Proof. apply nth_tab. Qed.

Lemma fat1_tab (n : nat) (f : nat -> float) (i : nat) :
  (i < n)%nat -> fat1 (tab n f) i = f i.
Proof. apply nth_tab. Qed.

Lemma at2_tab2 (r c : nat) (f : nat -> nat -> num) (i j : nat) :
  (i < r)%nat -> (j < c)%nat -> at2 (tab2 r c f) i j = f i j.
Proof.
  intros Hi Hj. unfold at2, tab2. cbn [rows].
  rewrite (nth_tab r _ [] i Hi). now apply nth_tab.
Qed.

Lemma fat2_tab2 (r c : nat) (f : nat -> nat -> float) (i j : nat) :
  (i < r)%nat -> (j < c)%nat -> fat2 (tab2 r c f) i j = f i j.
Proof.
  intros Hi Hj. unfold fat2, tab2. cbn [rows].
  rewrite (nth_tab r _ [] i Hi). now apply nth_tab.
Qed.

Lemma m_reshape_col_tab (n : nat) (f : nat -> num) :
  reshape_col (tab n f) = tab2 n 1 (fun i _ => f i).
Proof. unfold reshape_col, tab2. now rewrite map_tab. Qed.

Lemma m_transpose_tab2 (r c : nat) (f : nat -> nat -> num) :
  np_transpose (tab2 r c f) = tab2 c r (fun i j => f j i).
Proof.
  unfold np_transpose. rewrite nrows_tab2, ncols_tab2.
  apply tab2_ext. intros i j Hi Hj. now apply at2_tab2.
Qed.

Lemma m_matmul_tab2 (r k c : nat) (f g : nat -> nat -> num) :
  np_matmul (tab2 r k f) (tab2 k c g)
  = Return (tab2 r c
      (fun i j => np_sum (tab k (fun l => mul (f i l) (g l j))))).
Proof.
  unfold np_matmul. rewrite !nrows_tab2, !ncols_tab2, Nat.eqb_refl.
  f_equal. apply tab2_ext. intros i j Hi Hj. f_equal.
  apply tab_ext. intros l Hl. now rewrite !at2_tab2.
Qed.

Lemma m_matvec_tab (r c : nat) (f : nat -> nat -> num) (g : nat -> num) :
  np_matvec (tab2 r c f) (tab c g)
  = Return (tab r (fun i => np_sum (tab c (fun k => mul (f i k) (g k))))).
Proof.
  unfold np_matvec. rewrite nrows_tab2, ncols_tab2, length_tab, Nat.eqb_refl.
  f_equal. apply tab_ext. intros i Hi. f_equal.
  apply tab_ext. intros k Hk. now rewrite at2_tab2, at1_tab.
Qed.

Lemma m_add2_tab2 (r c : nat) (f g : nat -> nat -> num) :
  np_add2 (tab2 r c f) (tab2 r c g)
  = Return (tab2 r c (fun i j => add (f i j) (g i j))).
Proof.
  unfold np_add2, shape, shape_eqb. cbn [fst snd].
  rewrite !nrows_tab2, !ncols_tab2, !Nat.eqb_refl. cbn [andb].
  f_equal. apply tab2_ext. intros i j Hi Hj. now rewrite !at2_tab2.
Qed.

Lemma m_fzip2_tab2 (op : float -> float -> float) (r c : nat)
                   (f g : nat -> nat -> float) :
  fzip2 op (tab2 r c f) (tab2 r c g)
  = Return (tab2 r c (fun i j => op (f i j) (g i j))).
Proof.
  unfold fzip2, shape, shape_eqb. cbn [fst snd].
  rewrite !nrows_tab2, !ncols_tab2, !Nat.eqb_refl. cbn [andb].
  f_equal. apply tab2_ext. intros i j Hi Hj. now rewrite !fat2_tab2.
Qed.

Lemma m_fmatmul_tab2 (r k c : nat) (f : nat -> nat -> float)
                     (g : nat -> nat -> num) :
  fmatmul (tab2 r k f) (tab2 k c g)
  = Return (tab2 r c
      (fun i j => fsum (tab k (fun l => (f i l * to_float (g l j))%float)))).
Proof.
  unfold fmatmul. rewrite !nrows_tab2, !ncols_tab2, Nat.eqb_refl.
  f_equal. apply tab2_ext. intros i j Hi Hj. f_equal.
  apply tab_ext. intros l Hl. now rewrite fat2_tab2, at2_tab2.
Qed.

Lemma m_div1s_tab (n : nat) (f : nat -> num) (s : float) :
  np_div1s (tab n f) s = tab n (fun i => (to_float (f i) / s)%float).
Proof. unfold np_div1s. now rewrite map_tab. Qed.

Lemma m_div2s_tab2 (r c : nat) (f : nat -> nat -> num) (s : float) :
  np_div2s (tab2 r c f) s = tab2 r c (fun i j => (to_float (f i j) / s)%float).
Proof.
  unfold np_div2s, tab2. cbn [ncols rows]. f_equal.
  rewrite map_tab. apply tab_ext. intros i Hi. now rewrite map_tab.
Qed.

Lemma m_fdiv2s_tab2 (r c : nat) (f : nat -> nat -> float) (s : float) :
  fdiv2s (tab2 r c f) s = tab2 r c (fun i j => (f i j / s)%float).
Proof.
  unfold fdiv2s, tab2. cbn [ncols rows]. f_equal.
  rewrite map_tab. apply tab_ext. intros i Hi. now rewrite map_tab.
Qed.

Lemma m_mul1_tab (n : nat) (f : nat -> num) (g : nat -> float) :
  np_mul1 (tab n f) (tab n g)
  = Return (tab n (fun i => (to_float (f i) * g i)%float)).
Proof.
  unfold np_mul1. rewrite !length_tab, Nat.eqb_refl.
  f_equal. apply tab_ext. intros i Hi. now rewrite at1_tab, fat1_tab.
Qed.

Lemma m_diag_tab (n : nat) (f : nat -> num) :
  np_diag (tab n f)
  = tab2 n n (fun i j => if Nat.eqb i j then f i else zero_like (f i)).
Proof.
  unfold np_diag. rewrite !length_tab.
  apply tab2_ext. intros i j Hi Hj. now rewrite at1_tab.
Qed.

Lemma m_sum_axis1_tab2 (r c : nat) (f : nat -> nat -> num) :
  np_sum_axis1 (tab2 r c f) = tab r (fun i => np_sum (tab c (f i))).
Proof. unfold np_sum_axis1, tab2. cbn [rows]. now rewrite map_tab. Qed.

Lemma gradient_length (C0 : Series) (E0 : DataFrame) :
  length (gradient C0 E0) = size C0.
Proof.
  unfold gradient, np_zeros.
  destruct (score C0 E0 =? 0)%float; apply length_tab.
Qed.

Lemma gradient_tab (C0 : Series) (E0 : DataFrame) :
  gradient C0 E0 = tab (size C0) (fat1 (gradient C0 E0)).
Proof.
  rewrite (list_as_tab (gradient C0 E0) 0%float) at 1.
  now rewrite gradient_length.
Qed.

(** *** Running the methods on a coherent instance *)

Lemma m_bind_return {A B : Type} (c : M A) (k : A -> M B) self a self' :
  c self = (Return a, self') -> bind c k self = k a self'.
Proof. intros H. unfold bind. now rewrite H. Qed.

Lemma m_lift_bind {A B : Type} (r : result A) (k : A -> M B) self :
  bind (lift r) k self
  = match r with
    | Return a => k a self
    | Raise e => (Raise e, self)
    end.
Proof. reflexivity. Qed.

Lemma m_get_bind {A B : Type} (field : instance -> A) (k : A -> M B) self :
  bind (get field) k self = k (field self) self.
Proof. reflexivity. Qed.

Section MachineCoherent.

Variables (C0 : Series) (E0 : DataFrame).

Lemma m_coherent_C self :
  coherent C0 E0 self -> self_C self = tab (size C0) (entry C0).
Proof. intros H. rewrite (coh_C _ _ _ H). apply m_np_array1_tab. Qed.

Lemma m_coherent_E self :
  coherent C0 E0 self ->
  self_E self = tab2 (size C0) (size C0) (cell E0).
Proof.
  intros H. rewrite (coh_E _ _ _ H), m_np_array2_tab2 by apply H.
  now rewrite (coh_rows _ _ _ H), (coh_cols _ _ _ H).
Qed.

Lemma m_coherent_set_s_score self :
  coherent C0 E0 self ->
  coherent C0 E0 (after (set_s_score (score C0 E0)) self).
Proof.
  intros [? ? ? ? ? ? ? ?]. constructor; try assumption.
  cbn. now intros s [= <-].
Qed.

Lemma m_coherent_set_gradient_s self :
  coherent C0 E0 self ->
  coherent C0 E0 (after (set_gradient_s (gradient C0 E0)) self).
Proof.
  intros [? ? ? ? ? ? ? ?]. constructor; try assumption.
  cbn. now intros s [= <-].
Qed.

(** The body of [calculate_S] raises nothing. *)
Lemma m_calculate_S_body_run self :
  coherent C0 E0 self -> calculate_S_body self = Return (score C0 E0).
Proof.
  intros H. unfold calculate_S_body.
  rewrite (m_coherent_C self H), (m_coherent_E self H).
  rewrite m_reshape_col_tab, m_transpose_tab2, m_matmul_tab2.
  cbn [rbind]. rewrite m_matmul_tab2. cbn [rbind].
  unfold item. rewrite at2_tab2 by lia. reflexivity.
Qed.

Lemma m_calculate_S_run self :
  coherent C0 E0 self -> calculate_S self = (Return (score C0 E0), self).
Proof.
  intros H. unfold calculate_S. now rewrite (m_calculate_S_body_run self H).
Qed.

Lemma m_S_score_cached self s :
  self_s_score self = Some s -> S_score self = (Return s, self).
Proof. intros H. unfold S_score, bind, get, ret. now rewrite H. Qed.

Lemma m_S_score_fresh self :
  coherent C0 E0 self -> self_s_score self = None ->
  S_score self
  = (Return (score C0 E0), after (set_s_score (score C0 E0)) self).
Proof.
  intros H Hc. unfold S_score.
  rewrite m_get_bind, Hc.
  rewrite (m_bind_return _ _ _ _ _ (m_calculate_S_run self H)).
  reflexivity.
Qed.

Lemma m_S_score_run self :
  coherent C0 E0 self ->
  value S_score self = Return (score C0 E0)
  /\ coherent C0 E0 (after S_score self)
  /\ self_s_score (after S_score self) = Some (score C0 E0)
  /\ self_gradient_s (after S_score self) = self_gradient_s self.
Proof.
  intros H. unfold value, after.
  destruct (self_s_score self) as [s|] eqn:Hs.
  - rewrite (m_S_score_cached self s Hs). cbn [fst snd].
    pose proof (coh_s _ _ _ H s Hs) as Hv. subst s. auto.
  - rewrite (m_S_score_fresh self H Hs). cbn [fst snd].
    split; [reflexivity|].
    split; [apply m_coherent_set_s_score, H|]. split; reflexivity.
Qed.

Lemma m_S_score_eq self :
  coherent C0 E0 self ->
  S_score self = (Return (score C0 E0), after S_score self).
Proof.
  intros H. destruct (m_S_score_run self H) as [Hv _].
  unfold value, after in *. destruct (S_score self) as [r self'].
  cbn in *. now subst.
Qed.

Lemma m_S_score_bind {B : Type} (k : float -> M B) self :
  coherent C0 E0 self ->
  bind S_score k self = k (score C0 E0) (after S_score self).
Proof. intros H. apply m_bind_return, m_S_score_eq, H. Qed.

(** [(E + E.T) @ C], entry by entry. *)
Lemma m_sym_matvec_run self :
  coherent C0 E0 self ->
  rbind (np_add2 (self_E self) (np_transpose (self_E self)))
        (fun EEt => np_matvec EEt (self_C self))
  = Return (tab (size C0) (sym_row C0 E0)).
Proof.
  intros H. rewrite (m_coherent_C self H), (m_coherent_E self H).
  rewrite m_transpose_tab2, m_add2_tab2. cbn [rbind].
  now rewrite m_matvec_tab.
Qed.

Lemma m_get_gradient_cached self g :
  self_gradient_s self = Some g -> _get_gradient self = (Return g, self).
Proof. intros H. unfold _get_gradient. rewrite m_get_bind, H. reflexivity. Qed.

Lemma m_get_gradient_fresh self :
  coherent C0 E0 self -> self_gradient_s self = None ->
  _get_gradient self
  = (Return (gradient C0 E0),
     after (set_gradient_s (gradient C0 E0)) (after S_score self)).
Proof.
  intros H Hc. unfold _get_gradient. rewrite m_get_bind, Hc.
  rewrite (m_S_score_bind _ _ H).
  destruct (m_S_score_run _ H) as (_ & H2 & Hs2 & _).
  set (self2 := after S_score self) in *.
  unfold gradient.
  destruct (score C0 E0 =? 0)%float eqn:Hz.
  - unfold bind at 1. rewrite m_get_bind, (coh_n _ _ _ H2). reflexivity.
  - unfold bind at 1. rewrite !m_get_bind.
    pose proof (m_sym_matvec_run self2 H2) as Hmv.
    destruct (np_add2 (self_E self2) (np_transpose (self_E self2)))
      as [EEt|e]; [|discriminate].
    rewrite m_lift_bind. cbn [rbind] in Hmv. rewrite m_lift_bind, Hmv.
    rewrite (m_S_score_bind _ _ H2).
    replace (after S_score self2) with self2
      by (unfold after; now rewrite (m_S_score_cached self2 _ Hs2)).
    rewrite m_div1s_tab. reflexivity.
Qed.

Lemma m_get_gradient_run self :
  coherent C0 E0 self ->
  value _get_gradient self = Return (gradient C0 E0)
  /\ coherent C0 E0 (after _get_gradient self).
Proof.
  intros H. unfold value, after.
  destruct (self_gradient_s self) as [g|] eqn:Hg.
  - rewrite (m_get_gradient_cached self g Hg). cbn [fst snd].
    pose proof (coh_g _ _ _ H g Hg) as Hv. subst g. auto.
  - rewrite (m_get_gradient_fresh self H Hg). cbn [fst snd].
    destruct (m_S_score_run _ H) as (_ & H2 & _).
    split; [reflexivity|apply m_coherent_set_gradient_s, H2].
Qed.

Lemma m_get_gradient_eq self :
  coherent C0 E0 self ->
  _get_gradient self = (Return (gradient C0 E0), after _get_gradient self).
Proof.
  intros H. destruct (m_get_gradient_run self H) as [Hv _].
  unfold value, after in *. destruct (_get_gradient self) as [r self'].
  cbn in *. now subst.
Qed.

Lemma m_get_gradient_bind {B : Type} (k : list float -> M B) self :
  coherent C0 E0 self ->
  bind _get_gradient k self = k (gradient C0 E0) (after _get_gradient self).
Proof. intros H. apply m_bind_return, m_get_gradient_eq, H. Qed.

Lemma m_decomposition_run self :
  coherent C0 E0 self ->
  value calculate_risk_decomposition self = Return (decomposition C0 E0)
  /\ coherent C0 E0 (after calculate_risk_decomposition self).
Proof.
  intros H. unfold value, after, calculate_risk_decomposition.
  rewrite (m_get_gradient_bind _ _ H), m_get_bind.
  destruct (m_get_gradient_run self H) as (_ & H1).
  unfold lift. cbn [fst snd]. split; [|exact H1].
  rewrite (m_coherent_C _ H1), (gradient_tab C0 E0) at 1.
  now rewrite m_mul1_tab.
Qed.

Lemma m_degrees_tab self :
  coherent C0 E0 self -> np_sum_axis1 (self_E self) = degrees C0 E0.
Proof.
  intros H. now rewrite (m_coherent_E self H), m_sum_axis1_tab2.
Qed.

Lemma m_node_degrees_run self :
  coherent C0 E0 self ->
  value calculate_node_degrees self = Return (degrees C0 E0)
  /\ after calculate_node_degrees self = self.
Proof.
  intros H. unfold value, after, calculate_node_degrees.
  rewrite m_get_bind. unfold ret. cbn [fst snd].
  now rewrite (m_degrees_tab _ H).
Qed.

Lemma m_fragility_run self :
  coherent C0 E0 self ->
  value calculate_fragility self = Return (fragility_of (degrees C0 E0))
  /\ after calculate_fragility self = self.
Proof.
  intros H. unfold value, after, calculate_fragility.
  rewrite m_get_bind, (m_degrees_tab _ H). unfold fragility_of.
  destruct (np_mean (degrees C0 E0) =? 0)%float; unfold ret; auto.
Qed.

Lemma m_normalized_score_run self :
  coherent C0 E0 self ->
  value calculate_normalized_score self = Return (normalized_score C0 E0)
  /\ coherent C0 E0 (after calculate_normalized_score self).
Proof.
  intros H. unfold value, after, calculate_normalized_score.
  rewrite m_get_bind, (coh_C _ _ _ H). fold (norm C0).
  unfold normalized_score.
  destruct (norm C0 =? 0)%float.
  - unfold ret. cbn [fst snd]. auto.
  - rewrite (m_S_score_bind _ _ H). unfold ret. cbn [fst snd].
    split; [reflexivity|apply (m_S_score_run _ H)].
Qed.

Lemma m_cross_risk_run self :
  coherent C0 E0 self ->
  value calculate_cross_risk self = Return (cross_risk C0 E0)
  /\ coherent C0 E0 (after calculate_cross_risk self).
Proof.
  intros H. unfold value, after, calculate_cross_risk, cross_risk.
  rewrite (m_S_score_bind _ _ H).
  destruct (m_S_score_run _ H) as (_ & H2 & _).
  set (self2 := after S_score self) in *.
  destruct (score C0 E0 =? 0)%float eqn:Hz.
  - rewrite m_get_bind, (coh_n _ _ _ H2). unfold ret. cbn [fst snd]. auto.
  - rewrite (m_get_gradient_bind _ _ H2).
    destruct (m_get_gradient_run _ H2) as (_ & H3).
    set (self3 := after _get_gradient self2) in *.
    rewrite !m_get_bind, m_lift_bind.
    rewrite (m_coherent_C _ H3), (m_coherent_E _ H3).
    rewrite m_transpose_tab2, m_add2_tab2, m_div2s_tab2.
    unfold np_outer, fdiag. rewrite !gradient_length.
    rewrite m_lift_bind, m_fzip2_tab2.
    rewrite (m_S_score_bind _ _ H3).
    destruct (m_S_score_run _ H3) as (_ & H4 & _).
    rewrite m_fdiv2s_tab2, m_diag_tab, m_lift_bind.
    rewrite m_fmatmul_tab2.
    unfold lift. rewrite m_fzip2_tab2. cbn [fst snd].
    split; [reflexivity|exact H4].
Qed.

Lemma m_validate_inputs_after self : after validate_inputs self = self.
Proof.
  unfold after, validate_inputs.
  repeat match goal with |- context [if ?b then _ else _] => destruct b end;
    reflexivity.
Qed.

Lemma m_exec_coherent c self :
  coherent C0 E0 self -> coherent C0 E0 (exec c self).
Proof.
  intros H. destruct c; cbn [exec].
  - now rewrite m_validate_inputs_after.
  - apply (m_S_score_run self H).
  - unfold after. now rewrite (m_calculate_S_run self H).
  - apply (m_decomposition_run self H).
  - apply (m_get_gradient_run self H).
  - now rewrite (proj2 (m_fragility_run self H)).
  - now rewrite (proj2 (m_node_degrees_run self H)).
  - apply (m_normalized_score_run self H).
  - apply (m_cross_risk_run self H).
Qed.

End MachineCoherent.

(** [__init__] in closed form. *)
Lemma m_init_cases (C0 : Series) (E0 : DataFrame) :
  init C0 E0
  = if negb (Nat.eqb (nrows (np_array2 E0)) (ncols (np_array2 E0)))
    then Raise NotSquare
    else if negb (Nat.eqb (size C0) (nrows (np_array2 E0)))
    then Raise ShapeMismatch
    else Return (Instance (np_array1 C0) (np_array2 E0) (size C0) None None).
Proof.
  unfold init, validate_inputs. cbn [self_C self_E self_n]. fold (size C0).
  destruct (Nat.eqb (nrows (np_array2 E0)) (ncols (np_array2 E0)));
    cbn [negb]; [|reflexivity].
  destruct (Nat.eqb (size C0) (nrows (np_array2 E0))); reflexivity.
Qed.

Lemma m_init_coherent (C0 : Series) (E0 : DataFrame) self :
  frame_rectangular E0 = true -> init C0 E0 = Return self ->
  coherent C0 E0 self.
Proof.
  intros Hrect. rewrite m_init_cases.
  destruct (Nat.eqb_spec (nrows (np_array2 E0)) (ncols (np_array2 E0)))
    as [Hsq|]; [|discriminate].
  destruct (Nat.eqb_spec (size C0) (nrows (np_array2 E0))) as [Hn|];
    [|discriminate].
  cbn [negb]. intros [= <-].
  constructor; cbn; try reflexivity; try discriminate; congruence.
Qed.

Lemma m_engine_coherent (C0 : Series) (E0 : DataFrame) self :
  engine C0 E0 self -> coherent C0 E0 self.
Proof.
  induction 1 as [self Hrect Hinit|self c _ IH].
  - now apply m_init_coherent.
  - now apply m_exec_coherent.
Qed.

(** *** int64 sums are exact sums reduced modulo [2^64] *)

Lemma wrap_eqm (a b : Z) :
  (a mod 18446744073709551616 = b mod 18446744073709551616)%Z ->
  wrap a = wrap b.
Proof.
  intros H. unfold wrap. f_equal.
  rewrite <- (Z.add_mod_idemp_l a), <- (Z.add_mod_idemp_l b) by lia.
  now rewrite H.
Qed.

Lemma wrap_mod (a : Z) :
  (wrap a mod 18446744073709551616 = a mod 18446744073709551616)%Z.
Proof.
  unfold wrap.
  rewrite <- Zminus_mod_idemp_l, Z.mod_mod by lia.
  rewrite Zminus_mod_idemp_l. f_equal. lia.
Qed.

Lemma wrap_add_l (a b : Z) : wrap (wrap a + b) = wrap (a + b).
Proof.
  apply wrap_eqm.
  now rewrite <- Z.add_mod_idemp_l, wrap_mod, Z.add_mod_idemp_l by lia.
Qed.

Lemma wrap_add_r (a b : Z) : wrap (a + wrap b) = wrap (a + b).
Proof. rewrite Z.add_comm, wrap_add_l. f_equal. lia. Qed.

Lemma wrap_mul_l (a b : Z) : wrap (wrap a * b) = wrap (a * b).
Proof.
  apply wrap_eqm.
  now rewrite <- Z.mul_mod_idemp_l, wrap_mod, Z.mul_mod_idemp_l by lia.
Qed.

Lemma m_np_sum_app (u v : list num) :
  np_sum (u ++ v) = fold_left add v (np_sum u).
Proof. unfold np_sum. apply fold_left_app. Qed.

Lemma fsum_app (u v : list float) :
  fsum (u ++ v) = fold_left PrimFloat.add v (fsum u).
Proof. unfold fsum. apply fold_left_app. Qed.

Lemma np_sum_I64 (n : nat) (f : nat -> Z) :
  np_sum (tab n (fun i => I64 (wrap (f i)))) = I64 (wrap (zsum n f)).
Proof.
  induction n as [|n IH]; [reflexivity|].
  rewrite tab_S, m_np_sum_app, IH. cbn [fold_left add zsum].
  now rewrite wrap_add_l, wrap_add_r.
Qed.

Lemma entry_int (cs : list Z) (i : nat) :
  entry (IntSeries cs) i = I64 (nth i cs 0%Z).
Proof.
  unfold entry, at1. cbn [np_array1]. now rewrite <- (map_nth I64).
Qed.

Lemma cell_int (es : matrix Z) (i j : nat) :
  cell (IntFrame es) i j = I64 (zcell es i j).
Proof.
  unfold cell, at2, zcell. cbn [np_array2 rows].
  change (@nil num) with (map I64 []).
  now rewrite (map_nth (map I64)), <- (map_nth I64).
Qed.

(** On integer data the radicand of [S] is the integer [C' E C] reduced
    modulo [2^64] to the [int64] range. *)
Lemma radicand_int64 (cs : list Z) (es : matrix Z) :
  radicand (IntSeries cs) (IntFrame es)
  = I64 (wrap (zsum (length cs) (fun j =>
               zsum (length cs) (fun i => nth i cs 0 * zcell es i j)
               * nth j cs 0)))%Z.
Proof.
  unfold radicand, size. cbn [np_array1]. rewrite length_map.
  rewrite (tab_ext _ _ (fun j => I64 (wrap (
             zsum (length cs) (fun i => nth i cs 0 * zcell es i j)
             * nth j cs 0)%Z))).
  - apply np_sum_I64.
  - intros j _.
    rewrite (tab_ext _ _ (fun i => I64 (wrap (nth i cs 0 * zcell es i j)%Z)))
      by (intros i _; now rewrite entry_int, cell_int).
    rewrite np_sum_I64, entry_int. cbn [mul]. now rewrite wrap_mul_l.
Qed.

(** So is every entry of [(E + E.T) @ C]. *)
Lemma sym_row_int64 (cs : list Z) (es : matrix Z) (i : nat) :
  np_sum (tab (length cs) (fun k =>
    mul (add (cell (IntFrame es) i k) (cell (IntFrame es) k i))
        (entry (IntSeries cs) k)))
  = I64 (wrap (zsum (length cs) (fun k =>
               (zcell es i k + zcell es k i) * nth k cs 0)))%Z.
Proof.
  rewrite (tab_ext _ _ (fun k => I64 (wrap (
             (zcell es i k + zcell es k i) * nth k cs 0)%Z))).
  - apply np_sum_I64.
  - intros k _. rewrite !cell_int, entry_int. cbn [add mul].
    now rewrite wrap_mul_l.
Qed.

(** *** Score and gradient *)

Lemma m_engine_S (C0 : Series) (E0 : DataFrame) self :
  engine C0 E0 self -> value S_score self = Return (score C0 E0).
Proof. intros H. apply m_S_score_run, m_engine_coherent, H. Qed.

Lemma m_engine_gradient (C0 : Series) (E0 : DataFrame) self :
  engine C0 E0 self -> value _get_gradient self = Return (gradient C0 E0).
Proof. intros H. apply m_get_gradient_run, m_engine_coherent, H. Qed.

(** C2 (as the program has it): with [s] the value of the [S] property, the
    gradient is the zero vector of length [n] when [s == 0]; otherwise its
    entry [i] is [((E + E.T) @ C)_i / (2 * s)], where the sum
    [(E + E.T) @ C] is taken in the dtype of the data ([int64] with
    wrap-around when both arrays hold integers, [float64] otherwise) and the
    quotient in [float64].  The risk increment is the same vector.  On
    integer data the sum is the integer [((E + E') C)_i] reduced modulo
    [2^64]. *)
Theorem gradient_formula (C0 : Series) (E0 : DataFrame) self s :
  engine C0 E0 self ->
  value S_score self = Return s ->
  value _get_gradient self
  = Return (if (s =? 0)%float then np_zeros (size C0)
            else tab (size C0) (fun i =>
                   (to_float
                      (np_sum (tab (size C0) (fun k =>
                         mul (add (cell E0 i k) (cell E0 k i)) (entry C0 k))))
                    / (2 * s))%float))
  /\ value calculate_risk_increment self = value _get_gradient self
  /\ (forall cs es, C0 = IntSeries cs -> E0 = IntFrame es ->
      forall i,
        np_sum (tab (size C0) (fun k =>
          mul (add (cell E0 i k) (cell E0 k i)) (entry C0 k)))
        = I64 (wrap (zsum (size C0) (fun k =>
                 (zcell es i k + zcell es k i) * nth k cs 0)))%Z).
Proof.
  intros Heng Hs. rewrite (m_engine_S C0 E0 self Heng) in Hs.
  injection Hs as <-. split; [|split; [reflexivity|]].
  - now rewrite (m_engine_gradient C0 E0 self Heng).
  - intros cs es -> -> i. unfold size. cbn [np_array1].
    rewrite length_map. apply sym_row_int64.
Qed.

(** *** The cross-risk matrix *)

(** C3 (as the program has it): with [s] the score and [G] the gradient,
    the cross-risk matrix is [n] by [n]; it is the zero matrix when [s == 0],
    and otherwise [diag(G) + H @ diag(C)] with [H = (A - G G') / s] and
    [A = (E + E.T) / 2]: entry [(i, j)] is
    [delta_ij G_i + sum_k H_ik diag(C)_kj].  [E + E.T] is taken in the dtype
    of [E] ([int64] with wrap-around for an integer matrix); everything else
    is [float64]. *)
Theorem cross_risk_formula (C0 : Series) (E0 : DataFrame) self s G :
  engine C0 E0 self ->
  value S_score self = Return s ->
  value _get_gradient self = Return G ->
  exists Delta,
    value calculate_cross_risk self = Return Delta
    /\ shape Delta = (size C0, size C0)
    /\ ((s =? 0)%float = true -> Delta = np_zeros2 (size C0) (size C0))
    /\ ((s =? 0)%float = false ->
        forall i j, (i < size C0)%nat -> (j < size C0)%nat ->
          fat2 Delta i j
          = ((if Nat.eqb i j then fat1 G i else 0)
             + fsum (tab (size C0) (fun k =>
                 ((to_float (add (cell E0 i k) (cell E0 k i)) / 2
                   - fat1 G i * fat1 G k) / s)
                 * to_float (if Nat.eqb k j then entry C0 k
                             else zero_like (entry C0 k)))))%float).
Proof.
  intros Heng Hs HG.
  rewrite (m_engine_S C0 E0 self Heng) in Hs. injection Hs as <-.
  rewrite (m_engine_gradient C0 E0 self Heng) in HG. injection HG as <-.
  destruct (m_cross_risk_run C0 E0 self (m_engine_coherent C0 E0 self Heng))
    as [Hv _].
  exists (cross_risk C0 E0). split; [exact Hv|].
  unfold cross_risk, cross_risk_of. split; [|split].
  - unfold shape, np_zeros2.
    destruct (score C0 E0 =? 0)%float; now rewrite nrows_tab2, ncols_tab2.
  - intros ->. reflexivity.
  - intros Hz i j Hi Hj. rewrite Hz, fat2_tab2 by assumption. reflexivity.
Qed.

(** *** A negative radicand *)

Lemma float_add_nan_r (x : float) : (x + nan)%float = nan.
Proof.
  apply float_nan_spec. rewrite FloatAxioms.add_spec.
  change (Prim2SF nan) with S754_nan.
  destruct (Prim2SF x) as [s|s| |s m e]; reflexivity.
Qed.

Lemma float_mul_nan_l (x : float) : (nan * x)%float = nan.
Proof. apply float_nan_spec. now rewrite FloatAxioms.mul_spec. Qed.

Lemma fsum_nan (n : nat) :
  (0 < n)%nat -> fsum (tab n (fun _ => nan)) = nan.
Proof.
  destruct n as [|n]; [lia|intros _].
  rewrite tab_S, fsum_app. cbn [fold_left]. apply float_add_nan_r.
Qed.

Lemma np_sum_range (v : list num) (z : Z) :
  np_sum v = I64 z -> (-9223372036854775808 <= z < 9223372036854775808)%Z.
Proof.
  destruct v as [|x v] using rev_ind.
  - intros [= <-]. lia.
  - rewrite m_np_sum_app. cbn [fold_left].
    destruct (np_sum v) as [a|a], x as [b|b]; cbn [add]; try discriminate.
    intros [= <-]. apply wrap_range.
Qed.

(** The square root of a negative radicand, of either dtype, is NaN. *)
Lemma np_sqrt_negative (C0 : Series) (E0 : DataFrame) :
  negative (radicand C0 E0) = true -> score C0 E0 = nan.
Proof.
  unfold score, np_sqrt. intros Hneg.
  apply float_sqrt_negative.
  destruct (radicand C0 E0) as [z|f] eqn:Hr; cbn [negative to_float] in *;
    [|exact Hneg].
  apply of_int64_negative. apply Z.ltb_lt in Hneg.
  pose proof (np_sum_range _ z Hr). lia.
Qed.

(** C8 (as the program has it): [calculate_S] returns the square root of
    the radicand [C' E C] as the program computes it in the dtype of the
    data, and raises nothing.  When that radicand is negative it returns
    NaN; so does the [S] property, and the NaN spreads to
    every entry of the gradient, of the decomposition and of the cross-risk
    matrix, and to the normalized score unless [norm(C) == 0]. *)
Theorem negative_radicand_gives_nan (C0 : Series) (E0 : DataFrame) self :
  engine C0 E0 self ->
  value calculate_S self = Return (np_sqrt (radicand C0 E0))
  /\ (negative (radicand C0 E0) = true ->
  value calculate_S self = Return nan
  /\ value S_score self = Return nan
  /\ value _get_gradient self = Return (tab (size C0) (fun _ => nan))
  /\ value calculate_risk_decomposition self
     = Return (tab (size C0) (fun _ => nan))
  /\ value calculate_normalized_score self
     = Return (if (norm C0 =? 0)%float then 0%float else nan)
  /\ value calculate_cross_risk self
     = Return (tab2 (size C0) (size C0) (fun _ _ => nan))).
Proof.
  intros Heng.
  pose proof (m_engine_coherent C0 E0 self Heng) as H.
  split.
  { unfold value. now rewrite (m_calculate_S_run C0 E0 self H). }
  intros Hneg.
  pose proof (np_sqrt_negative C0 E0 Hneg) as Hs.
  assert (Hg : gradient C0 E0 = tab (size C0) (fun _ => nan)).
  { unfold gradient. rewrite Hs, float_eqb_nan.
    apply tab_ext. intros i _. now rewrite float_mul_nan_r, float_div_nan_r. }
  split.
  { unfold value. rewrite (m_calculate_S_run C0 E0 self H). cbn [fst].
    now rewrite Hs. }
  split; [rewrite (m_engine_S C0 E0 self Heng); now rewrite Hs|].
  split; [rewrite (m_engine_gradient C0 E0 self Heng); now rewrite Hg|].
  split.
  { destruct (m_decomposition_run C0 E0 self H) as [-> _].
    unfold decomposition. rewrite Hg.
    apply f_equal, tab_ext. intros i Hi.
    now rewrite fat1_tab, float_mul_nan_r by assumption. }
  split.
  { destruct (m_normalized_score_run C0 E0 self H) as [-> _].
    unfold normalized_score. now rewrite Hs, float_div_nan_l. }
  destruct (m_cross_risk_run C0 E0 self H) as [-> _].
  unfold cross_risk, cross_risk_of. rewrite Hs, float_eqb_nan, Hg.
  apply f_equal, tab2_ext. intros i j Hi Hj.
  rewrite (tab_ext (size C0)
             (fun k => (hessian C0 E0 (tab (size C0) (fun _ => nan)) nan i k
                        * to_float (if Nat.eqb k j then entry C0 k
                                    else zero_like (entry C0 k)))%float)
             (fun _ => nan)).
  - rewrite fsum_nan by lia. apply float_add_nan_r.
  - intros k _. unfold hessian.
    now rewrite float_div_nan_r, float_mul_nan_l.
Qed.

(** *** Zeros, finite numbers and the identity network *)

























(** *** Fragility on a regular network *)




(** *** The score is always returned *)

(** [calculate_S] raises nothing on an instance in use: the shapes were
    checked when it was built, so both products are defined, and [np.sqrt]
    answers every radicand (NaN below zero).  It returns the square root of
    the radicand [C' E C] as the arrays compute it, and writes nothing; the
    [S] property returns the same number.  On integer data the radicand is
    the integer [C' E C] reduced modulo [2^64]. *)
Theorem calculate_S_never_raises (C0 : Series) (E0 : DataFrame) self :
  engine C0 E0 self ->
  value calculate_S self = Return (np_sqrt (radicand C0 E0))
  /\ after calculate_S self = self
  /\ value S_score self = Return (np_sqrt (radicand C0 E0))
  /\ (forall cs es, C0 = IntSeries cs -> E0 = IntFrame es ->
      radicand C0 E0
      = I64 (wrap (zsum (length cs) (fun j =>
               zsum (length cs) (fun i => nth i cs 0 * zcell es i j)
               * nth j cs 0)))%Z).
Proof.
  intros Heng. pose proof (m_engine_coherent C0 E0 self Heng) as H.
  unfold value, after. rewrite (m_calculate_S_run C0 E0 self H).
  split; [reflexivity|]. split; [reflexivity|].
  split; [exact (m_engine_S C0 E0 self Heng)|].
  intros cs es -> ->. apply radicand_int64.
Qed.

End MachineFacts.

(** *** The decomposition *)




(** ** Worked examples *)

Lemma score_unit : score [1] (Mat 1 [[1]]) = Fin 1.
Proof.
  unfold score, quad_form. cbn [length rsum entry cell nth rows].
  replace (0 + (0 + 1 * 1) * 1) with 1 by lra.
  unfold np_sqrt. destruct (Rlt_dec 1 0); [lra|].
  now rewrite sqrt_1.
Qed.

(** C4 on a two-institution system. *)
Lemma init_validation_witness :
  (exists self, init [1; 2] (Mat 2 [[1; 0]; [0; 1]]) = Return self)
  /\ init [1; 2] (Mat 3 [[1; 0; 0]; [0; 1; 0]]) = Raise NotSquare
  /\ init [1; 2; 3] (Mat 2 [[1; 0]; [0; 1]]) = Raise ShapeMismatch.
Proof.
  split; [|split].
  - apply (proj2 (proj2 (init_validation [1; 2] (Mat 2 [[1; 0]; [0; 1]])))).
    split; reflexivity.
  - apply (proj1 (init_validation [1; 2] (Mat 3 [[1; 0; 0]; [0; 1; 0]]))).
    cbn. lia.
  - apply (proj1 (proj2 (init_validation [1; 2; 3]
                           (Mat 2 [[1; 0]; [0; 1]])))).
    + reflexivity.
    + cbn. lia.
Defined.

(** C7 with a power iteration that uses up its budget. *)
Lemma convergence_failure_is_raised_witness :
  exists self,
    init [1] (Mat 1 [[1]]) = Return self
    /\ value (calculate_centrality DataFrame nx_from_pandas nx_exhausts) self
       = Raise ConvergenceFailure
    /\ same_outputs self
         (after (calculate_centrality DataFrame nx_from_pandas nx_exhausts)
                self).
Proof.
  eexists. split; [reflexivity|].
  destruct (convergence_failure_is_raised DataFrame nx_from_pandas
              nx_exhausts [1] (Mat 1 [[1]])
              (Instance (np_array1 [1]) (np_array2 (Mat 1 [[1]]))
                        (Mat 1 [[1]]) 1 None None None [])
              (Mat 1 [[1]]) 1000)
    as (Hv & _ & _ & _ & Hsame & _).
  - apply engine_new; reflexivity.
  - reflexivity.
  - reflexivity.
  - split; assumption.
Defined.

(** C9, amended, on the one-institution system: a second read of [S] after
    two other calls. *)
Lemma cached_accessors_memoized_witness :
  exists self,
    init [1] (Mat 1 [[1]]) = Return self
    /\ let later :=
         exec_all DataFrame nx_from_pandas nx_converges
                  [CallFragility; CallNodeDegrees] (after S_score self) in
       S_score later = (Return (Fin 1), later).
Proof.
  eexists. split; [reflexivity|].
  assert (Heng : engine DataFrame nx_from_pandas nx_converges
                        [1] (Mat 1 [[1]])
                        (Instance (np_array1 [1]) (np_array2 (Mat 1 [[1]]))
                                  (Mat 1 [[1]]) 1 None None None []))
    by (apply engine_new; reflexivity).
  apply (proj1 (cached_accessors_memoized DataFrame nx_from_pandas
                  nx_converges [1] (Mat 1 [[1]]) _
                  [CallFragility; CallNodeDegrees] Heng)).
  rewrite (engine_S _ _ _ _ _ _ Heng). now rewrite score_unit.
Defined.

(** C9 as stated fails on the fragility: the call leaves every cache
    attribute empty (the class has none for it), and a second call evaluates
    the formula a second time. *)
Lemma cached_accessors_memoized_counterexample :
  exists self,
    init [1] (Mat 1 [[1]]) = Return self
    /\ let once := after calculate_fragility self in
       let twice := after calculate_fragility once in
       self_s_score once = None
       /\ self_centrality once = None
       /\ self_gradient_s once = None
       /\ evaluations MFragility once = 1%nat
       /\ evaluations MFragility twice = 2%nat.
Proof.
  eexists. split; [reflexivity|]. cbv zeta.
  rewrite !calculate_fragility_after.
  repeat split.
Qed.

(** C10 on two one-institution engines over [E = [[2]]]. *)
Lemma fragility_and_degrees_ignore_C_witness :
  exists self1 self2,
    init [1] (Mat 1 [[2]]) = Return self1
    /\ init [5] (Mat 1 [[2]]) = Return self2
    /\ value calculate_fragility self1 = value calculate_fragility self2
    /\ value calculate_node_degrees self1
       = value calculate_node_degrees self2.
Proof.
  exists (Instance (np_array1 [1]) (np_array2 (Mat 1 [[2]]))
                   (Mat 1 [[2]]) 1 None None None []).
  exists (Instance (np_array1 [5]) (np_array2 (Mat 1 [[2]]))
                   (Mat 1 [[2]]) 1 None None None []).
  split; [reflexivity|]. split; [reflexivity|].
  destruct (fragility_and_degrees_ignore_C DataFrame nx_from_pandas
              nx_converges [1] [5] (Mat 1 [[2]])
              (Instance (np_array1 [1]) (np_array2 (Mat 1 [[2]]))
                        (Mat 1 [[2]]) 1 None None None [])
              (Instance (np_array1 [5]) (np_array2 (Mat 1 [[2]]))
                        (Mat 1 [[2]]) 1 None None None []))
    as [(r & Hr1 & Hr2) (d & Hd1 & Hd2)].
  - apply engine_new; reflexivity.
  - apply engine_new; reflexivity.
  - split; congruence.
Defined.

(** ** Worked examples for the further properties *)

Lemma inputs_never_change_witness :
  exists self,
    init [1] (Mat 1 [[1]]) = Return self
    /\ validate_inputs (after calculate_fragility self)
       = (Return tt, after calculate_fragility self).
Proof.
  eexists. split; [reflexivity|].
  apply (inputs_never_change DataFrame nx_from_pandas nx_converges
           [1] (Mat 1 [[1]])).
  apply (engine_call _ _ _ _ _ _ CallFragility).
  apply engine_new; reflexivity.
Defined.


Lemma criticality_is_weighted_centrality_witness :
  exists self,
    init [1] (Mat 1 [[1]]) = Return self
    /\ value (calculate_criticality DataFrame nx_from_pandas nx_converges)
             self
       = Return [fmul (Fin (entry [1] 0)) (get1 [Fin 1] 0)].
Proof.
  eexists. split; [reflexivity|].
  apply (criticality_is_weighted_centrality DataFrame nx_from_pandas
           nx_converges [1] (Mat 1 [[1]]) _ [Fin 1]).
  - apply engine_new; reflexivity.
  - reflexivity.
Defined.

Lemma validate_adjacency_matrix_accepts_witness :
  fst (validate_adjacency_matrix (Mat 3 [[1; 0; 0]; [0; 1; 0]])) = false
  /\ length (snd (validate_adjacency_matrix (Mat 3 [[1; 0; 0]; [0; 1; 0]])))
     = 1%nat.
Proof.
  apply (proj2 (proj2 (validate_adjacency_matrix_accepts
                         (Mat 3 [[1; 0; 0]; [0; 1; 0]]) eq_refl))).
  cbn. lia.
Defined.

Lemma calculate_all_metrics_outcomes_witness :
  exists m,
    calculate_all_metrics DataFrame nx_from_pandas nx_exhausts
      [1; 2] (Mat 3 [[1; 0; 0]; [0; 1; 0]])
      (Session None None None None None None None None None)
    = (st_error ("Error during calculation: " ++ m),
       Session None None None None None None None None None).
Proof.
  apply (proj1 (calculate_all_metrics_outcomes DataFrame nx_from_pandas
                  nx_exhausts [1; 2] (Mat 3 [[1; 0; 0]; [0; 1; 0]])
                  (Session None None None None None None None None None)
                  eq_refl) NotSquare).
  reflexivity.
Defined.


Lemma centrality_failure_is_not_cached_witness :
  exists self,
    init [1] (Mat 1 [[1]]) = Return self
    /\ evaluations MCentrality
         (after (calculate_centrality DataFrame nx_from_pandas nx_exhausts)
                self)
       = 1%nat.
Proof.
  exists (Instance (np_array1 [1]) (np_array2 (Mat 1 [[1]]))
                   (Mat 1 [[1]]) 1 None None None []).
  split; [reflexivity|].
  assert (Heng : engine DataFrame nx_from_pandas nx_exhausts
                        [1] (Mat 1 [[1]])
                        (Instance (np_array1 [1]) (np_array2 (Mat 1 [[1]]))
                                  (Mat 1 [[1]]) 1 None None None []))
    by (apply engine_new; reflexivity).
  destruct (centrality_failure_is_not_cached DataFrame nx_from_pandas
              nx_exhausts [1] (Mat 1 [[1]]) _ ConvergenceFailure Heng
              eq_refl) as (_ & Hev & _).
  exact Hev.
Defined.

(** ** Worked examples in numpy's arithmetic *)

(** C2 as stated fails on integer data: with [C = [0, 1]] and
    [E = [[1, 2^62], [2^62, 1]]] the score is 1 and the first entry of
    [(E + E') C / (2 S)] is [2^63 / 2], a positive number; the program's
    [E + E.T] wraps to [-2^63] and the gradient it returns starts with a
    negative entry. *)
Lemma gradient_formula_counterexample :
  exists self g0 g1,
    Machine.init (Machine.IntSeries [0; 1]%Z)
                 (Machine.IntFrame
                    (Mat 2 [[1; 4611686018427387904];
                            [4611686018427387904; 1]]%Z))
    = Return self
    /\ Machine.value Machine.S_score self = Return 1%float
    /\ Machine.value Machine._get_gradient self = Return [g0; g1]
    /\ (g0 <? 0)%float = true
    /\ (0 < ((1 + 1) * 0
             + (4611686018427387904 + 4611686018427387904) * 1) / (2 * 1))%Z.
Proof.
  do 3 eexists. split; [reflexivity|]. split; [reflexivity|].
  split; [reflexivity|]. split; [reflexivity|]. reflexivity.
Qed.

(** C2 on the same system: the formula of the theorem, with its [int64]
    sum, gives the gradient the program returns. *)
Lemma gradient_formula_witness :
  exists self,
    Machine.init (Machine.IntSeries [0; 1]%Z)
                 (Machine.IntFrame
                    (Mat 2 [[1; 4611686018427387904];
                            [4611686018427387904; 1]]%Z))
    = Return self
    /\ Machine.value Machine._get_gradient self
       = Return [(-0x1p62)%float; 1%float]
    /\ Machine.value Machine.calculate_risk_increment self
       = Machine.value Machine._get_gradient self.
Proof.
  eexists. split; [reflexivity|].
  assert (Heng : Machine.engine
                   (Machine.IntSeries [0; 1]%Z)
                   (Machine.IntFrame
                      (Mat 2 [[1; 4611686018427387904];
                              [4611686018427387904; 1]]%Z)) _)
    by (apply Machine.engine_new; reflexivity).
  destruct (MachineFacts.gradient_formula _ _ _ 1%float Heng eq_refl)
    as (Hg & Hinc & _).
  split; [rewrite Hg; reflexivity|exact Hinc].
Defined.

(** C3 as stated fails on the same system: with the score [S = 1] and the
    gradient [G = [-2^62, 1]] the program returns, entry [(0, 1)] of
    [diag(G) + H diag(C)] is [((E_01 + E_10) / 2 - G_0 G_1) / S * C_1
    = 2^63]; the program's [E + E.T] wraps and it returns 0 there. *)
Lemma cross_risk_formula_counterexample :
  exists self Delta,
    Machine.init (Machine.IntSeries [0; 1]%Z)
                 (Machine.IntFrame
                    (Mat 2 [[1; 4611686018427387904];
                            [4611686018427387904; 1]]%Z))
    = Return self
    /\ Machine.value Machine.S_score self = Return (Machine.of_int64 1)
    /\ Machine.value Machine._get_gradient self
       = Return [Machine.of_int64 (-4611686018427387904);
                 Machine.of_int64 1]
    /\ Machine.value Machine.calculate_cross_risk self = Return Delta
    /\ Machine.fat2 Delta 0 1 = 0%float
    /\ (0 + ((4611686018427387904 + 4611686018427387904) / 2
             - (-4611686018427387904) * 1) / 1 * 1
        = 9223372036854775808)%Z.
Proof.
  do 2 eexists. split; [reflexivity|]. split; [reflexivity|].
  split; [reflexivity|]. split; [reflexivity|]. split; reflexivity.
Qed.

(** C3 on the same system, entry by entry. *)
Lemma cross_risk_formula_witness :
  exists self Delta,
    Machine.init (Machine.IntSeries [0; 1]%Z)
                 (Machine.IntFrame
                    (Mat 2 [[1; 4611686018427387904];
                            [4611686018427387904; 1]]%Z))
    = Return self
    /\ Machine.value Machine.calculate_cross_risk self = Return Delta
    /\ shape Delta = (2%nat, 2%nat)
    /\ Machine.fat2 Delta 0 0 = (-0x1p62)%float
    /\ Machine.fat2 Delta 0 1 = 0%float
    /\ Machine.fat2 Delta 1 0 = 0%float
    /\ Machine.fat2 Delta 1 1 = 1%float.
Proof.
  eexists.
  assert (Heng : Machine.engine
                   (Machine.IntSeries [0; 1]%Z)
                   (Machine.IntFrame
                      (Mat 2 [[1; 4611686018427387904];
                              [4611686018427387904; 1]]%Z)) _)
    by (apply Machine.engine_new; reflexivity).
  destruct (MachineFacts.cross_risk_formula _ _ _ 1%float
              [(-0x1p62)%float; 1%float] Heng eq_refl eq_refl)
    as (Delta & Hv & Hshape & _ & Hf).
  exists Delta. split; [reflexivity|]. split; [exact Hv|].
  split; [exact Hshape|].
  specialize (Hf eq_refl).
  repeat split; rewrite Hf by (cbn; lia); reflexivity.
Defined.







(** C8 as stated fails on integer data: with [C = [3037000500]] and
    [E = [[-1]]] the quadratic form is [-3037000500^2], a negative number,
    but the program's product wraps to a positive [int64] and [calculate_S]
    returns its square root, about [3.04e9]. *)
Lemma negative_radicand_gives_nan_counterexample :
  exists self s,
    Machine.init (Machine.IntSeries [3037000500%Z])
                 (Machine.IntFrame (Mat 1 [[(-1)%Z]])) = Return self
    /\ (3037000500 * -1 * 3037000500 < 0)%Z
    /\ Machine.value Machine.calculate_S self = Return s
    /\ is_nan s = false
    /\ (3037000499 <? s)%float = true.
Proof.
  do 2 eexists. split; [reflexivity|]. split; [reflexivity|].
  split; [reflexivity|]. split; reflexivity.
Qed.

(** C8 on the integer data [C = [4000000000]], [E = [[1]]]: the product
    [16 * 10^18] wraps to a negative [int64], and the score is NaN. *)
Lemma negative_radicand_gives_nan_witness :
  exists self,
    Machine.init (Machine.IntSeries [4000000000%Z])
                 (Machine.IntFrame (Mat 1 [[1%Z]])) = Return self
    /\ Machine.radicand (Machine.IntSeries [4000000000%Z])
                        (Machine.IntFrame (Mat 1 [[1%Z]]))
       = Machine.I64 (-2446744073709551616)
    /\ Machine.value Machine.calculate_S self = Return nan
    /\ Machine.value Machine._get_gradient self = Return [nan].
Proof.
  eexists. split; [reflexivity|]. split; [reflexivity|].
  assert (Heng : Machine.engine (Machine.IntSeries [4000000000%Z])
                   (Machine.IntFrame (Mat 1 [[1%Z]])) _)
    by (apply Machine.engine_new; reflexivity).
  destruct (MachineFacts.negative_radicand_gives_nan _ _ _ Heng)
    as [_ Hnan].
  destruct (Hnan eq_refl) as (HS & _ & Hg & _).
  split; [exact HS|exact Hg].
Defined.

(** The score of [C = [2^32 + 1]], [E = [[1]]]: the radicand is
    [(2^32 + 1)^2] reduced modulo [2^64], that is [2^33 + 1]. *)
Lemma calculate_S_never_raises_witness :
  exists self,
    Machine.init (Machine.IntSeries [4294967297%Z])
                 (Machine.IntFrame (Mat 1 [[1%Z]])) = Return self
    /\ Machine.value Machine.calculate_S self
       = Return (PrimFloat.sqrt 8589934593)
    /\ Machine.after Machine.calculate_S self = self.
Proof.
  eexists. split; [reflexivity|].
  assert (Heng : Machine.engine (Machine.IntSeries [4294967297%Z])
                   (Machine.IntFrame (Mat 1 [[1%Z]])) _)
    by (apply Machine.engine_new; reflexivity).
  destruct (MachineFacts.calculate_S_never_raises _ _ _ Heng)
    as (HS & Hafter & _).
  split; [rewrite HS; reflexivity|exact Hafter].
Defined.

(** A table whose CompromiseScore label occurs twice is not validated: the
    call raises. *)
Example duplicated_label_raises :
  validate_institution_data
    [("InstitutionID", Text ["A"]); ("Name", Text ["Bank A"]);
     ("CompromiseScore", Numbers (Machine.FloatSeries [1%float]));
     ("CompromiseScore", Numbers (Machine.FloatSeries [2%float]))]%string
  = Raise ambiguous_truth_value.
Proof. reflexivity. Qed.

(** A table with an empty score cell (NaN) is accepted. *)
Example empty_score_cell_accepted :
  validate_institution_data
    [("InstitutionID", Text ["A"]); ("Name", Text ["Bank A"]);
     ("CompromiseScore", Numbers (Machine.FloatSeries [nan]))]%string
  = Return (true, []).
Proof. reflexivity. Qed.

(** [validate_institution_data] on a table with one numeric score column, one
    of whose cells is empty. *)
Lemma validate_institution_data_accepts_witness :
  exists is_valid errors,
    validate_institution_data
      [("InstitutionID", Text ["A"; "B"]);
       ("Name", Text ["Bank A"; "Bank B"]);
       ("CompromiseScore",
        Numbers (Machine.FloatSeries [0x1p-1%float; nan]))]%string
    = Return (is_valid, errors)
    /\ is_valid = true
    /\ errors = [].
Proof.
  destruct (proj1 (proj2 (validate_institution_data_accepts
      [("InstitutionID", Text ["A"; "B"]);
       ("Name", Text ["Bank A"; "Bank B"]);
       ("CompromiseScore",
        Numbers (Machine.FloatSeries [0x1p-1%float; nan]))]%string))
      (Machine.FloatSeries [0x1p-1%float; nan]) eq_refl)
    as (is_valid & errors & Hrun & Hflag & Hacc).
  exists is_valid, errors. split; [exact Hrun|].
  assert (Hv : is_valid = true).
  { apply Hacc. split; [reflexivity|]. split; [reflexivity|].
    repeat constructor. }
  split; [exact Hv|now apply Hflag].
Defined.
